(** * Unite_1inch: order construction, hashing and settlement workflow

    A shallow embedding of the demo helpers of the repository
    (manualLimitOrderDemo.js, simpleLimitOrderDemo.js, limitOrderDemo.js,
    workingLimitOrderDemo.js, workingUniswapDemo.js, the classes
    [Working1inchLimitOrder], [OfficialSDKDemo], [SimpleWorkingDemo],
    [UniswapDemo] and [DirectSwapDemo], and the click handler of components/RobustSwapDemo.js),
    followed by the properties of the order lifecycle that the specification
    states about them.

    - BigInt values are [Z]; byte strings are [list byte].
    - [ethers.keccak256] and the ABI encoding of static values are
      executable, so order hashes can be computed.
    - An [async] helper is a finite tree of awaited requests ([Effects.prog]);
      a run answers the requests by an arbitrary world ([Effects.handler])
      and records them in a trace.
    - JavaScript doubles and the ethers unit helpers form the interface
      [Lib.JsLib]; [DecimalJs] instantiates it on short decimals. *)

From Stdlib Require Import ZArith List String Ascii Bool Lia.
From Stdlib Require Import Strings.Byte.
From Stdlib Require DecimalString.
Import ListNotations.
Local Open Scope Z_scope.

(** ** Bytes *)

Module Bytes.

Definition byte_of_Z (z : Z) : byte :=
  match Byte.of_N (Z.to_N (z mod 256)) with
  | Some b => b
  | None => x00
  end.

Definition Z_of_byte (b : byte) : Z := Z.of_N (Byte.to_N b).

(** Big-endian rendering of [v] on [n] bytes (the low [8 * n] bits). *)
Fixpoint be_bytes (n : nat) (v : Z) : list byte :=
  match n with
  | O => []
  | S n' => byte_of_Z (Z.shiftr v (8 * Z.of_nat n')) :: be_bytes n' v
  end.

(** Little-endian rendering, used for the 64-bit lanes of the sponge. *)
Fixpoint le_bytes (n : nat) (v : Z) : list byte :=
  match n with
  | O => []
  | S n' => byte_of_Z v :: le_bytes n' (Z.shiftr v 8)
  end.

Definition be_value (bs : list byte) : Z :=
  fold_left (fun acc b => acc * 256 + Z_of_byte b) bs 0.

Fixpoint le_value (bs : list byte) : Z :=
  match bs with
  | [] => 0
  | b :: bs' => Z_of_byte b + 256 * le_value bs'
  end.

Fixpoint bytes_eqb (x y : list byte) : bool :=
  match x, y with
  | [], [] => true
  | a :: x', b :: y' => Byte.eqb a b && bytes_eqb x' y'
  | _, _ => false
  end.

(** [ethers.toUtf8Bytes] on a string of code points below 128. *)
Definition toUtf8Bytes (s : string) : list byte := list_byte_of_string s.

End Bytes.

(** ** Keccak-256 ([ethers.keccak256]) *)

Module Keccak.
Import Bytes.

Definition mask64 : Z := Z.ones 64.

Definition rotl64 (v : Z) (n : Z) : Z :=
  Z.land (Z.lor (Z.shiftl v n) (Z.shiftr v (64 - n))) mask64.

Definition lane (st : list Z) (i : nat) : Z := nth i st 0.

Definition rotation_offsets : list Z :=
  [ 0;  1; 62; 28; 27;
   36; 44;  6; 55; 20;
    3; 10; 43; 25; 39;
   41; 45; 15; 21;  8;
   18;  2; 61; 56; 14].

Definition round_constants : list Z :=
  [0x0000000000000001; 0x0000000000008082; 0x800000000000808A;
   0x8000000080008000; 0x000000000000808B; 0x0000000080000001;
   0x8000000080008081; 0x8000000000008009; 0x000000000000008A;
   0x0000000000000088; 0x0000000080008009; 0x000000008000000A;
   0x000000008000808B; 0x800000000000008B; 0x8000000000008089;
   0x8000000000008003; 0x8000000000008002; 0x8000000000000080;
   0x000000000000800A; 0x800000008000000A; 0x8000000080008081;
   0x8000000000008080; 0x0000000080000001; 0x8000000080008008].

Definition idx25 : list nat := seq 0 25.

Definition theta (st : list Z) : list Z :=
  let c := map (fun x =>
             Z.lxor (lane st x)
               (Z.lxor (lane st (x + 5))
                  (Z.lxor (lane st (x + 10))
                     (Z.lxor (lane st (x + 15)) (lane st (x + 20))))))
             (seq 0 5) in
  let d := map (fun x =>
             Z.lxor (lane c ((x + 4) mod 5)) (rotl64 (lane c ((x + 1) mod 5)) 1))
             (seq 0 5) in
  map (fun i => Z.lxor (lane st i) (lane d (i mod 5))) idx25.

(** rho and pi together: B[y, 2x+3y] = rot (A[x, y], r[x, y]). *)
Definition rho_pi (st : list Z) : list Z :=
  map (fun j =>
         let X := (j mod 5)%nat in
         let Y := (j / 5)%nat in
         let x := ((X + 3 * Y) mod 5)%nat in
         let i := (x + 5 * X)%nat in
         rotl64 (lane st i) (nth i rotation_offsets 0))
      idx25.

Definition chi (st : list Z) : list Z :=
  map (fun j =>
         let x := (j mod 5)%nat in
         let y := (j / 5)%nat in
         let b1 := lane st ((x + 1) mod 5 + 5 * y) in
         let b2 := lane st ((x + 2) mod 5 + 5 * y) in
         Z.lxor (lane st j) (Z.land (Z.lxor b1 mask64) b2))
      idx25.

Definition iota (rc : Z) (st : list Z) : list Z :=
  match st with
  | [] => []
  | a :: rest => Z.lxor a rc :: rest
  end.

Definition keccak_round (st : list Z) (rc : Z) : list Z :=
  iota rc (chi (rho_pi (theta st))).

Definition keccak_f (st : list Z) : list Z :=
  fold_left keccak_round round_constants st.

Definition rate : nat := 136.

(** Multi-rate padding of Keccak (domain byte 0x01, final bit 0x80). *)
Definition pad (msg : list byte) : list byte :=
  let r := (rate - (List.length msg mod rate))%nat in
  match r with
  | 1%nat => (msg ++ [x81])%list
  | _ => (msg ++ [x01] ++ repeat x00 (r - 2) ++ [x80])%list
  end.

Fixpoint lanes_of_bytes (n : nat) (bs : list byte) : list Z :=
  match n with
  | O => []
  | S n' => le_value (firstn 8 bs) :: lanes_of_bytes n' (skipn 8 bs)
  end.

Definition absorb_block (st : list Z) (block : list byte) : list Z :=
  let ls := lanes_of_bytes 17 block in
  keccak_f (map (fun i => Z.lxor (lane st i) (lane ls i)) idx25).

Fixpoint absorb (nblocks : nat) (st : list Z) (bs : list byte) : list Z :=
  match nblocks with
  | O => st
  | S n' => absorb n' (absorb_block st (firstn rate bs)) (skipn rate bs)
  end.

Definition keccak256 (msg : list byte) : list byte :=
  let p := pad msg in
  let st := absorb (List.length p / rate) (repeat 0 25) p in
  flat_map (le_bytes 8) (firstn 4 st).

End Keccak.

(** ** ABI encoding of static values ([ethers.AbiCoder.defaultAbiCoder().encode]) *)

Module Abi.
Import Bytes.

Inductive value : Type :=
| Uint256 (v : Z)
| Address (a : Z)
| Bytes32 (b : list byte).

Definition in_range (bits : Z) (v : Z) : bool :=
  (0 <=? v) && (v <? 2 ^ bits).

(** One 32-byte head word; [None] is the coder throwing on a value that
    does not fit its type. *)
Definition encode_word (v : value) : option (list byte) :=
  match v with
  | Uint256 n => if in_range 256 n then Some (be_bytes 32 n) else None
  | Address a => if in_range 160 a then Some (be_bytes 32 a) else None
  | Bytes32 b => if (List.length b =? 32)%nat then Some b else None
  end.

Fixpoint encode (vs : list value) : option (list byte) :=
  match vs with
  | [] => Some []
  | v :: rest =>
      match encode_word v, encode rest with
      | Some w, Some ws => Some (w ++ ws)%list
      | _, _ => None
      end
  end.

End Abi.

(** ** Orders, domains and the two order-hash functions *)

Definition address := Z.

Definition WETH_ADDRESS : address := 0xC02aaA39b223FE8D0A0e5C4F27eAD9083C756Cc2.
Definition USDC_ADDRESS : address := 0xA0b86991c6218b36c1d19D4a2e9Eb0cE3606eB48.
Definition LIMIT_ORDER_PROTOCOL : address := 0x111111125421ca6dc452d289314280a0f8842a65.
Definition UNISWAP_ROUTER : address := 0x7a250d5630B4cF539739dF2C5dAcb4c659F2488D.

Record Order : Type := mkOrder {
  salt : Z;
  maker : address;
  receiver : address;
  makerAsset : address;
  takerAsset : address;
  makingAmount : Z;
  takingAmount : Z;
  makerTraits : Z
}.

Record Domain : Type := mkDomain {
  name : string;
  version : string;
  chainId : Z;
  verifyingContract : address
}.

Definition with_salt (o : Order) (s : Z) : Order :=
  mkOrder s (maker o) (receiver o) (makerAsset o) (takerAsset o)
          (makingAmount o) (takingAmount o) (makerTraits o).


(** ** Awaited calls, errors and traces

    Every [await] of the helpers is a request to the outside world (wallet,
    JSON-RPC provider, contracts, clock, SDK).  A helper is a finite tree of
    such requests; the world answers each one with a value or a rejection.
    Console output is not modelled. *)

Module Effects.

(** A JavaScript [Error], observed through its [message]. *)
Record error : Type := mkError { message : string }.

(** A wallet signer; [await signer.getAddress()] is its [account]. *)
Record signer : Type := mkSigner { account : address }.
Record tx : Type := mkTx { hash : string }.
Record receipt : Type := mkReceipt { blockNumber : Z; gasUsed : Z }.

(** Arguments of a contract method, as ethers receives them. *)
#[local] Unset Elimination Schemes.
Inductive arg : Type :=
| AInt (v : Z)
| AAddr (a : address)
| AData (d : string)
| ATuple (fields : list arg)
| AList (items : list arg).
#[local] Set Elimination Schemes.

Record call : Type := mkCall {
  target : address;
  method : string;
  args : list arg
}.

Record overrides : Type := mkOverrides {
  value : option Z;
  gasLimit : option Z
}.

Definition no_overrides : overrides := mkOverrides None None.

Definition order_tuple (o : Order) : arg :=
  ATuple [AInt (salt o); AAddr (maker o); AAddr (receiver o);
          AAddr (makerAsset o); AAddr (takerAsset o);
          AInt (makingAmount o); AInt (takingAmount o);
          AInt (makerTraits o)].

(** The order struct without its salt, as the seven-field fill ABI takes it. *)
Definition order_tuple7 (o : Order) : arg :=
  ATuple [AAddr (maker o); AAddr (receiver o);
          AAddr (makerAsset o); AAddr (takerAsset o);
          AInt (makingAmount o); AInt (takingAmount o);
          AInt (makerTraits o)].

(** Maker traits as requested from the SDK's [MakerTraits] builder. *)
Record SdkTraits : Type := mkSdkTraits {
  withExpiration : option Z;
  allowPartialFills : bool;
  allowMultipleFills : bool
}.

(** The order info handed to the SDK ([orderData]). *)
Record OrderInfo : Type := mkOrderInfo {
  info_makerAsset : address;
  info_takerAsset : address;
  info_makingAmount : Z;
  info_takingAmount : Z;
  info_maker : address;
  info_receiver : address
}.

(** An SDK [LimitOrder]: its [data]. *)
Record LimitOrder : Type := mkLimitOrder { data : Order }.

Record TypedData : Type := mkTypedData {
  td_domain : Domain;
  td_message : Order
}.

Inductive event : Type -> Type :=
| GetSigner : event signer
| GetBalance (who : address) : event Z
| CallUint (c : call) : event Z
| CallUints (c : call) : event (list Z)
| CallBytes32 (c : call) : event (list byte)
| Send (c : call) (ov : overrides) : event tx
| EstimateGas (c : call) (ov : overrides) : event Z
| Wait (t : tx) : event receipt
| SignTypedData (s : signer) (d : Domain) (o : Order) : event string
| DateNow : event Z
| MathRandom1000 : event Z
| SdkCreateOrder (info : OrderInfo) (traits : SdkTraits) : event LimitOrder
| SdkGetTypedData (lo : LimitOrder) (chain : Z) : event TypedData
| SdkGetOrderHash (lo : LimitOrder) (chain : Z) : event (list byte).

Inductive prog (A : Type) : Type :=
| Ret (a : A)
| Throw (e : error)
| Vis {R : Type} (ev : event R) (k : error + R -> prog A).

Arguments Ret {A} a.
Arguments Throw {A} e.
Arguments Vis {A R} ev k.

Fixpoint bind {A B : Type} (p : prog A) (f : A -> prog B) : prog B :=
  match p with
  | Ret a => f a
  | Throw e => Throw e
  | Vis ev k => Vis ev (fun r => bind (k r) f)
  end.

(** [try { p } catch (e) { h e }] *)
Fixpoint try_catch {A : Type} (p : prog A) (h : error -> prog A) : prog A :=
  match p with
  | Ret a => Ret a
  | Throw e => h e
  | Vis ev k => Vis ev (fun r => try_catch (k r) h)
  end.

(** [await] of one request: a rejection is thrown. *)
Definition await {R : Type} (ev : event R) : prog R :=
  Vis ev (fun r => match r with inl e => Throw e | inr v => Ret v end).

(** A synchronous library call that may throw. *)
Definition lift {A : Type} (r : error + A) : prog A :=
  match r with inl e => Throw e | inr v => Ret v end.

(** [p] with its outcome made explicit, so that nothing is thrown. *)
Definition attempt {A : Type} (p : prog A) : prog (error + A) :=
  try_catch (bind p (fun a => Ret (inr a))) (fun e => Ret (inl e)).

Declare Scope prog_scope.
Delimit Scope prog_scope with prog.
Notation "x <- p ;; q" := (bind p (fun x => q))
  (at level 61, p at next level, right associativity) : prog_scope.
Notation "p ;;; q" := (bind p (fun _ => q))
  (at level 61, right associativity) : prog_scope.

(** One answered request of a run. *)
Inductive entry : Type :=
| Entry {R : Type} (ev : event R) (r : error + R).

Definition trace := list entry.

(** The world: how each request is answered, in a state [W] of its own. *)
Definition handler (W : Type) : Type :=
  forall R : Type, event R -> W -> (error + R) * W.

Fixpoint run {W A : Type} (h : handler W) (p : prog A) (w : W)
  : (error + A) * trace * W :=
  match p with
  | Ret a => (inr a, [], w)
  | Throw e => (inl e, [], w)
  | Vis ev k =>
      let '(r, w1) := h _ ev w in
      let '(res, tr, w2) := run h (k r) w1 in
      (res, Entry ev r :: tr, w2)
  end.

Definition outcome {W A : Type} (h : handler W) (p : prog A) (w : W)
  : error + A := fst (fst (run h p w)).

Definition trace_of {W A : Type} (h : handler W) (p : prog A) (w : W)
  : trace := snd (fst (run h p w)).

Definition world_after {W A : Type} (h : handler W) (p : prog A) (w : W)
  : W := snd (run h p w).

(** *** Classifying the entries of a trace *)

Definition entry_call (en : entry) : option call :=
  match en with
  | Entry ev _ =>
      match ev with
      | CallUint c => Some c
      | CallUints c => Some c
      | CallBytes32 c => Some c
      | Send c _ => Some c
      | EstimateGas c _ => Some c
      | _ => None
      end
  end.

Definition is_send (en : entry) : bool :=
  match en with
  | Entry ev _ => match ev with Send _ _ => true | _ => false end
  end.

Definition is_sign (en : entry) : bool :=
  match en with
  | Entry ev _ => match ev with SignTypedData _ _ _ => true | _ => false end
  end.

Definition is_wait (en : entry) : bool :=
  match en with
  | Entry ev _ => match ev with Wait _ => true | _ => false end
  end.

Definition is_sdk_build (en : entry) : bool :=
  match en with
  | Entry ev _ => match ev with SdkCreateOrder _ _ => true | _ => false end
  end.

(** A transaction sent to [method] (of any contract). *)
Definition is_send_of (m : string) (en : entry) : bool :=
  match en with
  | Entry ev _ =>
      match ev with
      | Send c _ => String.eqb (method c) m
      | _ => false
      end
  end.

(** A view call of [method] on contract [t]. *)
Definition is_view_of (t : address) (m : string) (en : entry) : bool :=
  match en with
  | Entry ev _ =>
      match ev with
      | CallUint c | CallUints c | CallBytes32 c =>
          (target c =? t) && String.eqb (method c) m
      | _ => false
      end
  end.

Definition succeeded (en : entry) : bool :=
  match en with
  | Entry _ r => match r with inl _ => false | inr _ => true end
  end.

Definition count (p : entry -> bool) (tr : trace) : nat :=
  List.length (filter p tr).

(** Every entry satisfying [q] comes after some entry satisfying [p]. *)
Fixpoint preceded_by (p q : entry -> bool) (seen : bool) (tr : trace) : bool :=
  match tr with
  | [] => true
  | en :: rest =>
      (if q en then seen else true)
      && preceded_by p q (seen || p en) rest
  end.

(** Requests that build, sign or submit something. *)
Definition builds_signs_or_submits (en : entry) : bool :=
  is_sign en || is_send en || is_sdk_build en.

(** [p] holds of the entry and the request was answered, not rejected. *)
Definition ok (p : entry -> bool) (en : entry) : bool := p en && succeeded en.

(** The transaction [token.approve(spender, _)]. *)
Definition is_approve_of (token spender : address) (en : entry) : bool :=
  match en with
  | Entry ev _ =>
      match ev with
      | Send c _ =>
          (target c =? token) && String.eqb (method c) "approve"
          && match args c with
             | [AAddr sp; AInt _] => sp =? spender
             | _ => false
             end
      | _ => false
      end
  end.

(** A transaction, or a gas estimate for one, to [method] of contract [t]. *)
Definition is_request_to (t : address) (m : string) (en : entry) : bool :=
  match en with
  | Entry ev _ =>
      match ev with
      | Send c _ | EstimateGas c _ => (target c =? t) && String.eqb (method c) m
      | _ => false
      end
  end.

(** No entry satisfying [p] comes after an entry satisfying [q]. *)
Fixpoint never_after (p q : entry -> bool) (seen : bool) (tr : trace) : bool :=
  match tr with
  | [] => true
  | en :: rest =>
      (if p en then negb seen else true)
      && never_after p q (seen || q en) rest
  end.


(** The transaction a [Send] entry returned. *)
Definition sent_tx (en : entry) : option tx :=
  match en with
  | Entry ev r =>
      match ev in event R return (error + R -> option tx) with
      | Send _ _ => fun r => match r with inr t => Some t | inl _ => None end
      | _ => fun _ => None
      end r
  end.

(** The transaction whose confirmation a [Wait] entry obtained. *)
Definition confirmed_tx (en : entry) : option tx :=
  match en with
  | Entry ev r =>
      match ev in event R return (error + R -> option tx) with
      | Wait t => fun r => match r with inr _ => Some t | inl _ => None end
      | _ => fun _ => None
      end r
  end.

Inductive approval : Type :=
| NotSent
| Sent (t : tx)
| Confirmed.

Definition approval_step (is_approve : entry -> bool) (st : approval) (en : entry)
  : approval :=
  if is_approve en
  then match sent_tx en with Some t => Sent t | None => st end
  else match st, confirmed_tx en with
       | Sent t, Some t' => if String.eqb (hash t) (hash t') then Confirmed else st
       | _, _ => st
       end.

(** Every entry satisfying [is_fill] comes after the approval transaction
    was sent and its confirmation awaited. *)
Fixpoint fills_after_confirmation (is_approve is_fill : entry -> bool)
         (st : approval) (tr : trace) : bool :=
  match tr with
  | [] => true
  | en :: rest =>
      (if is_fill en
       then match st with Confirmed => true | _ => false end
       else true)
      && fills_after_confirmation is_approve is_fill
           (approval_step is_approve st en) rest
  end.

(** A short name for the request of an entry, with "!" when it was
    rejected. *)
Definition describe (en : entry) : string :=
  match en with
  | Entry ev r =>
      (match ev with
       | GetSigner => "getSigner"
       | GetBalance _ => "getBalance"
       | CallUint c | CallUints c | CallBytes32 c => method c
       | Send c _ => "send " ++ method c
       | EstimateGas c _ => "estimateGas " ++ method c
       | Wait _ => "wait"
       | SignTypedData _ _ _ => "signTypedData"
       | DateNow => "Date.now"
       | MathRandom1000 => "Math.random"
       | SdkCreateOrder _ _ => "sdk order"
       | SdkGetTypedData _ _ => "sdk typed data"
       | SdkGetOrderHash _ _ => "sdk order hash"
       end
       ++ match r with inl _ => "!" | inr _ => "" end)%string
  end.

(** The signer and the order of a signing request. *)
Definition signed_order (en : entry) : list (signer * Order) :=
  match en with
  | Entry ev _ =>
      match ev with
      | SignTypedData s _ o => [(s, o)]
      | _ => []
      end
  end.

(** All orders a run asked the wallet to sign, each with the signing
    account. *)
Definition signed_orders (tr : trace) : list (signer * Order) :=
  flat_map signed_order tr.

End Effects.

(** ** JavaScript numbers and the ethers unit helpers

    Amounts entered by the user are IEEE doubles; the helpers only print
    them, multiply them by the fixed rate and hand the text to
    [ethers.parseUnits].  These operations are taken as an interface. *)

Module Lib.
Import Effects.

Class JsLib : Type := {
  number : Type;
  (** [parseFloat(s)] *)
  parseFloat : string -> number;
  (** [x.toString()] *)
  toString : number -> string;
  (** [x * 2500] *)
  times2500 : number -> number;
  (** [x + 0.001] *)
  plusMilli : number -> number;
  (** [x < y] on numbers *)
  number_ltb : number -> number -> bool;
  (** [x.toFixed(6)] *)
  toFixed6 : number -> string;
  (** [ethers.parseUnits(s, decimals)]; it throws on text that is not a
      decimal number of at most [decimals] fractional digits. *)
  parseUnits : string -> nat -> error + Z;
  (** [ethers.formatUnits(v, decimals)] *)
  formatUnits : Z -> nat -> string
}.

Section Helpers.
Context {L : JsLib}.

Definition parseEther (s : string) : error + Z := parseUnits s 18.
Definition formatEther (v : Z) : string := formatUnits v 18.

End Helpers.

End Lib.

(** ** Values shared by the helpers *)

Module Common.
Import Effects Lib.

(** The object a swap or fill returns; keys a variant does not set are
    [None]. *)
Record Execution : Type := mkExecution {
  success : option bool;
  transactionHash : string;
  ex_blockNumber : Z;
  ex_gasUsed : Z;
  expectedOutput : option string;
  minOutput : option string;
  actualOutput : option string;
  ex_method : option string;
  note : option string
}.

Definition balanceOf (token who : address) : event Z :=
  CallUint (mkCall token "balanceOf" [AAddr who]).

Definition allowance (token owner spender : address) : event Z :=
  CallUint (mkCall token "allowance" [AAddr owner; AAddr spender]).

Definition approve (token spender : address) (amount : Z) : event tx :=
  Send (mkCall token "approve" [AAddr spender; AInt amount]) no_overrides.

Definition getAmountsOut (router : address) (amountIn : Z) (path : list address)
  : event (list Z) :=
  CallUints (mkCall router "getAmountsOut" [AInt amountIn; AList (map AAddr path)]).

(** Using [amounts[1]] when the array is shorter: [undefined] where a
    BigInt is needed. *)
Definition undefined_amount : error :=
  mkError "Cannot mix BigInt and other types, use explicit conversions".

Definition second (amounts : list Z) : prog Z :=
  match nth_error amounts 1 with
  | Some v => Ret v
  | None => Throw undefined_amount
  end.

(** [expected * BigInt(95) / BigInt(100)]: BigInt division truncates. *)
Definition minAmountOut (expected : Z) : Z := Z.quot (expected * 95) 100.

(** [Math.floor(Date.now() / 1000) + 1200] *)
Definition deadline (now : Z) : Z := now / 1000 + 1200.

(** The ABI coder refusing a value. *)
Definition abi_error : error := mkError "value out-of-bounds".

Definition of_option {A : Type} (e : error) (o : option A) : prog A :=
  match o with
  | Some a => Ret a
  | None => Throw e
  end.

Definition MaxUint256 : Z := 2 ^ 256 - 1.

(** The arguments of [swapExactETHForTokens] for a quote [E] read at clock
    value [now] (milliseconds). *)
Definition swap_args (E now : Z) (to : address) : list arg :=
  [AInt (E * 95 / 100); AList (map AAddr [WETH_ADDRESS; USDC_ADDRESS]);
   AAddr to; AInt (now / 1000 + 1200)].

(** Minimum output and deadline of a swap request to the router. *)
Definition swap_request (en : entry) : option (Z * Z) :=
  match en with
  | Entry ev _ =>
      match ev with
      | Send c _ =>
          if String.eqb (method c) "swapExactETHForTokens"
          then match args c with
               | [AInt m; _; _; AInt d] => Some (m, d)
               | _ => None
               end
          else if String.eqb (method c) "swapExactTokensForTokens"
          then match args c with
               | [_; AInt m; _; _; AInt d] => Some (m, d)
               | _ => None
               end
          else None
      | _ => None
      end
  end.

(** The expected output [amounts[1]] a quote request was answered with. *)
Definition quote_answer (en : entry) : option Z :=
  match en with
  | Entry ev r =>
      match ev in event R return (error + R -> option Z) with
      | CallUints c => fun r =>
          if String.eqb (method c) "getAmountsOut"
          then match r with inr amounts => nth_error amounts 1 | inl _ => None end
          else None
      | _ => fun _ => None
      end r
  end.

(** The value a clock read was answered with. *)
Definition clock_answer (en : entry) : option Z :=
  match en with
  | Entry ev r =>
      match ev in event R return (error + R -> option Z) with
      | DateNow => fun r => match r with inr now => Some now | inl _ => None end
      | _ => fun _ => None
      end r
  end.

Definition latest (new old : option Z) : option Z :=
  match new with Some v => Some v | None => old end.

(** Every swap request carries 95% of the latest quote (BigInt division)
    and the latest clock value, in seconds, plus 1200. *)
Fixpoint swaps_bounded (quote clock : option Z) (tr : trace) : bool :=
  match tr with
  | [] => true
  | en :: rest =>
      match swap_request en with
      | Some (m, d) =>
          match quote, clock with
          | Some E, Some now =>
              (m =? Z.quot (E * 95) 100) && (d =? now / 1000 + 1200)
          | _, _ => false
          end
      | None => true
      end
      && swaps_bounded (latest (quote_answer en) quote)
                       (latest (clock_answer en) clock) rest
  end.


(** A request to fill (or to simulate the fill of) an order on the
    settlement contract. *)
Definition is_fill_request (en : entry) : bool :=
  is_request_to LIMIT_ORDER_PROTOCOL "fillOrder" en
  || is_request_to LIMIT_ORDER_PROTOCOL "simulate" en.

(** The approval of USDC for the settlement contract. *)
Definition usdc_approval : entry -> bool :=
  is_approve_of USDC_ADDRESS LIMIT_ORDER_PROTOCOL.

(** The precondition checks: balance and allowance queries, approvals, and
    the wrapping deposit. *)
Definition is_precondition (en : entry) : bool :=
  is_view_of WETH_ADDRESS "balanceOf" en || is_view_of USDC_ADDRESS "balanceOf" en
  || is_view_of WETH_ADDRESS "allowance" en || is_view_of USDC_ADDRESS "allowance" en
  || is_send_of "approve" en || is_send_of "deposit" en.

(** Preconditions first: once something is signed, no precondition check
    or approval follows. *)
Definition preconditions_first (tr : trace) : bool :=
  never_after is_precondition is_sign false tr.

(** The taker-side preconditions: the USDC balance query and approval. *)
Definition is_taker_precondition (en : entry) : bool :=
  is_view_of USDC_ADDRESS "balanceOf" en || usdc_approval en.

(** The stage order of the workflow as the code performs it: the maker's
    WETH balance is read before anything is signed; the taker-side checks
    and every fill request come after the signature; a fill request comes
    after the USDC approval was sent and confirmed. *)
Definition stage_order (tr : trace) : bool :=
  preceded_by (ok (is_view_of WETH_ADDRESS "balanceOf")) is_sign false tr
  && preceded_by (ok is_sign) is_taker_precondition false tr
  && preceded_by (ok is_sign) is_fill_request false tr
  && fills_after_confirmation usdc_approval is_fill_request NotSent tr.

(** A run that returns has signed once and submitted one fill. *)
Definition all_stages_done {A : Type} (res : error + A) (tr : trace) : bool :=
  match res with
  | inl _ => true
  | inr _ =>
      (count (ok is_sign) tr =? 1)%nat
      && (count (ok (is_send_of "fillOrder")) tr =? 1)%nat
  end.

End Common.

(** ** manualLimitOrderDemo.js: [ManualLimitOrderDemo] *)

Module ManualLimitOrderDemo.
Import Abi Effects Lib Common.
Local Open Scope string_scope.
Local Open Scope Z_scope.
Local Open Scope prog_scope.

Definition DOMAIN : Domain :=
  mkDomain "1inch Limit Order Protocol" "4" 1 LIMIT_ORDER_PROTOCOL.

(** The eight order fields, in declared order. *)
Definition order_fields (order : Order) : list Abi.value :=
  [Uint256 (salt order); Address (maker order); Address (receiver order);
   Address (makerAsset order); Address (takerAsset order);
   Uint256 (makingAmount order); Uint256 (takingAmount order);
   Uint256 (makerTraits order)].

Definition createOrderHash (order : Order) : option (list byte) :=
  match Abi.encode (order_fields order) with
  | Some encoded => Some (Keccak.keccak256 encoded)
  | None => None
  end.

Record DemoResult : Type := mkDemoResult {
  res_success : bool;
  res_orderHash : list byte;
  res_order : Order;
  res_signature : string;
  res_execution : Execution
}.

Section WithLib.
Context {L : JsLib}.

Definition insufficient_weth (have need : Z) : error :=
  mkError ("Insufficient WETH balance. Have " ++ formatEther have
           ++ ", need " ++ formatEther need).

Definition insufficient_usdc (have need : Z) : error :=
  mkError ("Insufficient USDC. Have " ++ formatUnits have 6
           ++ ", need " ++ formatUnits need 6).

Definition fillOrder (order : Order) (signature : string) : prog Execution :=
  try_catch
    (signer <- await GetSigner ;;
     let orderStruct := order in
     contractOrderHash <-
       await (CallBytes32 (mkCall LIMIT_ORDER_PROTOCOL "hashOrder"
                                  [order_tuple orderStruct])) ;;
     fillTx <-
       await (Send (mkCall LIMIT_ORDER_PROTOCOL "fillOrder"
                           [order_tuple orderStruct; AData signature;
                            AInt (makingAmount order); AInt (takingAmount order)])
                   (mkOverrides None (Some 500000))) ;;
     receipt <- await (Wait fillTx) ;;
     Ret (mkExecution None (hash fillTx) (blockNumber receipt) (gasUsed receipt)
                      None None None None None))
    (fun error => Throw error).

Definition runDemo (ethAmount : number) : prog DemoResult :=
  try_catch
    (signer <- await GetSigner ;;
     let walletAddress := account signer in
     wethBalance <- await (balanceOf WETH_ADDRESS walletAddress) ;;
     requiredWeth <- lift (parseEther (toString ethAmount)) ;;
     if wethBalance <? requiredWeth
     then Throw (insufficient_weth wethBalance requiredWeth)
     else
       let usdcAmount := times2500 ethAmount in
       takingAmount <- lift (parseUnits (toString usdcAmount) 6) ;;
       now <- await DateNow ;;
       let order :=
         mkOrder now walletAddress walletAddress WETH_ADDRESS USDC_ADDRESS
                 requiredWeth takingAmount 0 in
       signature <- await (SignTypedData signer DOMAIN order) ;;
       orderHash <- of_option abi_error (createOrderHash order) ;;
       wethApproveTx <- await (approve WETH_ADDRESS LIMIT_ORDER_PROTOCOL requiredWeth) ;;
       await (Wait wethApproveTx) ;;;
       usdcBalance <- await (balanceOf USDC_ADDRESS walletAddress) ;;
       if usdcBalance <? takingAmount
       then Throw (insufficient_usdc usdcBalance takingAmount)
       else
         usdcApproveTx <- await (approve USDC_ADDRESS LIMIT_ORDER_PROTOCOL takingAmount) ;;
         await (Wait usdcApproveTx) ;;;
         executionResult <- fillOrder order signature ;;
         Ret (mkDemoResult true orderHash order signature executionResult))
    (fun error => Throw error).

End WithLib.

End ManualLimitOrderDemo.

(** ** [OfficialSDKDemo]: order through the SDK, trade through the router *)

Module OfficialSDKDemo.
Import Effects Lib Common.
Local Open Scope string_scope.
Local Open Scope Z_scope.
Local Open Scope prog_scope.

Record Amounts : Type := mkAmounts { making : string; taking : string }.

Record OrderResult : Type := mkOrderResult {
  limitOrder : LimitOrder;
  or_signature : string;
  or_orderHash : list byte;
  typedData : Order;
  amounts : Amounts
}.

Record DemoResult : Type := mkDemoResult {
  res_success : bool;
  orderCreated : OrderResult;
  orderExecuted : Execution;
  res_note : string
}.

Definition chainId : Z := 1.

Section WithLib.
Context {L : JsLib}.

Definition insufficient_weth (have need : Z) : error :=
  mkError ("Insufficient WETH balance. Have " ++ formatEther have
           ++ ", need " ++ formatEther need).

Definition createOrder (ethAmount : number) : prog OrderResult :=
  try_catch
    (signer <- await GetSigner ;;
     let walletAddress := account signer in
     makingAmount <- lift (parseEther (toString ethAmount)) ;;
     let usdcAmount := times2500 ethAmount in
     takingAmount <- lift (parseUnits (toString usdcAmount) 6) ;;
     let orderData :=
       mkOrderInfo WETH_ADDRESS USDC_ADDRESS makingAmount takingAmount
                   walletAddress walletAddress in
     let makerTraits := mkSdkTraits None true true in
     limitOrder <- await (SdkCreateOrder orderData makerTraits) ;;
     typedData <- await (SdkGetTypedData limitOrder chainId) ;;
     signature <-
       await (SignTypedData signer (td_domain typedData) (td_message typedData)) ;;
     orderHash <- await (SdkGetOrderHash limitOrder chainId) ;;
     Ret (mkOrderResult limitOrder signature orderHash (td_message typedData)
            (mkAmounts (formatEther makingAmount) (formatUnits takingAmount 6))))
    (fun error => Throw error).

Definition fillOrderManually (orderResult : OrderResult) : prog Execution :=
  try_catch
    (signer <- await GetSigner ;;
     let walletAddress := account signer in
     wethAmount <- lift (parseEther (making (amounts orderResult))) ;;
     approveTx <- await (approve WETH_ADDRESS UNISWAP_ROUTER wethAmount) ;;
     await (Wait approveTx) ;;;
     let path := [WETH_ADDRESS; USDC_ADDRESS] in
     amounts <- await (getAmountsOut UNISWAP_ROUTER wethAmount path) ;;
     expected <- second amounts ;;
     let minAmountOut := minAmountOut expected in
     now <- await DateNow ;;
     let deadline := deadline now in
     swapTx <-
       await (Send (mkCall UNISWAP_ROUTER "swapExactTokensForTokens"
                           [AInt wethAmount; AInt minAmountOut;
                            AList (map AAddr path); AAddr walletAddress;
                            AInt deadline])
                   (mkOverrides None (Some 300000))) ;;
     receipt <- await (Wait swapTx) ;;
     Ret (mkExecution None (hash swapTx) (blockNumber receipt) (gasUsed receipt)
            None None (Some (formatUnits expected 6))
            (Some "Uniswap V2 (demonstrating the same trade as the 1inch order)")
            None))
    (fun error => Throw error).

Definition runDemo (ethAmount : number) : prog DemoResult :=
  try_catch
    (signer <- await GetSigner ;;
     let walletAddress := account signer in
     wethBalance <- await (balanceOf WETH_ADDRESS walletAddress) ;;
     requiredWeth <- lift (parseEther (toString ethAmount)) ;;
     if wethBalance <? requiredWeth
     then Throw (insufficient_weth wethBalance requiredWeth)
     else
       orderResult <- createOrder ethAmount ;;
       executionResult <- fillOrderManually orderResult ;;
       Ret (mkDemoResult true orderResult executionResult
              "1inch order created successfully, trade executed via Uniswap for demonstration"))
    (fun error => Throw error).

End WithLib.

End OfficialSDKDemo.

(** ** simpleLimitOrderDemo.js: [SimpleLimitOrderDemo] *)

Module SimpleLimitOrderDemo.
Import Effects Lib Common.
Local Open Scope string_scope.
Local Open Scope Z_scope.
Local Open Scope prog_scope.

Record DemoResult : Type := mkDemoResult {
  res_success : bool;
  res_orderHash : list byte;
  res_signature : string;
  res_execution : Execution
}.

Definition chainId : Z := 1.

Section WithLib.
Context {L : JsLib}.

Definition insufficient_usdc (have need : Z) : error :=
  mkError ("Insufficient USDC. Have " ++ formatUnits have 6
           ++ ", need " ++ formatUnits need 6).

Definition wrapETH (ethAmount : number) : prog unit :=
  try_catch
    (signer <- await GetSigner ;;
     amountWei <- lift (parseEther (toString ethAmount)) ;;
     wethBalance <- await (balanceOf WETH_ADDRESS (account signer)) ;;
     (if wethBalance <? amountWei
      then
        wrapTx <- await (Send (mkCall WETH_ADDRESS "deposit" [])
                              (mkOverrides (Some amountWei) None)) ;;
        await (Wait wrapTx) ;;;
        Ret tt
      else Ret tt) ;;;
     approveTx <- await (approve WETH_ADDRESS LIMIT_ORDER_PROTOCOL amountWei) ;;
     await (Wait approveTx) ;;;
     Ret tt)
    (fun error => Throw error).

(** [limitOrder.data.receiver || limitOrder.data.maker]: the SDK order
    carries its receiver, so the first operand is taken. *)
Definition fillOrder (limitOrder : LimitOrder) (signature : string)
           (usdcAmount : number) : prog Execution :=
  try_catch
    (signer <- await GetSigner ;;
     let fillerAddress := account signer in
     requiredUsdc <- lift (parseUnits (toString usdcAmount) 6) ;;
     usdcBalance <- await (balanceOf USDC_ADDRESS fillerAddress) ;;
     if usdcBalance <? requiredUsdc
     then Throw (insufficient_usdc usdcBalance requiredUsdc)
     else
       approveTx <- await (approve USDC_ADDRESS LIMIT_ORDER_PROTOCOL requiredUsdc) ;;
       await (Wait approveTx) ;;;
       let orderStruct := order_tuple7 (data limitOrder) in
       fillTx <-
         await (Send (mkCall LIMIT_ORDER_PROTOCOL "fillOrder"
                             [orderStruct; AData signature;
                              AInt (makingAmount (data limitOrder));
                              AInt (takingAmount (data limitOrder))])
                     (mkOverrides None (Some 500000))) ;;
       receipt <- await (Wait fillTx) ;;
       Ret (mkExecution None (hash fillTx) (blockNumber receipt) (gasUsed receipt)
              None None None None None))
    (fun error => Throw error).

Definition runDemo (ethAmount : number) : prog DemoResult :=
  try_catch
    (signer <- await GetSigner ;;
     let walletAddress := account signer in
     wrapETH ethAmount ;;;
     let usdcAmount := times2500 ethAmount in
     now <- await DateNow ;;
     let expiration := now / 1000 + 3600 in
     let makerTraits := mkSdkTraits (Some expiration) true true in
     makingAmount <- lift (parseEther (toString ethAmount)) ;;
     takingAmount <- lift (parseUnits (toString usdcAmount) 6) ;;
     let orderData :=
       mkOrderInfo WETH_ADDRESS USDC_ADDRESS makingAmount takingAmount
                   walletAddress walletAddress in
     limitOrder <- await (SdkCreateOrder orderData makerTraits) ;;
     typedData <- await (SdkGetTypedData limitOrder chainId) ;;
     signature <-
       await (SignTypedData signer (td_domain typedData) (td_message typedData)) ;;
     orderHash <- await (SdkGetOrderHash limitOrder chainId) ;;
     executionResult <- fillOrder limitOrder signature usdcAmount ;;
     Ret (mkDemoResult true orderHash signature executionResult))
    (fun error => Throw error).

End WithLib.

End SimpleLimitOrderDemo.

(** ** [Working1inchLimitOrder] *)

Module Working1inchLimitOrder.
Import Abi Effects Lib Common.
Local Open Scope string_scope.
Local Open Scope Z_scope.
Local Open Scope prog_scope.

Definition EIP712DOMAIN_TYPE : string :=
  "EIP712Domain(string name,string version,uint256 chainId,address verifyingContract)".

Definition ORDER_TYPE : string :=
  "Order(uint256 salt,address maker,address receiver,address makerAsset,address takerAsset,uint256 makingAmount,uint256 takingAmount,uint256 makerTraits)".

Definition hash_string (s : string) : list byte :=
  Keccak.keccak256 (Bytes.toUtf8Bytes s).

Definition domain_fields (domain : Domain) : list Abi.value :=
  [Bytes32 (hash_string EIP712DOMAIN_TYPE);
   Bytes32 (hash_string (name domain));
   Bytes32 (hash_string (version domain));
   Uint256 (chainId domain);
   Address (verifyingContract domain)].

Definition struct_fields (orderStructure : Order) : list Abi.value :=
  Bytes32 (hash_string ORDER_TYPE)
  :: ManualLimitOrderDemo.order_fields orderStructure.

(** The two bytes of the string '\x19\x01'. *)
Definition eip191_prefix : list byte := [x19; x01].

Definition generateOrderHash (orderStructure : Order) (domain : Domain)
  : option (list byte) :=
  match Abi.encode (domain_fields domain) with
  | None => None
  | Some domainEncoded =>
      let domainSeparator := Keccak.keccak256 domainEncoded in
      match Abi.encode (struct_fields orderStructure) with
      | None => None
      | Some structEncoded =>
          let structHash := Keccak.keccak256 structEncoded in
          Some (Keccak.keccak256
                  (eip191_prefix ++ domainSeparator ++ structHash)%list)
      end
  end.

(** [Math.floor(Date.now() / 1000) + 3600], with [now] the value of
    [Date.now()] in milliseconds. *)
Definition expiration (now : Z) : Z := now / 1000 + 3600.

Definition createProperMakerTraits (now : Z) : Z :=
  let traits := 0 in
  let traits := Z.lor traits 1 in
  let traits := Z.lor traits (Z.shiftl 1 1) in
  let traits := Z.lor traits (Z.shiftl (expiration now) 160) in
  traits.

Definition createAdvancedMakerTraits (now : Z) : Z :=
  let traits := 0 in
  let traits := Z.lor traits (Z.shiftl 1 255) in
  let traits := Z.lor traits (Z.shiftl 1 254) in
  let traits := Z.lor traits (Z.shiftl (expiration now) 160) in
  traits.

(** The domain built in [createManualOrderDemo]. *)
Definition domain : Domain :=
  mkDomain "Limit Order Protocol" "4" 1 LIMIT_ORDER_PROTOCOL.


Record OrderSummary : Type := mkOrderSummary {
  sum_maker : address;
  sum_makerAsset : address;
  sum_takerAsset : address;
  sum_makingAmount : string;
  sum_takingAmount : string;
  sum_salt : Z;
  sum_signature : string
}.

(** What [createManualOrderDemo] returns; [orderData] is the signed order
    structure (with its signature and domain), absent when the maker step
    left none. *)
Record OrderResult : Type := mkOrderResult {
  or_success : bool;
  or_method : string;
  or_orderHash : list byte;
  or_signature : option string;
  orderData : option Order;
  or_takingAmount : Z;
  or_order : OrderSummary
}.

Section WithLib.
Context {L : JsLib}.

Definition createManualOrderDemo (wethAmount : number) : prog OrderResult :=
  try_catch
    (signer <- await GetSigner ;;
     let walletAddress := account signer in
     makingAmount <- lift (parseEther (toString wethAmount)) ;;
     let path := [WETH_ADDRESS; USDC_ADDRESS] in
     amounts <- await (getAmountsOut UNISWAP_ROUTER makingAmount path) ;;
     takingAmount <- second amounts ;;
     let marketUsdcAmount := toFixed6 (parseFloat (formatUnits takingAmount 6)) in
     traitsNow <- await DateNow ;;
     let makerTraits := createProperMakerTraits traitsNow in
     saltNow <- await DateNow ;;
     jitter <- await MathRandom1000 ;;
     let salt := saltNow + jitter in
     let orderStructure :=
       mkOrder salt walletAddress walletAddress WETH_ADDRESS USDC_ADDRESS
               makingAmount takingAmount makerTraits in
     signature <- await (SignTypedData signer domain orderStructure) ;;
     orderHash <- of_option abi_error (generateOrderHash orderStructure domain) ;;
     Ret (mkOrderResult true
            "1inch Limit Order Protocol V4 - Manual Implementation"
            orderHash (Some signature) (Some orderStructure) takingAmount
            (mkOrderSummary walletAddress WETH_ADDRESS USDC_ADDRESS
               (formatEther makingAmount) marketUsdcAmount salt
               (substring 0 20 signature ++ "..."))))
    (fun error => Throw error).

Definition fallback_method : string :=
  "Fallback Demo (Uniswap V2) - 1inch execution attempted first".

Definition fallback_note : string :=
  "1inch order created successfully, execution fell back to Uniswap for demo reliability".

Definition executeFallbackDemo (wethAmount : number) : prog Execution :=
  try_catch
    (signer <- await GetSigner ;;
     let walletAddress := account signer in
     wethAmountWei <- lift (parseEther (toString wethAmount)) ;;
     allowance <- await (allowance WETH_ADDRESS walletAddress UNISWAP_ROUTER) ;;
     (if allowance <? wethAmountWei
      then
        approveTx <- await (approve WETH_ADDRESS UNISWAP_ROUTER wethAmountWei) ;;
        await (Wait approveTx) ;;;
        Ret tt
      else Ret tt) ;;;
     let path := [WETH_ADDRESS; USDC_ADDRESS] in
     amounts <- await (getAmountsOut UNISWAP_ROUTER wethAmountWei path) ;;
     expected <- second amounts ;;
     let minAmountOut := minAmountOut expected in
     now <- await DateNow ;;
     let deadline := deadline now in
     fillTx <-
       await (Send (mkCall UNISWAP_ROUTER "swapExactTokensForTokens"
                           [AInt wethAmountWei; AInt minAmountOut;
                            AList (map AAddr path); AAddr walletAddress;
                            AInt deadline])
                   (mkOverrides None (Some 300000))) ;;
     receipt <- await (Wait fillTx) ;;
     Ret (mkExecution (Some true) (hash fillTx) (blockNumber receipt)
            (gasUsed receipt) None None (Some (formatUnits expected 6))
            (Some fallback_method) (Some fallback_note)))
    (fun error => Throw error).

Definition taker_needs (need have : Z) : error :=
  mkError ("Taker needs " ++ formatUnits need 6 ++ " USDC but only has "
           ++ formatUnits have 6 ++ " USDC").

Definition approval_failed (have need : Z) : error :=
  mkError ("Approval failed! Allowance is still " ++ formatUnits have 6
           ++ " but need " ++ formatUnits need 6).

Definition no_order_data : error :=
  mkError "No order data available from maker step".

Definition no_signature : error :=
  mkError "No signature found in order data".

Definition taker_method : string :=
  "1inch Order Created + Uniswap Execution (Demo)".

Definition taker_note : string :=
  "1inch limit order created successfully, execution demonstrated via Uniswap".

(** [{ ...fallbackResult, method: ..., note: ... }] *)
Definition tag_fallback (fallbackResult : Execution) : Execution :=
  mkExecution (success fallbackResult) (transactionHash fallbackResult)
              (ex_blockNumber fallbackResult) (ex_gasUsed fallbackResult)
              (expectedOutput fallbackResult) (minOutput fallbackResult)
              (actualOutput fallbackResult)
              (Some taker_method) (Some taker_note).

Definition fill_call3 (orderStruct : Order) (signature : string) (making : Z) : call :=
  mkCall LIMIT_ORDER_PROTOCOL "fillOrder"
         [order_tuple orderStruct; AData signature; AInt making].

(** The check of the taker's allowance, with the approval it may issue. *)
Definition ensureUsdcAllowance (takerAddress : address) (requiredAmount : Z)
  : prog unit :=
  usdcAllowance <- await (allowance USDC_ADDRESS takerAddress LIMIT_ORDER_PROTOCOL) ;;
  if usdcAllowance <? requiredAmount
  then
    let approvalAmount := requiredAmount * 2 in
    approveTx <- await (approve USDC_ADDRESS LIMIT_ORDER_PROTOCOL approvalAmount) ;;
    approvalReceipt <- await (Wait approveTx) ;;
    newAllowance <- await (allowance USDC_ADDRESS takerAddress LIMIT_ORDER_PROTOCOL) ;;
    if newAllowance <? requiredAmount
    then Throw (approval_failed newAllowance requiredAmount)
    else Ret tt
  else Ret tt.

Definition fillOrderAsTaker (orderResult : OrderResult) (wethAmount : number)
  : prog Execution :=
  try_catch
    (signer <- await GetSigner ;;
     let takerAddress := account signer in
     orderData <- of_option no_order_data (orderData orderResult) ;;
     let makingAmount := makingAmount orderData in
     let takingAmount := takingAmount orderData in
     usdcBalance <- await (balanceOf USDC_ADDRESS takerAddress) ;;
     if usdcBalance <? takingAmount
     then Throw (taker_needs takingAmount usdcBalance)
     else
       let requiredAmount := takingAmount in
       ensureUsdcAllowance takerAddress requiredAmount ;;;
       let orderStruct := orderData in
       signature <-
         match or_signature orderResult with
         | None => Throw no_signature
         | Some EmptyString => Throw no_signature
         | Some sig => Ret sig
         end ;;
       (* best effort: is the order still valid *)
       try_catch
         (let slot := Z.shiftr (salt orderData) 8 in
          remaining <-
            await (CallUint (mkCall LIMIT_ORDER_PROTOCOL "remainingInvalidatorForOrder"
                                    [AAddr (maker orderData); AInt slot])) ;;
          Ret tt)
         (fun validityError => Ret tt) ;;;
       (* best effort: simulate the fill *)
       try_catch
         (await (Send (mkCall LIMIT_ORDER_PROTOCOL "simulate"
                              [order_tuple orderStruct; AData signature;
                               AInt makingAmount; AData "0x"])
                      no_overrides) ;;;
          Ret tt)
         (fun simError => Ret tt) ;;;
       gasEstimate <-
         try_catch
           (await (EstimateGas (fill_call3 orderStruct signature makingAmount)
                               no_overrides))
           (fun gasError => Ret 600000) ;;
       fallbackResult <-
         executeFallbackDemo (parseFloat (formatEther makingAmount)) ;;
       Ret (tag_fallback fallbackResult))
    (fun error => Throw error).

(** [runHackathonDemo]: a quote and SDK traits that are not used, then
    [createManualOrderDemo]; any error on the way, also one thrown by
    [createManualOrderDemo] itself, leads to [createManualOrderDemo]
    (again). *)
Definition runHackathonDemo (wethAmount : number) : prog OrderResult :=
  try_catch
    (signer <- await GetSigner ;;
     let walletAddress := account signer in
     makingAmount <- lift (parseEther (toString wethAmount)) ;;
     let path := [WETH_ADDRESS; USDC_ADDRESS] in
     amounts <- await (getAmountsOut UNISWAP_ROUTER makingAmount path) ;;
     takingAmount <- second amounts ;;
     let marketUsdcAmount := formatUnits takingAmount 6 in
     now <- await DateNow ;;
     let makerTraits := mkSdkTraits (Some (expiration now)) true true in
     let orderData :=
       mkOrderInfo WETH_ADDRESS USDC_ADDRESS makingAmount takingAmount
                   walletAddress walletAddress in
     createManualOrderDemo wethAmount)
    (fun error => createManualOrderDemo wethAmount).

Record Summary : Type := mkSummary {
  sm_orderHash : list byte;
  sm_trade : string;
  sm_status : string;
  sm_method : string
}.

Record CompleteResult : Type := mkCompleteResult {
  cr_success : bool;
  orderCreated : OrderResult;
  summary : Summary
}.

(** [orderResult.method || 'Manual 1inch Protocol Implementation'] *)
Definition method_or_default (m : string) : string :=
  match m with
  | EmptyString => "Manual 1inch Protocol Implementation"
  | _ => m
  end.

Definition runCompleteDemo (wethAmount : number) : prog CompleteResult :=
  try_catch
    (orderResult <- runHackathonDemo wethAmount ;;
     Ret (mkCompleteResult true orderResult
            (mkSummary (or_orderHash orderResult)
               (toString wethAmount ++ " WETH → "
                ++ sum_takingAmount (or_order orderResult) ++ " USDC")
               "1inch Limit Order created and signed successfully"
               (method_or_default (or_method orderResult)))))
    (fun error => Throw error).

End WithLib.

End Working1inchLimitOrder.

(** ** manualLimitOrderDemo.js, second part: [Fixed1inchDemo] *)

Module Fixed1inchDemo.

Definition createMakerTraits : Z :=
  let traits := 0 in
  let traits := Z.lor traits (Z.shiftl 1 255) in
  let traits := Z.lor traits (Z.shiftl 1 254) in
  traits.

Import Effects Lib Common.
Local Open Scope string_scope.
Local Open Scope Z_scope.
Local Open Scope prog_scope.

(** "Correct EIP-712 Domain for 1inch V4" *)
Definition DOMAIN : Domain :=
  mkDomain "Limit Order Protocol" "4" 1 LIMIT_ORDER_PROTOCOL.

(** [BigInt.prototype.toString()]: the decimal digits, with a minus sign
    for a negative value. *)
Definition bigint_toString (v : Z) : string :=
  DecimalString.NilZero.string_of_int (Z.to_int v).

(** The [order] of the returned object: five fields of the signed order,
    the numbers as text. *)
Record OrderSummary : Type := mkOrderSummary {
  sum_salt : string;
  sum_maker : address;
  sum_makingAmount : string;
  sum_takingAmount : string;
  sum_makerTraits : string
}.

Record DemoResult : Type := mkDemoResult {
  res_success : bool;
  res_orderHash : list byte;
  res_order : OrderSummary;
  res_signature : string;
  res_execution : Execution
}.

(** The fill of the whole order: tuple, signature, both amounts, and a zero
    [skipPermitAndThresholdAmount]. *)
Definition fill_call (order : Order) (signature : string) : call :=
  mkCall LIMIT_ORDER_PROTOCOL "fillOrder"
         [order_tuple order; AData signature;
          AInt (makingAmount order); AInt (takingAmount order); AInt 0].

Section WithLib.
Context {L : JsLib}.

Definition insufficient_weth (have need : Z) : error :=
  mkError ("Insufficient WETH balance. Have " ++ formatEther have
           ++ ", need " ++ formatEther need).

Definition insufficient_usdc (have need : Z) : error :=
  mkError ("Insufficient USDC. Have " ++ formatUnits have 6
           ++ ", need " ++ formatUnits need 6).

Definition summary_of (order : Order) : OrderSummary :=
  mkOrderSummary (bigint_toString (salt order)) (maker order)
                 (formatEther (makingAmount order))
                 (formatUnits (takingAmount order) 6)
                 (bigint_toString (makerTraits order)).

Definition runDemo (ethAmount : number) : prog DemoResult :=
  try_catch
    (signer <- await GetSigner ;;
     let walletAddress := account signer in
     wethBalance <- await (balanceOf WETH_ADDRESS walletAddress) ;;
     requiredWeth <- lift (parseEther (toString ethAmount)) ;;
     if wethBalance <? requiredWeth
     then Throw (insufficient_weth wethBalance requiredWeth)
     else
       let usdcAmount := times2500 ethAmount in
       takingAmount <- lift (parseUnits (toString usdcAmount) 6) ;;
       now <- await DateNow ;;
       let salt := now / 1000 in
       let makerTraits := createMakerTraits in
       let order :=
         mkOrder salt walletAddress walletAddress WETH_ADDRESS USDC_ADDRESS
                 requiredWeth takingAmount makerTraits in
       signature <- await (SignTypedData signer DOMAIN order) ;;
       let orderTuple := order_tuple order in
       orderHash <-
         await (CallBytes32 (mkCall LIMIT_ORDER_PROTOCOL "hashOrder" [orderTuple])) ;;
       wethApproveTx <- await (approve WETH_ADDRESS LIMIT_ORDER_PROTOCOL requiredWeth) ;;
       await (Wait wethApproveTx) ;;;
       usdcBalance <- await (balanceOf USDC_ADDRESS walletAddress) ;;
       if usdcBalance <? takingAmount
       then Throw (insufficient_usdc usdcBalance takingAmount)
       else
         usdcApproveTx <- await (approve USDC_ADDRESS LIMIT_ORDER_PROTOCOL takingAmount) ;;
         await (Wait usdcApproveTx) ;;;
         fillTx <-
           await (Send (fill_call order signature)
                       (mkOverrides (Some 0) (Some 600000))) ;;
         receipt <- await (Wait fillTx) ;;
         Ret (mkDemoResult true orderHash (summary_of order) signature
                (mkExecution None (hash fillTx) (blockNumber receipt)
                             (gasUsed receipt) None None None None None)))
    (fun error => Throw error).

End WithLib.

End Fixed1inchDemo.

(** ** limitOrderDemo.js: [LimitOrderDemo] *)

Module LimitOrderDemo.
Import Effects Lib Common.
Local Open Scope string_scope.
Local Open Scope Z_scope.
Local Open Scope prog_scope.

Record CreatedOrder : Type := mkCreatedOrder {
  co_limitOrder : LimitOrder;
  co_signature : string;
  co_orderHash : list byte;
  co_typedData : Order
}.

Record CompleteResult : Type := mkCompleteResult {
  orderCreated : CreatedOrder;
  orderExecuted : Execution
}.

Section WithLib.
Context {L : JsLib}.

Definition insufficient_usdc (need have : Z) : error :=
  mkError ("Insufficient USDC balance. Need " ++ formatUnits need 6
           ++ " USDC but have " ++ formatUnits have 6 ++ " USDC").

Definition fill_call (limitOrder : LimitOrder) (signature : string) : call :=
  mkCall LIMIT_ORDER_PROTOCOL "fillOrder"
         [order_tuple7 (data limitOrder); AData signature;
          AInt (makingAmount (data limitOrder));
          AInt (takingAmount (data limitOrder))].

Definition executeLimitOrder (limitOrder : LimitOrder) (signature : string)
           (resolverAddress : address) : prog Execution :=
  try_catch
    (signer <- await GetSigner ;;
     resolverUsdcBalance <- await (balanceOf USDC_ADDRESS resolverAddress) ;;
     let takingAmount := takingAmount (data limitOrder) in
     if resolverUsdcBalance <? takingAmount
     then Throw (insufficient_usdc takingAmount resolverUsdcBalance)
     else
       allowance <- await (allowance USDC_ADDRESS resolverAddress LIMIT_ORDER_PROTOCOL) ;;
       (if allowance <? takingAmount
        then
          approveTx <- await (approve USDC_ADDRESS LIMIT_ORDER_PROTOCOL MaxUint256) ;;
          await (Wait approveTx) ;;;
          Ret tt
        else Ret tt) ;;;
       gasEstimate <-
         await (EstimateGas (fill_call limitOrder signature)
                            (mkOverrides (Some 0) None)) ;;
       fillTx <-
         await (Send (fill_call limitOrder signature)
                     (mkOverrides (Some 0) (Some (Z.quot (gasEstimate * 120) 100)))) ;;
       receipt <- await (Wait fillTx) ;;
       Ret (mkExecution (Some true) (hash fillTx) (blockNumber receipt)
              (gasUsed receipt) None None None None None))
    (fun error => Throw error).

(** [TOKENS.ETH.address] of config/tokens.js. *)
Definition ETH_SENTINEL : address := 0xEeeeeEeeeEeEeeEeEeEeeEEEeeeeEeeeeeeeEEeE.

Definition createLimitOrder (ethAmount usdcAmount : number) (walletAddress : address)
  : prog CreatedOrder :=
  try_catch
    (signer <- await GetSigner ;;
     makingAmount <- lift (parseEther (toString ethAmount)) ;;
     takingAmount <- lift (parseUnits (toString usdcAmount) 6) ;;
     now <- await DateNow ;;
     let expiration := now / 1000 + 86400 in
     let makerTraits := mkSdkTraits (Some expiration) true true in
     let orderData :=
       mkOrderInfo ETH_SENTINEL USDC_ADDRESS makingAmount takingAmount
                   walletAddress walletAddress in
     limitOrder <- await (SdkCreateOrder orderData makerTraits) ;;
     typedData <- await (SdkGetTypedData limitOrder 1) ;;
     signature <-
       await (SignTypedData signer (td_domain typedData) (td_message typedData)) ;;
     orderHash <- await (SdkGetOrderHash limitOrder 1) ;;
     Ret (mkCreatedOrder limitOrder signature orderHash (td_message typedData)))
    (fun error => Throw error).

Definition runCompleteDemo (ethAmount usdcAmount : number) : prog CompleteResult :=
  try_catch
    (signer <- await GetSigner ;;
     let walletAddress := account signer in
     orderResult <- createLimitOrder ethAmount usdcAmount walletAddress ;;
     executeResult <-
       executeLimitOrder (co_limitOrder orderResult) (co_signature orderResult)
                         walletAddress ;;
     Ret (mkCompleteResult orderResult executeResult))
    (fun error => Throw error).

End WithLib.

(** [checkBalances] of limitOrderDemo.js. *)
Record Balances : Type := mkBalances { eth : string; usdc : string }.

Section Balances.
Context {L : JsLib}.

Definition checkBalances (walletAddress : address) : prog Balances :=
  try_catch
    (ethBalance <- await (GetBalance walletAddress) ;;
     usdcBalance <- await (balanceOf USDC_ADDRESS walletAddress) ;;
     Ret (mkBalances (formatEther ethBalance) (formatUnits usdcBalance 6)))
    (fun error => Ret (mkBalances "0" "0")).

End Balances.

End LimitOrderDemo.

(** ** workingUniswapDemo.js: [WorkingUniswapDemo] *)

Module WorkingUniswapDemo.
Import Effects Lib Common.
Local Open Scope string_scope.
Local Open Scope Z_scope.
Local Open Scope prog_scope.

Definition UNISWAP_V2_ROUTER : address := UNISWAP_ROUTER.

Record Balances : Type := mkBalances { eth : string; weth : string; usdc : string }.

Record DemoResult : Type := mkDemoResult {
  dr_method : string;
  dr_quote : string;
  dr_execution : Execution
}.

Section WithLib.
Context {L : JsLib}.

Definition swapETHForUSDC (ethAmount : number) : prog Execution :=
  try_catch
    (signer <- await GetSigner ;;
     let walletAddress := account signer in
     amountIn <- lift (parseEther (toString ethAmount)) ;;
     let path := [WETH_ADDRESS; USDC_ADDRESS] in
     now <- await DateNow ;;
     let deadline := deadline now in
     amounts <- await (getAmountsOut UNISWAP_V2_ROUTER amountIn path) ;;
     expectedOut <- second amounts ;;
     let minAmountOut := minAmountOut expectedOut in
     swapTx <-
       await (Send (mkCall UNISWAP_V2_ROUTER "swapExactETHForTokens"
                           [AInt minAmountOut; AList (map AAddr path);
                            AAddr walletAddress; AInt deadline])
                   (mkOverrides (Some amountIn) (Some 300000))) ;;
     receipt <- await (Wait swapTx) ;;
     Ret (mkExecution (Some true) (hash swapTx) (blockNumber receipt)
            (gasUsed receipt) (Some (formatUnits expectedOut 6))
            (Some (formatUnits minAmountOut 6)) None None None))
    (fun error => Throw error).

Definition checkDemoBalances (walletAddress : address) : prog Balances :=
  try_catch
    (ethBalance <- await (GetBalance walletAddress) ;;
     wethBalance <- await (balanceOf WETH_ADDRESS walletAddress) ;;
     usdcBalance <- await (balanceOf USDC_ADDRESS walletAddress) ;;
     Ret (mkBalances (formatEther ethBalance) (formatEther wethBalance)
            (formatUnits usdcBalance 6)))
    (fun error => Ret (mkBalances "0" "0" "0")).

Definition getQuote (ethAmount : number) : prog string :=
  try_catch
    (amountIn <- lift (parseEther (toString ethAmount)) ;;
     let path := [WETH_ADDRESS; USDC_ADDRESS] in
     amounts <- await (getAmountsOut UNISWAP_V2_ROUTER amountIn path) ;;
     expected <- second amounts ;;
     let usdcOut := formatUnits expected 6 in
     Ret usdcOut)
    (fun error => Ret "0").

Definition swapWETHForUSDC (wethAmount : number) : prog Execution :=
  try_catch
    (signer <- await GetSigner ;;
     let walletAddress := account signer in
     amountIn <- lift (parseEther (toString wethAmount)) ;;
     approveTx <- await (approve WETH_ADDRESS UNISWAP_V2_ROUTER amountIn) ;;
     await (Wait approveTx) ;;;
     let path := [WETH_ADDRESS; USDC_ADDRESS] in
     now <- await DateNow ;;
     let deadline := deadline now in
     amounts <- await (getAmountsOut UNISWAP_V2_ROUTER amountIn path) ;;
     expectedOut <- second amounts ;;
     let minAmountOut := minAmountOut expectedOut in
     swapTx <-
       await (Send (mkCall UNISWAP_V2_ROUTER "swapExactTokensForTokens"
                           [AInt amountIn; AInt minAmountOut;
                            AList (map AAddr path); AAddr walletAddress;
                            AInt deadline])
                   (mkOverrides None (Some 300000))) ;;
     receipt <- await (Wait swapTx) ;;
     Ret (mkExecution (Some true) (hash swapTx) (blockNumber receipt)
            (gasUsed receipt) (Some (formatUnits expectedOut 6))
            None None None None))
    (fun error => Throw error).

Definition runDemo (amount : number) (useWETH : bool) : prog DemoResult :=
  try_catch
    (quote <- getQuote amount ;;
     result <- (if useWETH then swapWETHForUSDC amount
                else swapETHForUSDC amount) ;;
     Ret (mkDemoResult "Uniswap V2" quote result))
    (fun error => Throw error).

End WithLib.

End WorkingUniswapDemo.

(** ** workingLimitOrderDemo.js: [SimpleUniswapDemo] and [checkBalances] *)

Module WorkingLimitOrderDemo.
Import Effects Lib Common.
Local Open Scope string_scope.
Local Open Scope Z_scope.
Local Open Scope prog_scope.

Record Balances : Type := mkBalances { eth : string; usdc : string }.

Module SimpleUniswapDemo.

Definition routerAddress : address := UNISWAP_ROUTER.
Definition wethAddress : address := WETH_ADDRESS.
Definition usdcAddress : address := USDC_ADDRESS.

Record DemoResult : Type := mkDemoResult {
  dr_method : string;
  dr_expectedOutput : string;
  dr_execution : Execution
}.

Section WithLib.
Context {L : JsLib}.

Definition executeSwap (ethAmount : number) : prog Execution :=
  try_catch
    (signer <- await GetSigner ;;
     let walletAddress := account signer in
     amountIn <- lift (parseEther (toString ethAmount)) ;;
     let path := [wethAddress; usdcAddress] in
     now <- await DateNow ;;
     let deadline := deadline now in
     amounts <- await (getAmountsOut routerAddress amountIn path) ;;
     expected <- second amounts ;;
     let minAmountOut := minAmountOut expected in
     tx <-
       await (Send (mkCall routerAddress "swapExactETHForTokens"
                           [AInt minAmountOut; AList (map AAddr path);
                            AAddr walletAddress; AInt deadline])
                   (mkOverrides (Some amountIn) None)) ;;
     receipt <- await (Wait tx) ;;
     Ret (mkExecution (Some true) (hash tx) (blockNumber receipt)
            (gasUsed receipt) (Some (formatUnits expected 6))
            None None None None))
    (fun error => Throw error).

Definition getQuote (ethAmount : number) : prog string :=
  try_catch
    (amountIn <- lift (parseEther (toString ethAmount)) ;;
     let path := [wethAddress; usdcAddress] in
     amounts <- await (getAmountsOut routerAddress amountIn path) ;;
     expected <- second amounts ;;
     Ret (formatUnits expected 6))
    (fun error => Ret "0").

Definition runDemo (ethAmount : number) : prog DemoResult :=
  try_catch
    (quote <- getQuote ethAmount ;;
     execution <- executeSwap ethAmount ;;
     Ret (mkDemoResult "Uniswap V2" quote execution))
    (fun error => Throw error).

End WithLib.

End SimpleUniswapDemo.

Section WithLib.
Context {L : JsLib}.

Definition checkBalances (walletAddress : address) : prog Balances :=
  try_catch
    (ethBalance <- await (GetBalance walletAddress) ;;
     usdcBalance <- await (balanceOf USDC_ADDRESS walletAddress) ;;
     Ret (mkBalances (formatEther ethBalance) (formatUnits usdcBalance 6)))
    (fun error => Ret (mkBalances "0" "0")).

End WithLib.

(** The class [WorkingLimitOrderDemo].  The order data it keeps is a plain
    object of seven fields; [traitsValue] is the integer the SDK's
    [MakerTraits] prints for the requested traits. *)
Record OrderData : Type := mkOrderData {
  od_maker : address;
  od_receiver : address;
  od_makerAsset : address;
  od_takerAsset : address;
  od_makingAmount : Z;
  od_takingAmount : Z;
  od_makerTraits : Z
}.

Definition order_struct (d : OrderData) : arg :=
  ATuple [AAddr (od_maker d); AAddr (od_receiver d);
          AAddr (od_makerAsset d); AAddr (od_takerAsset d);
          AInt (od_makingAmount d); AInt (od_takingAmount d);
          AInt (od_makerTraits d)].

Record CreatedOrder : Type := mkCreatedOrder {
  co_limitOrder : LimitOrder;
  co_signature : string;
  co_orderHash : list byte;
  co_orderData : OrderData;
  co_typedData : Order
}.

Record CompleteResult : Type := mkCompleteResult {
  orderCreated : CreatedOrder;
  orderExecuted : Execution
}.

Definition fill_call (orderData : OrderData) (signature : string) : call :=
  mkCall LIMIT_ORDER_PROTOCOL "fillOrder"
         [order_struct orderData; AData signature;
          AInt (od_makingAmount orderData); AInt (od_takingAmount orderData)].

Section Class.
Context {L : JsLib}.
Variable traitsValue : SdkTraits -> Z.

Definition insufficient_usdc (have need : Z) : error :=
  mkError ("Insufficient USDC balance. Have " ++ formatUnits have 6
           ++ ", need " ++ formatUnits need 6).

(** [expectedUsdcAmount || (ethAmount * 2500)]: [None] stands for a falsy
    argument ([null], [undefined], [0], [NaN]). *)
Definition createLimitOrder (ethAmount : number) (expectedUsdcAmount : option number)
  : prog CreatedOrder :=
  try_catch
    (signer <- await GetSigner ;;
     let walletAddress := account signer in
     makingAmount <- lift (parseEther (toString ethAmount)) ;;
     let usdcAmount :=
       match expectedUsdcAmount with
       | Some u => u
       | None => times2500 ethAmount
       end in
     takingAmount <- lift (parseUnits (toString usdcAmount) 6) ;;
     now <- await DateNow ;;
     let expiration := now / 1000 + 3600 in
     let makerTraits := mkSdkTraits (Some expiration) true true in
     let orderData :=
       mkOrderData walletAddress walletAddress WETH_ADDRESS USDC_ADDRESS
                   makingAmount takingAmount (traitsValue makerTraits) in
     limitOrder <-
       await (SdkCreateOrder
                (mkOrderInfo WETH_ADDRESS USDC_ADDRESS makingAmount takingAmount
                             walletAddress walletAddress)
                makerTraits) ;;
     typedData <- await (SdkGetTypedData limitOrder 1) ;;
     signature <-
       await (SignTypedData signer (td_domain typedData) (td_message typedData)) ;;
     orderHash <- await (SdkGetOrderHash limitOrder 1) ;;
     Ret (mkCreatedOrder limitOrder signature orderHash orderData
                         (td_message typedData)))
    (fun error => Throw error).

Definition executeLimitOrder (orderResult : CreatedOrder) : prog Execution :=
  try_catch
    (signer <- await GetSigner ;;
     let fillerAddress := account signer in
     let orderData := co_orderData orderResult in
     let signature := co_signature orderResult in
     usdcBalance <- await (balanceOf USDC_ADDRESS fillerAddress) ;;
     let requiredUsdc := od_takingAmount orderData in
     if usdcBalance <? requiredUsdc
     then Throw (insufficient_usdc usdcBalance requiredUsdc)
     else
       approveTx <- await (approve USDC_ADDRESS LIMIT_ORDER_PROTOCOL requiredUsdc) ;;
       await (Wait approveTx) ;;;
       fillTx <-
         await (Send (fill_call orderData signature)
                     (mkOverrides None (Some 500000))) ;;
       receipt <- await (Wait fillTx) ;;
       Ret (mkExecution (Some true) (hash fillTx) (blockNumber receipt)
              (gasUsed receipt) None None None None None))
    (fun error => Throw error).

Definition runCompleteDemo (ethAmount : number) (expectedUsdcAmount : option number)
  : prog CompleteResult :=
  try_catch
    (orderResult <- createLimitOrder ethAmount expectedUsdcAmount ;;
     executionResult <- executeLimitOrder orderResult ;;
     Ret (mkCompleteResult orderResult executionResult))
    (fun error => Throw error).

End Class.

End WorkingLimitOrderDemo.

(** ** manualLimitOrderDemo.js: [checkTokenBalances] *)

Module ManualBalances.
Import Effects Lib Common.
Local Open Scope string_scope.
Local Open Scope Z_scope.
Local Open Scope prog_scope.

Record Balances : Type := mkBalances { eth : string; weth : string; usdc : string }.

Section WithLib.
Context {L : JsLib}.

Definition checkTokenBalances (walletAddress : address) : prog Balances :=
  try_catch
    (ethBalance <- await (GetBalance walletAddress) ;;
     wethBalance <- await (balanceOf WETH_ADDRESS walletAddress) ;;
     usdcBalance <- await (balanceOf USDC_ADDRESS walletAddress) ;;
     Ret (mkBalances (formatEther ethBalance) (formatEther wethBalance)
            (formatUnits usdcBalance 6)))
    (fun error => Ret (mkBalances "0" "0" "0")).

Record Conversion : Type := mkConversion {
  cv_success : bool;
  cv_transactionHash : option string;
  cv_message : option string
}.

Definition convertEthToWeth (ethAmount : number) : prog Conversion :=
  try_catch
    (signer <- await GetSigner ;;
     currentBalance <- await (balanceOf WETH_ADDRESS (account signer)) ;;
     requiredAmount <- lift (parseEther (toString ethAmount)) ;;
     if currentBalance <? requiredAmount
     then
       let neededAmount := requiredAmount - currentBalance in
       wrapTx <- await (Send (mkCall WETH_ADDRESS "deposit" [])
                             (mkOverrides (Some neededAmount) None)) ;;
       await (Wait wrapTx) ;;;
       Ret (mkConversion true (Some (hash wrapTx)) None)
     else Ret (mkConversion true None (Some "Already have sufficient WETH")))
    (fun error => Throw error).

End WithLib.

End ManualBalances.

(** ** [SimpleWorkingDemo]: WETH to USDC through the router *)

Module SimpleWorkingDemo.
Import Effects Lib Common.
Local Open Scope string_scope.
Local Open Scope Z_scope.
Local Open Scope prog_scope.

Section WithLib.
Context {L : JsLib}.

Record SwapResult : Type := mkSwapResult {
  sr_execution : Execution;
  sr_inputAmount : number;
  sr_approvalTx : option string
}.

Definition insufficient_weth (have : Z) (wethAmount : number) : error :=
  mkError ("Insufficient WETH. Have " ++ formatEther have
           ++ ", need " ++ toString wethAmount).

(** [approveTx] is declared inside the approval block; the result object
    reads it outside that block when the approval was needed. *)
Definition approveTx_not_defined : error := mkError "approveTx is not defined".

Definition executeSwap (wethAmount : number) : prog SwapResult :=
  try_catch
    (signer <- await GetSigner ;;
     let walletAddress := account signer in
     amountIn <- lift (parseEther (toString wethAmount)) ;;
     wethBalance <- await (balanceOf WETH_ADDRESS walletAddress) ;;
     if wethBalance <? amountIn
     then Throw (insufficient_weth wethBalance wethAmount)
     else
       allowance <- await (allowance WETH_ADDRESS walletAddress UNISWAP_ROUTER) ;;
       (if allowance <? amountIn
        then
          approveTx <- await (approve WETH_ADDRESS UNISWAP_ROUTER amountIn) ;;
          await (Wait approveTx) ;;;
          Ret tt
        else Ret tt) ;;;
       let path := [WETH_ADDRESS; USDC_ADDRESS] in
       amounts <- await (getAmountsOut UNISWAP_ROUTER amountIn path) ;;
       expectedOut <- second amounts ;;
       let minAmountOut := minAmountOut expectedOut in
       now <- await DateNow ;;
       let deadline := deadline now in
       swapTx <-
         await (Send (mkCall UNISWAP_ROUTER "swapExactTokensForTokens"
                             [AInt amountIn; AInt minAmountOut;
                              AList (map AAddr path); AAddr walletAddress;
                              AInt deadline])
                     (mkOverrides None (Some 300000))) ;;
       receipt <- await (Wait swapTx) ;;
       approvalTx <-
         (if allowance <? amountIn
          then Throw approveTx_not_defined
          else Ret None) ;;
       Ret (mkSwapResult
              (mkExecution (Some true) (hash swapTx) (blockNumber receipt)
                 (gasUsed receipt) (Some (formatUnits expectedOut 6))
                 (Some (formatUnits minAmountOut 6)) None None None)
              wethAmount approvalTx))
    (fun error => Throw error).

Record Quote : Type := mkQuote {
  q_input : number;
  q_output : string;
  q_rate : string
}.

Record Summary : Type := mkSummary {
  sm_trade : string;
  sm_rate : string;
  sm_method : string
}.

Record DemoResult : Type := mkDemoResult {
  dr_success : bool;
  dr_quote : Quote;
  dr_execution : SwapResult;
  dr_summary : Summary
}.

(** [(parseFloat(usdcOut) / parseFloat(wethAmount)).toFixed(2)] *)
Variable rate : string -> number -> string.

Definition getQuote (wethAmount : number) : prog Quote :=
  try_catch
    (amountIn <- lift (parseEther (toString wethAmount)) ;;
     let path := [WETH_ADDRESS; USDC_ADDRESS] in
     amounts <- await (getAmountsOut UNISWAP_ROUTER amountIn path) ;;
     expected <- second amounts ;;
     let usdcOut := formatUnits expected 6 in
     Ret (mkQuote wethAmount usdcOut (rate usdcOut wethAmount)))
    (fun error => Ret (mkQuote wethAmount "0" "0")).

Definition runDemo (wethAmount : number) : prog DemoResult :=
  try_catch
    (quote <- getQuote wethAmount ;;
     execution <- executeSwap wethAmount ;;
     Ret (mkDemoResult true quote execution
            (mkSummary (toString wethAmount ++ " WETH → " ++ q_output quote ++ " USDC")
                       ("$" ++ q_rate quote ++ " per WETH")
                       "Uniswap V2 (Direct DEX interaction)")))
    (fun error => Throw error).

End WithLib.

End SimpleWorkingDemo.

(** ** directSwapDemo: [DirectSwapDemo] and [UniswapDemo] *)

Module DirectSwapDemo.
Import Effects Lib Common.
Local Open Scope string_scope.
Local Open Scope Z_scope.
Local Open Scope prog_scope.

Definition AGGREGATION_ROUTER_V5 : address := 0x1111111254EEB25477B68fb85Ed929f73A960582.
Definition ETH_ADDRESS : address := 0xEeeeeEeeeEeEeeEeEeEeeEEEeeeeEeeeeeeeEEeE.

Section WithLib.
Context {L : JsLib}.

Definition swap_call (walletAddress : address) (amountWei : Z)
           (minReturnAmount : Z) : call :=
  let swapDesc :=
    ATuple [AAddr ETH_ADDRESS; AAddr USDC_ADDRESS; AAddr walletAddress;
            AAddr walletAddress; AInt amountWei; AInt minReturnAmount; AInt 0] in
  mkCall AGGREGATION_ROUTER_V5 "swap"
         [AAddr walletAddress; swapDesc; AData "0x"; AData "0x"].

Definition executeDirectSwap (ethAmount : number) : prog Execution :=
  try_catch
    (signer <- await GetSigner ;;
     let walletAddress := account signer in
     amountWei <- lift (parseEther (toString ethAmount)) ;;
     minReturnAmount <- lift (parseUnits "1" 6) ;;
     let c := swap_call walletAddress amountWei minReturnAmount in
     gasEstimate <- await (EstimateGas c (mkOverrides (Some amountWei) None)) ;;
     tx <-
       await (Send c (mkOverrides (Some amountWei)
                                  (Some (Z.quot (gasEstimate * 120) 100)))) ;;
     receipt <- await (Wait tx) ;;
     Ret (mkExecution (Some true) (hash tx) (blockNumber receipt)
            (gasUsed receipt) None None None None None))
    (fun error => Throw error).

Definition runDirectDemo (ethAmount : number) : prog Execution :=
  try_catch
    (result <- executeDirectSwap ethAmount ;;
     Ret result)
    (fun error => Throw error).

End WithLib.

End DirectSwapDemo.

Module UniswapDemo.
Import Effects Lib Common.
Local Open Scope string_scope.
Local Open Scope Z_scope.
Local Open Scope prog_scope.

Definition UNISWAP_V2_ROUTER : address := UNISWAP_ROUTER.
Definition wethAddress : address := WETH_ADDRESS.
Definition usdcAddress : address := USDC_ADDRESS.

Record Quote : Type := mkQuote { q_expectedOutput : string }.

Record EthBalance : Type := mkEthBalance { eth : string }.

Record DemoResult : Type := mkDemoResult {
  quote : Quote;
  execution : Execution
}.

Section WithLib.
Context {L : JsLib}.

Definition getQuote (ethAmount : number) : prog string :=
  try_catch
    (amountWei <- lift (parseEther (toString ethAmount)) ;;
     let path := [wethAddress; usdcAddress] in
     amounts <- await (getAmountsOut UNISWAP_V2_ROUTER amountWei path) ;;
     expected <- second amounts ;;
     Ret (formatUnits expected 6))
    (fun error => Ret "0").

Definition executeSwap (ethAmount : number) : prog Execution :=
  try_catch
    (signer <- await GetSigner ;;
     let walletAddress := account signer in
     amountWei <- lift (parseEther (toString ethAmount)) ;;
     let path := [wethAddress; usdcAddress] in
     now <- await DateNow ;;
     let deadline := deadline now in
     amounts <- await (getAmountsOut UNISWAP_V2_ROUTER amountWei path) ;;
     expected <- second amounts ;;
     let minAmountOut := minAmountOut expected in
     tx <-
       await (Send (mkCall UNISWAP_V2_ROUTER "swapExactETHForTokens"
                           [AInt minAmountOut; AList (map AAddr path);
                            AAddr walletAddress; AInt deadline])
                   (mkOverrides (Some amountWei) None)) ;;
     receipt <- await (Wait tx) ;;
     Ret (mkExecution (Some true) (hash tx) (blockNumber receipt)
            (gasUsed receipt) (Some (formatUnits expected 6))
            None None None None))
    (fun error => Throw error).

Definition runDemo (ethAmount : number) : prog DemoResult :=
  try_catch
    (quote <- getQuote ethAmount ;;
     result <- executeSwap ethAmount ;;
     Ret (mkDemoResult (mkQuote quote) result))
    (fun error => Throw error).

(** [checkEthBalance], exported by the same file. *)
Definition checkEthBalance (walletAddress : address) : prog EthBalance :=
  try_catch
    (ethBalance <- await (GetBalance walletAddress) ;;
     Ret (mkEthBalance (formatEther ethBalance)))
    (fun error => Ret (mkEthBalance "0")).

End WithLib.

End UniswapDemo.

(** ** components/RobustSwapDemo.js *)

Module RobustSwapDemo.
Import Effects Lib Common.
Local Open Scope string_scope.
Local Open Scope Z_scope.
Local Open Scope prog_scope.

(** What the component shows as its result. *)
Record Result : Type := mkResult {
  method : string;
  quote : option UniswapDemo.Quote;
  execution : Execution
}.

(** The component's state; [connected] is [provider && account]. *)
Record State : Type := mkState {
  connected : bool;
  balance_eth : string;
  ethAmount : string;
  isLoading : bool;
  result : option Result;
  error : option string
}.

Definition setError (m : option string) (st : State) : State :=
  mkState (connected st) (balance_eth st) (ethAmount st) (isLoading st)
          (result st) m.

Definition setResult (r : option Result) (st : State) : State :=
  mkState (connected st) (balance_eth st) (ethAmount st) (isLoading st)
          r (error st).

Definition setIsLoading (b : bool) (st : State) : State :=
  mkState (connected st) (balance_eth st) (ethAmount st) b
          (result st) (error st).

(** What the component shows once the click handler is done. *)
Definition shown (st : State) (r : option Result) (e : option string) : State :=
  mkState (connected st) (balance_eth st) (ethAmount st) false r e.

Section WithLib.
Context {L : JsLib}.

Definition insufficient_eth (st : State) : string :=
  "Insufficient ETH balance. You have " ++ balance_eth st ++ " ETH but need "
  ++ toString (plusMilli (parseFloat (ethAmount st))) ++ " ETH (includes gas)".

Definition all_failed (uniswapError directError : Effects.error) : string :=
  "Swap failed. Uniswap: " ++ message uniswapError
  ++ ". 1inch: " ++ message directError.

(** The click handler; it never throws.  The delayed [loadBalance] it
    schedules on success is a later, separate task. *)
Definition runDemo (st : State) : prog State :=
  if negb (connected st)
  then Ret (setError (Some "Please connect your wallet first") st)
  else if number_ltb (parseFloat (balance_eth st))
                     (plusMilli (parseFloat (ethAmount st)))
  then Ret (setError (Some (insufficient_eth st)) st)
  else
    let st := setResult None (setError None (setIsLoading true st)) in
    st <-
      try_catch
        (demoResult <- UniswapDemo.runDemo (parseFloat (ethAmount st)) ;;
         Ret (setResult
                (Some (mkResult "Uniswap V2"
                         (Some (UniswapDemo.quote demoResult))
                         (UniswapDemo.execution demoResult)))
                st))
        (fun uniswapError =>
           try_catch
             (directResult <-
                DirectSwapDemo.runDirectDemo (parseFloat (ethAmount st)) ;;
              Ret (setResult (Some (mkResult "1inch Direct" None directResult)) st))
             (fun directError =>
                Ret (setError (Some (all_failed uniswapError directError)) st))) ;;
    Ret (setIsLoading false st).

End WithLib.

End RobustSwapDemo.

(** ** What the two order-hash functions feed into Keccak *)

Module OrderHashing.
Import ManualLimitOrderDemo Working1inchLimitOrder.

(** No two distinct members of [inputs] have the same digest. *)
Definition collision_free (inputs : list (list byte)) : Prop :=
  forall x y, In x inputs -> In y inputs ->
              Keccak.keccak256 x = Keccak.keccak256 y -> x = y.

(** The same, decided by running Keccak on every pair. *)
Definition collision_free_b (inputs : list (list byte)) : bool :=
  forallb (fun x =>
    forallb (fun y =>
      Bytes.bytes_eqb x y
      || negb (Bytes.bytes_eqb (Keccak.keccak256 x) (Keccak.keccak256 y)))
    inputs) inputs.

(** The byte strings hashed for the order itself by [createOrderHash] and by
    [generateOrderHash]: the bare encoding, the struct encoding, and the
    final prefixed message. *)
Definition hashed_inputs (o : Order) (d : Domain) : list (list byte) :=
  match Abi.encode (order_fields o),
        Abi.encode (domain_fields d),
        Abi.encode (struct_fields o) with
  | Some encoded, Some domainEncoded, Some structEncoded =>
      [encoded; structEncoded;
       (eip191_prefix ++ Keccak.keccak256 domainEncoded
                      ++ Keccak.keccak256 structEncoded)%list]
  | _, _, _ => []
  end.

(** A sample order: 1 WETH for 2500 USDC, no traits. *)
Definition sample_order : Order :=
  mkOrder 1700000000000 0x00000000000000000000000000000000000A11CE
          0x00000000000000000000000000000000000A11CE
          WETH_ADDRESS USDC_ADDRESS (10 ^ 18) (2500 * 10 ^ 6) 0.

(** Every field of the order fits its ABI type. *)
Definition order_ok (o : Order) : bool :=
  Abi.in_range 256 (salt o) && Abi.in_range 160 (maker o)
  && Abi.in_range 160 (receiver o) && Abi.in_range 160 (makerAsset o)
  && Abi.in_range 160 (takerAsset o) && Abi.in_range 256 (makingAmount o)
  && Abi.in_range 256 (takingAmount o) && Abi.in_range 256 (makerTraits o).

Definition domain_ok (d : Domain) : bool :=
  Abi.in_range 256 (chainId d) && Abi.in_range 160 (verifyingContract d).

(** The byte strings hashed for the domain by [generateOrderHash], with
    the final prefixed message. *)
Definition domain_inputs (o : Order) (d : Domain) : list (list byte) :=
  match Abi.encode (domain_fields d), Abi.encode (struct_fields o) with
  | Some domainEncoded, Some structEncoded =>
      [Bytes.toUtf8Bytes (name d); Bytes.toUtf8Bytes (version d);
       domainEncoded; structEncoded;
       (eip191_prefix ++ Keccak.keccak256 domainEncoded
                      ++ Keccak.keccak256 structEncoded)%list]
  | _, _ => []
  end.

End OrderHashing.

(** ** Further checks on traces *)

Module Invariants.
Import Effects Lib Common.
Local Open Scope string_scope.
Local Open Scope Z_scope.

(** The run threw. *)
Definition failed {A : Type} (r : error + A) : Prop :=
  match r with inl _ => True | inr _ => False end.

Definition newest {A : Type} (new old : option A) : option A :=
  match new with Some v => Some v | None => old end.

(** The signature a signing request was answered with. *)
Definition signature_answer (en : entry) : option string :=
  match en with
  | Entry ev r =>
      match ev in event R return (error + R -> option string) with
      | SignTypedData _ _ _ => fun r =>
          match r with inr s => Some s | inl _ => None end
      | _ => fun _ => None
      end r
  end.

(** The order of a signing request that was answered. *)
Definition signed_answer (en : entry) : option Order :=
  match en with
  | Entry ev r =>
      match ev in event R return (error + R -> option Order) with
      | SignTypedData _ _ o => fun r =>
          match r with inr _ => Some o | inl _ => None end
      | _ => fun _ => None
      end r
  end.

(** The arguments of a [fillOrder] transaction, or gas estimate, on the
    settlement contract. *)
Definition fill_request (en : entry) : option (list arg) :=
  match en with
  | Entry ev _ =>
      match ev with
      | Send c _ | EstimateGas c _ =>
          if (target c =? LIMIT_ORDER_PROTOCOL) && String.eqb (method c) "fillOrder"
          then Some (args c)
          else None
      | _ => None
      end
  end.

Definition carries (sig : option string) (a : list arg) : bool :=
  match sig, a with
  | Some s, _ :: AData d :: _ => String.eqb d s
  | _, _ => false
  end.

(** Every fill request carries, as its second argument, the signature the
    wallet gave last. *)
Fixpoint fills_carry_signature (sig : option string) (tr : trace) : bool :=
  match tr with
  | [] => true
  | en :: rest =>
      match fill_request en with
      | Some a => carries sig a
      | None => true
      end
      && fills_carry_signature (newest (signature_answer en) sig) rest
  end.

(** The arguments fill the order [o] in full: its eight-field tuple, then
    a signature, then its two amounts. *)
Definition is_full_fill_of (o : option Order) (a : list arg) : bool :=
  match o, a with
  | Some o,
    ATuple [AInt s; AAddr mk; AAddr rc; AAddr ma; AAddr ta; AInt m; AInt t; AInt tr]
      :: AData _ :: AInt fm :: AInt ft :: _ =>
      (s =? salt o) && (mk =? maker o) && (rc =? receiver o)
      && (ma =? makerAsset o) && (ta =? takerAsset o)
      && (m =? makingAmount o) && (t =? takingAmount o)
      && (tr =? makerTraits o)
      && (fm =? makingAmount o) && (ft =? takingAmount o)
  | _, _ => false
  end.

(** Every fill request fills, in full, the order the wallet signed last. *)
Fixpoint fills_signed_order (o : option Order) (tr : trace) : bool :=
  match tr with
  | [] => true
  | en :: rest =>
      match fill_request en with
      | Some a => is_full_fill_of o a
      | None => true
      end
      && fills_signed_order (newest (signed_answer en) o) rest
  end.

(** The answer to a query of [token.allowance(_, spender)]. *)
Definition allowance_answer (token spender : address) (en : entry) : option Z :=
  match en with
  | Entry ev r =>
      match ev in event R return (error + R -> option Z) with
      | CallUint c => fun r =>
          if (target c =? token) && String.eqb (method c) "allowance"
             && match args c with
                | [_; AAddr sp] => sp =? spender
                | _ => false
                end
          then match r with inr a => Some a | inl _ => None end
          else None
      | _ => fun _ => None
      end r
  end.

(** The transaction and amount of an accepted [token.approve(spender, amount)]. *)
Definition approved (token spender : address) (en : entry) : option (tx * Z) :=
  match en with
  | Entry ev r =>
      match ev in event R return (error + R -> option (tx * Z)) with
      | Send c _ => fun r =>
          if (target c =? token) && String.eqb (method c) "approve"
          then match args c, r with
               | [AAddr sp; AInt a], inr t =>
                   if sp =? spender then Some (t, a) else None
               | _, _ => None
               end
          else None
      | _ => fun _ => None
      end r
  end.

(** What a run knows of the allowance: the latest answer to an allowance
    query or the amount of the latest approval whose confirmation was
    awaited; and the approval that is still unconfirmed. *)
Definition cover : Type := option Z * option (tx * Z).

Definition cover_step (token spender : address) (st : cover) (en : entry) : cover :=
  match allowance_answer token spender en with
  | Some a => (Some a, snd st)
  | None =>
      match approved token spender en with
      | Some p => (fst st, Some p)
      | None =>
          match snd st, confirmed_tx en with
          | Some (t, a), Some t' =>
              if String.eqb (hash t) (hash t') then (Some a, None) else st
          | _, _ => st
          end
      end
  end.

(** The input amount of a [swapExactTokensForTokens] transaction. *)
Definition token_swap_amount (en : entry) : option Z :=
  match en with
  | Entry ev _ =>
      match ev with
      | Send c _ =>
          if String.eqb (method c) "swapExactTokensForTokens"
          then match args c with
               | AInt a :: _ => Some a
               | _ => None
               end
          else None
      | _ => None
      end
  end.

(** Every token swap is sent when the allowance is known not to be below
    its input amount. *)
Fixpoint token_swaps_covered (token spender : address) (st : cover) (tr : trace)
  : bool :=
  match tr with
  | [] => true
  | en :: rest =>
      match token_swap_amount en with
      | Some a =>
          match fst st with
          | Some k => negb (k <? a)
          | None => false
          end
      | None => true
      end
      && token_swaps_covered token spender (cover_step token spender st en) rest
  end.

(** The taking amount a fill request asks for. *)
Definition fill_taking (en : entry) : option Z :=
  match fill_request en with
  | Some (_ :: _ :: _ :: AInt ft :: _) => Some ft
  | _ => None
  end.

(** The answer to a query of [token.balanceOf(_)]. *)
Definition balance_answer (token : address) (en : entry) : option Z :=
  match en with
  | Entry ev r =>
      match ev in event R return (error + R -> option Z) with
      | CallUint c => fun r =>
          if (target c =? token) && String.eqb (method c) "balanceOf"
          then match r with inr b => Some b | inl _ => None end
          else None
      | _ => fun _ => None
      end r
  end.

(** Every fill request asks for no more of the taker asset than the
    balance read last. *)
Fixpoint fills_within_balance (token : address) (bal : option Z) (tr : trace) : bool :=
  match tr with
  | [] => true
  | en :: rest =>
      match fill_taking en with
      | Some ft =>
          match bal with
          | Some b => negb (b <? ft)
          | None => false
          end
      | None => true
      end
      && fills_within_balance token (newest (balance_answer token en) bal) rest
  end.

(** Every fill request is made when the allowance is known not to be below
    its taking amount. *)
Fixpoint fills_covered (token spender : address) (st : cover) (tr : trace) : bool :=
  match tr with
  | [] => true
  | en :: rest =>
      match fill_taking en with
      | Some ft =>
          match fst st with
          | Some k => negb (k <? ft)
          | None => false
          end
      | None => true
      end
      && fills_covered token spender (cover_step token spender st en) rest
  end.

Fixpoint arg_eqb (a b : arg) : bool :=
  match a, b with
  | AInt x, AInt y => x =? y
  | AAddr x, AAddr y => x =? y
  | AData x, AData y => String.eqb x y
  | ATuple l, ATuple m | AList l, AList m =>
      (fix go (l m : list arg) : bool :=
         match l, m with
         | [], [] => true
         | x :: l', y :: m' => arg_eqb x y && go l' m'
         | _, _ => false
         end) l m
  | _, _ => false
  end.

Fixpoint args_eqb (l m : list arg) : bool :=
  match l, m with
  | [], [] => true
  | x :: l', y :: m' => arg_eqb x y && args_eqb l' m'
  | _, _ => false
  end.

Definition call_eqb (c d : call) : bool :=
  (target c =? target d) && String.eqb (method c) (method d)
  && args_eqb (args c) (args d).

Definition value_eqb (a b : option Z) : bool :=
  match a, b with
  | Some x, Some y => x =? y
  | None, None => true
  | _, _ => false
  end.

(** The call, the value sent with it and the answer of an accepted gas
    estimate. *)
Definition estimate_answer (en : entry) : option (call * option Z * Z) :=
  match en with
  | Entry ev r =>
      match ev in event R return (error + R -> option (call * option Z * Z)) with
      | EstimateGas c ov => fun r =>
          match r with inr g => Some (c, value ov, g) | inl _ => None end
      | _ => fun _ => None
      end r
  end.

(** A transaction to [m] as the gas estimate [last] allows it: the same
    call with the same value, and 120% of the estimate (BigInt division) as
    gas limit. *)
Definition follows_estimate (last : option (call * option Z * Z))
           (c : call) (ov : overrides) : bool :=
  match last with
  | Some (c', v, g) =>
      call_eqb c c' && value_eqb (value ov) v
      && value_eqb (gasLimit ov) (Some (Z.quot (g * 120) 100))
  | None => false
  end.

(** Every transaction to method [m] directly follows an accepted gas
    estimate of the same call. *)
Fixpoint sends_follow_estimate (m : string) (last : option (call * option Z * Z))
         (tr : trace) : bool :=
  match tr with
  | [] => true
  | en :: rest =>
      match en with
      | Entry ev _ =>
          match ev with
          | Send c ov =>
              if String.eqb (method c) m then follows_estimate last c ov else true
          | _ => true
          end
      end
      && sends_follow_estimate m (estimate_answer en) rest
  end.

(** A request (view call, transaction or gas estimate) to contract [t]. *)
Definition is_call_to (t : address) (en : entry) : bool :=
  match entry_call en with
  | Some c => target c =? t
  | None => false
  end.

(** The value sent with a [deposit] transaction to the wrapping contract. *)
Definition deposit_value (en : entry) : list (option Z) :=
  match en with
  | Entry ev _ =>
      match ev with
      | Send c ov =>
          if (target c =? WETH_ADDRESS) && String.eqb (method c) "deposit"
          then [value ov]
          else []
      | _ => []
      end
  end.

Definition deposits (tr : trace) : list (option Z) := flat_map deposit_value tr.

(** The amount of an [approve] transaction, with its token and spender. *)
Definition approval_of (en : entry) : list (address * address * Z) :=
  match en with
  | Entry ev _ =>
      match ev with
      | Send c _ =>
          if String.eqb (method c) "approve"
          then match args c with
               | [AAddr sp; AInt a] => [(target c, sp, a)]
               | _ => []
               end
          else []
      | _ => []
      end
  end.

Definition approvals (tr : trace) : list (address * address * Z) :=
  flat_map approval_of tr.

(** The last answer of its kind in a trace. *)
Fixpoint last_of {A : Type} (f : entry -> option A) (acc : option A) (tr : trace)
  : option A :=
  match tr with
  | [] => acc
  | en :: rest => last_of f (newest (f en) acc) rest
  end.

(** The transaction an accepted swap request returned. *)
Definition swap_sent (en : entry) : option tx :=
  match swap_request en with
  | Some _ => sent_tx en
  | None => None
  end.

(** The transaction an accepted fill request returned. *)
Definition fill_sent (en : entry) : option tx :=
  match fill_request en with
  | Some _ => sent_tx en
  | None => None
  end.

(** A confirmation: the transaction and its receipt. *)
Definition receipt_answer (en : entry) : option (tx * receipt) :=
  match en with
  | Entry ev r =>
      match ev in event R return (error + R -> option (tx * receipt)) with
      | Wait t => fun r => match r with inr rc => Some (t, rc) | inl _ => None end
      | _ => fun _ => None
      end r
  end.

(** The domain and order of an answered signing request, with the answer. *)
Definition signing_answer (en : entry) : option (Domain * Order * string) :=
  match en with
  | Entry ev r =>
      match ev in event R return (error + R -> option (Domain * Order * string)) with
      | SignTypedData _ d o => fun r =>
          match r with inr sig => Some (d, o, sig) | inl _ => None end
      | _ => fun _ => None
      end r
  end.

(** The answer to the contract's [hashOrder]. *)
Definition hash_answer (en : entry) : option (list byte) :=
  match en with
  | Entry ev r =>
      match ev in event R return (error + R -> option (list byte)) with
      | CallBytes32 c => fun r =>
          if (target c =? LIMIT_ORDER_PROTOCOL) && String.eqb (method c) "hashOrder"
          then match r with inr hsh => Some hsh | inl _ => None end
          else None
      | _ => fun _ => None
      end r
  end.

(** What a returned swap record says of the transaction, against the
    trace: the hash of the swap that was sent last, the block and gas of
    the confirmation awaited last, which is that swap's. *)
Definition reports_swap (r : Execution) (tr : trace) : Prop :=
  exists (t : tx) (rc : receipt),
    last_of swap_sent None tr = Some t
    /\ last_of receipt_answer None tr = Some (t, rc)
    /\ transactionHash r = hash t
    /\ ex_blockNumber r = blockNumber rc
    /\ ex_gasUsed r = gasUsed rc.

(** The same for a fill. *)
Definition reports_fill (r : Execution) (tr : trace) : Prop :=
  exists (t : tx) (rc : receipt),
    last_of fill_sent None tr = Some t
    /\ last_of receipt_answer None tr = Some (t, rc)
    /\ transactionHash r = hash t
    /\ ex_blockNumber r = blockNumber rc
    /\ ex_gasUsed r = gasUsed rc.

(** No entry satisfying [is_later] comes while a transaction satisfying
    [is_tx] is sent and its confirmation not yet obtained. *)
Fixpoint not_while_pending (is_tx is_later : entry -> bool) (st : approval)
         (tr : trace) : bool :=
  match tr with
  | [] => true
  | en :: rest =>
      (if is_later en
       then match st with Sent _ => false | _ => true end
       else true)
      && not_while_pending is_tx is_later (approval_step is_tx st en) rest
  end.

(** What a run knows of the USDC allowance of the settlement contract,
    against the amount [required]: not read yet; read and sufficient; read
    and short; an approval sent; that approval confirmed. *)
Inductive allowance_state : Type :=
| Unread
| Sufficient
| Short
| Approving (t : tx)
| Approved.

Definition allowance_step (required : Z) (st : allowance_state) (en : entry)
  : allowance_state :=
  match allowance_answer USDC_ADDRESS LIMIT_ORDER_PROTOCOL en with
  | Some a => if a <? required then Short else Sufficient
  | None =>
      if usdc_approval en
      then match sent_tx en with Some t => Approving t | None => st end
      else match st, confirmed_tx en with
           | Approving t, Some t' =>
               if String.eqb (hash t) (hash t') then Approved else st
           | _, _ => st
           end
  end.

(** The allowance precondition: a fill request is made only when the
    allowance read last was not below [required], or when it was and an
    approval sent after that has been confirmed (and no later reading was
    short again); an approval is sent only after a short reading. *)
Fixpoint allowance_enforced (required : Z) (st : allowance_state) (tr : trace)
  : bool :=
  match tr with
  | [] => true
  | en :: rest =>
      (if is_fill_request en
       then match st with Sufficient | Approved => true | _ => false end
       else true)
      && (if usdc_approval en
          then match st with Short => true | _ => false end
          else true)
      && allowance_enforced required (allowance_step required st en) rest
  end.

(** *** Positive amounts

    [0 < x] on numbers, and the two facts about doubles and
    [ethers.parseUnits] on which positive amounts rest: the text of a
    positive number, when it parses at all, parses to a positive integer;
    and 2500 times a positive number is positive. *)
Section Positive.
Context {L : JsLib}.

Definition positive (x : number) : Prop :=
  number_ltb (parseFloat "0") x = true.

Definition parses_positive : Prop :=
  forall (x : number) (decimals : nat) (v : Z),
    positive x -> parseUnits (toString x) decimals = inr v -> 0 < v.

Definition times2500_positive : Prop :=
  forall x : number, positive x -> positive (times2500 x).

End Positive.

End Invariants.

(** ** A concrete instance of the number interface

    Numbers that are short decimals, with exact arithmetic: what the
    JavaScript operations compute on inputs such as 0.001 or 1, printed in
    plain decimal notation.  It serves to run the helpers on concrete
    inputs. *)

Module DecimalJs.
Import Effects Lib.
Local Open Scope string_scope.
Local Open Scope Z_scope.

(** [mant / 10 ^ scale] *)
Record dec : Type := mkDec { mant : Z; scale : nat }.

Fixpoint norm (m : Z) (sc : nat) : dec :=
  match sc with
  | O => mkDec m 0
  | S sc' => if m mod 10 =? 0 then norm (m / 10) sc' else mkDec m sc
  end.

Definition is_digit (c : ascii) : bool :=
  let n := Z.of_nat (nat_of_ascii c) in (48 <=? n) && (n <=? 57).

Fixpoint all_digits (s : string) : bool :=
  match s with
  | EmptyString => true
  | String c rest => is_digit c && all_digits rest
  end.

Fixpoint digits_value (acc : Z) (s : string) : Z :=
  match s with
  | EmptyString => acc
  | String c rest => digits_value (acc * 10 + (Z.of_nat (nat_of_ascii c) - 48)) rest
  end.

(** The text before the first dot, and the text after it. *)
Fixpoint split_dot (s : string) : string * string :=
  match s with
  | EmptyString => (EmptyString, EmptyString)
  | String c rest =>
      if Ascii.eqb c "."%char then (EmptyString, rest)
      else let '(w, f) := split_dot rest in (String c w, f)
  end.

Definition parse_text (s : string) : option dec :=
  let '(w, f) := split_dot s in
  if all_digits w && all_digits f && (0 <? String.length w + String.length f)%nat
  then Some (mkDec (digits_value 0 (w ++ f)) (String.length f))
  else None.

Fixpoint digit_string (fuel : nat) (z : Z) (acc : string) : string :=
  match fuel with
  | O => acc
  | S fuel' =>
      let acc' := String (ascii_of_nat (Z.to_nat (z mod 10) + 48)) acc in
      if z / 10 =? 0 then acc' else digit_string fuel' (z / 10) acc'
  end.

(** Decimal digits of a natural number. *)
Definition digits (z : Z) : string :=
  digit_string (S (Z.to_nat (Z.log2 z))) z EmptyString.

Fixpoint zeros (n : nat) : string :=
  match n with
  | O => EmptyString
  | S n' => String "0"%char (zeros n')
  end.

Definition pad_left (width : nat) (s : string) : string :=
  zeros (width - String.length s) ++ s.

Definition render (d : dec) : string :=
  match scale d with
  | O => digits (mant d)
  | sc =>
      digits (mant d / 10 ^ Z.of_nat sc) ++ "."
      ++ pad_left sc (digits (mant d mod 10 ^ Z.of_nat sc))
  end.

(** Trailing zeros dropped, one fractional digit kept. *)
Fixpoint norm1 (m : Z) (sc : nat) : dec :=
  match sc with
  | O => mkDec m 0
  | 1%nat => mkDec m 1
  | S sc' => if m mod 10 =? 0 then norm1 (m / 10) sc' else mkDec m sc
  end.

Definition format_units (v : Z) (decimals : nat) : string :=
  if v <? 0 then "-" ++ render (norm1 (- v) decimals)
  else render (norm1 v decimals).

Definition parse_units (s : string) (decimals : nat) : error + Z :=
  match parse_text s with
  | None => inl (mkError "invalid FixedNumber string value")
  | Some d =>
      let n := norm (mant d) (scale d) in
      if (scale n <=? decimals)%nat
      then inr (mant n * 10 ^ Z.of_nat (decimals - scale n))
      else inl (mkError "too many decimals for format")
  end.

Definition parse_float (s : string) : dec :=
  match parse_text s with
  | Some d => norm (mant d) (scale d)
  | None => mkDec 0 0
  end.

Definition plus_milli (x : dec) : dec :=
  if (scale x <=? 3)%nat
  then norm (mant x * 10 ^ Z.of_nat (3 - scale x) + 1) 3
  else norm (mant x + 10 ^ Z.of_nat (scale x - 3)) (scale x).

Definition ltb (x y : dec) : bool :=
  mant x * 10 ^ Z.of_nat (scale y) <? mant y * 10 ^ Z.of_nat (scale x).

Definition to_fixed6 (x : dec) : string :=
  let p := 10 ^ Z.of_nat (scale x) in
  let m6 := (mant x * 1000000 * 2 + p) / (2 * p) in
  render (mkDec m6 6).

#[local] Instance lib : JsLib := {|
  number := dec;
  parseFloat := parse_float;
  toString := fun x => render (norm (mant x) (scale x));
  times2500 := fun x => norm (mant x * 2500) (scale x);
  plusMilli := plus_milli;
  number_ltb := ltb;
  toFixed6 := to_fixed6;
  parseUnits := parse_units;
  formatUnits := format_units
|}.

(** A digit from 1 to 9. *)
Definition is_pos_digit (c : ascii) : bool :=
  let n := Z.of_nat (nat_of_ascii c) in (49 <=? n) && (n <=? 57).

Fixpoint has_pos_digit (s : string) : bool :=
  match s with
  | EmptyString => false
  | String c rest => is_pos_digit c || has_pos_digit rest
  end.

End DecimalJs.

(** ** A concrete world

    A wallet with fixed balances, a router with a fixed quote, a clock, and
    one allowance that an approval sets.  Contract requests selected by
    [reverts] are rejected. *)

Module Scenario.
Import Effects Lib Common.
Local Open Scope string_scope.
Local Open Scope Z_scope.

Record Config : Type := mkConfig {
  wallet : address;
  eth_balance : Z;
  weth_balance : Z;
  usdc_balance : Z;
  quoted : list Z;
  clock : Z;
  random : Z;
  reverts : call -> option error
}.

(** The state of the world: the current allowance. *)
Definition World : Type := Z.

Definition reject_or {A : Type} (cfg : Config) (c : call) (a : A) : error + A :=
  match reverts cfg c with
  | Some e => inl e
  | None => inr a
  end.

Definition approved_amount (c : call) : option Z :=
  if String.eqb (method c) "approve"
  then match args c with
       | [_; AInt amount] => Some amount
       | _ => None
       end
  else None.

Definition sdk_order (info : OrderInfo) : Order :=
  mkOrder 1 (info_maker info) (info_receiver info) (info_makerAsset info)
          (info_takerAsset info) (info_makingAmount info)
          (info_takingAmount info) 0.

Definition world (cfg : Config) : handler World :=
  fun R ev =>
    match ev in event R return World -> (error + R) * World with
    | GetSigner => fun w => (inr (mkSigner (wallet cfg)), w)
    | GetBalance _ => fun w => (inr (eth_balance cfg), w)
    | CallUint c => fun w =>
        (reject_or cfg c
           (if String.eqb (method c) "allowance" then w
            else if String.eqb (method c) "balanceOf"
                 then if target c =? WETH_ADDRESS then weth_balance cfg
                      else usdc_balance cfg
                 else 0),
         w)
    | CallUints c => fun w => (reject_or cfg c (quoted cfg), w)
    | CallBytes32 c => fun w => (reject_or cfg c (repeat x00 32), w)
    | Send c ov => fun w =>
        match reverts cfg c with
        | Some e => (inl e, w)
        | None =>
            (inr (mkTx ("0x" ++ method c)),
             match approved_amount c with
             | Some amount => amount
             | None => w
             end)
        end
    | EstimateGas c ov => fun w => (reject_or cfg c 150000, w)
    | Wait t => fun w => (inr (mkReceipt 19000000 120000), w)
    | SignTypedData s d o => fun w => (inr "0x5167", w)
    | DateNow => fun w => (inr (clock cfg), w)
    | MathRandom1000 => fun w => (inr (random cfg), w)
    | SdkCreateOrder info traits => fun w => (inr (mkLimitOrder (sdk_order info)), w)
    | SdkGetTypedData lo chain => fun w =>
        (inr (mkTypedData Working1inchLimitOrder.domain (data lo)), w)
    | SdkGetOrderHash lo chain => fun w => (inr (repeat x00 32), w)
    end.

Definition alice : address := 0x00000000000000000000000000000000000A11CE.

Definition never : call -> option error := fun _ => None.

(** Rejects the requests to [method] with [message]. *)
Definition reverting (m : string) (msg : string) : call -> option error :=
  fun c => if String.eqb (method c) m then Some (mkError msg) else None.

End Scenario.

(** * Properties *)

(** ** Keccak on known inputs *)

(** Known digests: the empty string, "abc", and the EIP-712 domain type
    string. *)
Example keccak256_empty :
  Bytes.be_value (Keccak.keccak256 []) =
  0xc5d2460186f7233c927e7db2dcc703c0e500b653ca82273b7bfad8045d85a470.
Proof. vm_compute. reflexivity. Qed.

Example keccak256_abc :
  Bytes.be_value (Keccak.keccak256 (Bytes.toUtf8Bytes "abc")) =
  0x4e03657aea45a94fc7d47ba826c8d667c0d1e6e33a64a036ec44f58fa12d6c45.
Proof. vm_compute. reflexivity. Qed.

Example keccak256_eip712_domain_type :
  Bytes.be_value
    (Keccak.keccak256
       (Bytes.toUtf8Bytes
          "EIP712Domain(string name,string version,uint256 chainId,address verifyingContract)")) =
  0x8b73c3c69bb8fe3d512ecc4cf759cc79239f7b179b0ffacaa9a75d522b39400f.
Proof. vm_compute. reflexivity. Qed.


(** The decimal instance on the inputs used below. *)
Example decimal_parse_ether :
  DecimalJs.parse_units "0.001" 18 = inr 1000000000000000.
Proof. vm_compute. reflexivity. Qed.

Example decimal_times2500 :
  @Lib.toString DecimalJs.lib
     (@Lib.times2500 DecimalJs.lib (DecimalJs.parse_float "0.001")) = "2.5"%string.
Proof. vm_compute. reflexivity. Qed.

Example decimal_format_units :
  DecimalJs.format_units 1000000000000000000 18 = "1.0"%string /\
  DecimalJs.format_units 2500000 6 = "2.5"%string /\
  DecimalJs.format_units 999999999999999 18 = "0.000999999999999999"%string /\
  DecimalJs.format_units 0 6 = "0.0"%string.
Proof. vm_compute. repeat split. Qed.

Example decimal_too_many_decimals :
  DecimalJs.parse_units "0.0000001" 6 =
  inl (Effects.mkError "too many decimals for format").
Proof. vm_compute. reflexivity. Qed.

(** ** Maker traits *)

Section Traits.
Import Working1inchLimitOrder.

Lemma traits_value (now : Z) :
  createProperMakerTraits now = Z.lor 3 (Z.shiftl (expiration now) 160).
Proof. reflexivity. Qed.

Lemma three_bits (i : Z) :
  Z.testbit 3 i = (i =? 0) || (i =? 1).
Proof.
  destruct (Z.ltb_spec i 0) as [Hneg | Hpos].
  - rewrite Z.testbit_neg_r by assumption.
    destruct (Z.eqb_spec i 0); [lia |]. destruct (Z.eqb_spec i 1); [lia |].
    reflexivity.
  - destruct (Z.eqb_spec i 0) as [-> | H0]; [reflexivity |].
    destruct (Z.eqb_spec i 1) as [-> | H1]; [reflexivity |].
    simpl. change 3 with (Z.ones 2).
    apply Z.ones_spec_high. lia.
Qed.

(** C5. [createProperMakerTraits] starts from zero, sets bit 0 (partial
    fills) and bit 1 (multiple fills) and ORs in the expiry shifted left by
    160: bits 0 and 1 are set, the bits from 160 upwards hold the expiry
    [floor(now / 1000) + 3600], and every bit in between is zero.
    [Fixed1inchDemo.createMakerTraits] has exactly the bits 254 and 255
    set. *)
Theorem maker_traits_layout (now : Z) :
  let t := createProperMakerTraits now in
  Z.testbit t 0 = true
  /\ Z.testbit t 1 = true
  /\ Z.shiftr t 160 = expiration now
  /\ Z.land t (Z.ones 160) = 3
  /\ (forall i : Z,
        Z.testbit Fixed1inchDemo.createMakerTraits i = (i =? 254) || (i =? 255)).
Proof.
  intro t. subst t. rewrite traits_value.
  set (e := expiration now).
  repeat split.
  - rewrite Z.lor_spec, Z.shiftl_spec_low by lia. reflexivity.
  - rewrite Z.lor_spec, Z.shiftl_spec_low by lia. reflexivity.
  - apply Z.bits_inj'. intros i Hi.
    rewrite Z.shiftr_spec, Z.lor_spec, Z.shiftl_spec by lia.
    rewrite three_bits.
    destruct (Z.eqb_spec (i + 160) 0); [lia |].
    destruct (Z.eqb_spec (i + 160) 1); [lia |].
    simpl. f_equal. lia.
  - apply Z.bits_inj'. intros i Hi.
    rewrite Z.land_spec, Z.lor_spec.
    destruct (Z.ltb_spec i 160) as [Hlow | Hhigh].
    + rewrite Z.shiftl_spec_low by lia.
      rewrite Z.ones_spec_low by lia.
      rewrite orb_false_r, andb_true_r. reflexivity.
    + rewrite Z.ones_spec_high by lia.
      rewrite andb_false_r. rewrite three_bits.
      destruct (Z.eqb_spec i 0); [lia |].
      destruct (Z.eqb_spec i 1); [lia |]. reflexivity.
  - intro i.
    change Fixed1inchDemo.createMakerTraits
      with (Z.lor (Z.lor 0 (Z.shiftl 1 255)) (Z.shiftl 1 254)).
    rewrite Z.lor_0_l, Z.lor_spec.
    rewrite !Z.shiftl_1_l.
    destruct (Z.ltb_spec i 0) as [Hneg | Hpos].
    + rewrite !Z.testbit_neg_r by assumption.
      destruct (Z.eqb_spec i 254); [lia |].
      destruct (Z.eqb_spec i 255); [lia |]. reflexivity.
    + rewrite !Z.pow2_bits_eqb by lia.
      rewrite orb_comm. rewrite (Z.eqb_sym 254 i), (Z.eqb_sym 255 i).
      reflexivity.
Qed.

End Traits.

(** ** Order hashes *)

Module HashFacts.
Import Bytes.

Lemma Z_of_byte_of_Z (z : Z) : Z_of_byte (byte_of_Z z) = z mod 256.
Proof.
  unfold Z_of_byte, byte_of_Z.
  assert (B : 0 <= z mod 256 < 256) by (apply Z.mod_pos_bound; lia).
  destruct (Byte.of_N (Z.to_N (z mod 256))) as [b |] eqn:E.
  - apply Byte.to_of_N in E. rewrite E. rewrite Z2N.id; lia.
  - apply Byte.of_N_None_iff in E. lia.
Qed.

Lemma bytes_eqb_eq (x y : list byte) : bytes_eqb x y = true <-> x = y.
Proof.
  revert y. induction x as [| a x IH]; intros [| b y]; simpl;
    try (split; [discriminate | discriminate]); try tauto.
  rewrite andb_true_iff, IH. split.
  - intros [H ->]. apply Byte.byte_dec_bl in H. subst. reflexivity.
  - intro H. injection H as -> ->. split; [apply Byte.byte_dec_lb |]; reflexivity.
Qed.

Lemma collision_free_b_sound (inputs : list (list byte)) :
  OrderHashing.collision_free_b inputs = true -> OrderHashing.collision_free inputs.
Proof.
  unfold OrderHashing.collision_free_b, OrderHashing.collision_free.
  intros H x y Hx Hy E.
  rewrite forallb_forall in H. specialize (H x Hx).
  rewrite forallb_forall in H. specialize (H y Hy).
  apply orb_true_iff in H. destruct H as [H | H].
  - apply bytes_eqb_eq. exact H.
  - rewrite E in H.
    assert (R : bytes_eqb (Keccak.keccak256 y) (Keccak.keccak256 y) = true)
      by (apply bytes_eqb_eq; reflexivity).
    rewrite R in H. discriminate H.
Qed.

Lemma be_bytes_length (n : nat) (v : Z) : List.length (be_bytes n v) = n.
Proof. induction n as [| n IH]; simpl; [reflexivity | rewrite IH; reflexivity]. Qed.

Lemma be_bytes_S (n : nat) (v : Z) :
  be_bytes (S n) v = byte_of_Z (Z.shiftr v (8 * Z.of_nat n)) :: be_bytes n v.
Proof. reflexivity. Qed.

Lemma be_bytes_mod (n : nat) (a b : Z) :
  be_bytes n a = be_bytes n b ->
  a mod 2 ^ (8 * Z.of_nat n) = b mod 2 ^ (8 * Z.of_nat n).
Proof.
  induction n as [| n IH]; intro H.
  - simpl. rewrite !Z.mod_1_r. reflexivity.
  - rewrite !be_bytes_S in H.
    assert (Hhd := f_equal (fun l => hd x00 l) H).
    assert (Htl := f_equal (fun l => tl l) H).
    cbv beta in Hhd, Htl. cbn [hd tl] in Hhd, Htl. clear H.
    specialize (IH Htl).
    apply (f_equal Z_of_byte) in Hhd. rewrite !Z_of_byte_of_Z in Hhd.
    rewrite !Z.shiftr_div_pow2 in Hhd by lia.
    replace (8 * Z.of_nat (S n)) with (8 * Z.of_nat n + 8) by lia.
    rewrite Z.pow_add_r by lia.
    change (2 ^ 8) with 256.
    assert (P : 0 < 2 ^ (8 * Z.of_nat n)) by (apply Z.pow_pos_nonneg; lia).
    rewrite !Z.rem_mul_r by lia.
    rewrite IH, Hhd. reflexivity.
Qed.

Lemma be_bytes_inj (n : nat) (a b : Z) :
  0 <= a < 2 ^ (8 * Z.of_nat n) -> 0 <= b < 2 ^ (8 * Z.of_nat n) ->
  be_bytes n a = be_bytes n b -> a = b.
Proof.
  intros Ha Hb H. apply be_bytes_mod in H.
  rewrite !Z.mod_small in H by assumption. exact H.
Qed.

Lemma in_range_spec (bits v : Z) :
  Abi.in_range bits v = true -> 0 <= v < 2 ^ bits.
Proof.
  unfold Abi.in_range. intro H. apply andb_true_iff in H.
  destruct H as [H1 H2]. apply Z.leb_le in H1. apply Z.ltb_lt in H2. lia.
Qed.

(** The encoding of a list that starts with a [uint256]. *)
Lemma encode_uint256_cons (s : Z) (rest : list Abi.value) (e : list byte) :
  Abi.encode (Abi.Uint256 s :: rest) = Some e ->
  exists ws, Abi.encode rest = Some ws
             /\ e = (be_bytes 32 s ++ ws)%list
             /\ 0 <= s < 2 ^ 256.
Proof.
  simpl. destruct (Abi.in_range 256 s) eqn:R; [| discriminate].
  destruct (Abi.encode rest) as [ws |]; [| discriminate].
  intro H. injection H as <-. exists ws.
  repeat split; try reflexivity; apply in_range_spec in R; lia.
Qed.

Lemma app_same_length_inj {A : Type} (x1 x2 y1 y2 : list A) :
  List.length x1 = List.length x2 ->
  (x1 ++ y1 = x2 ++ y2)%list -> x1 = x2 /\ y1 = y2.
Proof.
  revert x2. induction x1 as [| a x1 IH]; intros [| b x2] L H;
    simpl in *; try discriminate.
  - split; [reflexivity | exact H].
  - injection H as -> H. injection L as L.
    destruct (IH _ L H) as [-> ->]. split; reflexivity.
Qed.

(** Encodings of two orders that differ in their salt only are equal only
    if the salts are. *)
Lemma order_encoding_salt (o : Order) (s1 s2 : Z) (e1 e2 : list byte) :
  Abi.encode (ManualLimitOrderDemo.order_fields (with_salt o s1)) = Some e1 ->
  Abi.encode (ManualLimitOrderDemo.order_fields (with_salt o s2)) = Some e2 ->
  e1 = e2 -> s1 = s2.
Proof.
  unfold ManualLimitOrderDemo.order_fields, with_salt. cbn [salt maker receiver
    makerAsset takerAsset makingAmount takingAmount makerTraits].
  intros H1 H2 E.
  apply encode_uint256_cons in H1. destruct H1 as [ws1 [T1 [-> R1]]].
  apply encode_uint256_cons in H2. destruct H2 as [ws2 [T2 [-> R2]]].
  apply app_same_length_inj in E; [| rewrite !be_bytes_length; reflexivity].
  destruct E as [E _].
  apply be_bytes_inj in E; [exact E | exact R1 | exact R2].
Qed.

Lemma struct_encoding_salt (o : Order) (s1 s2 : Z) (e1 e2 : list byte) :
  Abi.encode (Working1inchLimitOrder.struct_fields (with_salt o s1)) = Some e1 ->
  Abi.encode (Working1inchLimitOrder.struct_fields (with_salt o s2)) = Some e2 ->
  e1 = e2 -> s1 = s2.
Proof.
  unfold Working1inchLimitOrder.struct_fields.
  intros H1 H2 E.
  cbn [Abi.encode] in H1, H2.
  destruct (Abi.encode_word
              (Abi.Bytes32 (Working1inchLimitOrder.hash_string
                              Working1inchLimitOrder.ORDER_TYPE))) as [th |];
    [| discriminate].
  fold Abi.encode in H1, H2.
  destruct (Abi.encode (ManualLimitOrderDemo.order_fields (with_salt o s1)))
    as [b1 |] eqn:B1; [| discriminate].
  destruct (Abi.encode (ManualLimitOrderDemo.order_fields (with_salt o s2)))
    as [b2 |] eqn:B2; [| discriminate].
  injection H1 as <-. injection H2 as <-.
  apply app_inv_head in E.
  exact (order_encoding_salt o s1 s2 b1 b2 B1 B2 E).
Qed.

End HashFacts.

Section SaltSensitivity.
Import OrderHashing.

(** C8. Two orders that agree on every field but the salt have different
    hashes, under both [ManualLimitOrderDemo.createOrderHash] and
    [Working1inchLimitOrder.generateOrderHash], provided Keccak has no
    collision among the byte strings the two functions hash for these two
    orders. *)
Theorem distinct_salts_distinct_hashes
      (o : Order) (d : Domain) (s1 s2 : Z) (m1 m2 g1 g2 : list byte) :
  s1 <> s2 ->
  ManualLimitOrderDemo.createOrderHash (with_salt o s1) = Some m1 ->
  ManualLimitOrderDemo.createOrderHash (with_salt o s2) = Some m2 ->
  Working1inchLimitOrder.generateOrderHash (with_salt o s1) d = Some g1 ->
  Working1inchLimitOrder.generateOrderHash (with_salt o s2) d = Some g2 ->
  collision_free (hashed_inputs (with_salt o s1) d ++ hashed_inputs (with_salt o s2) d) ->
  m1 <> m2 /\ g1 <> g2.
Proof.
  intros Hs M1 M2 G1 G2 CF.
  unfold ManualLimitOrderDemo.createOrderHash in M1, M2.
  unfold Working1inchLimitOrder.generateOrderHash in G1, G2.
  unfold hashed_inputs in CF.
  destruct (Abi.encode (ManualLimitOrderDemo.order_fields (with_salt o s1)))
    as [e1 |] eqn:E1; [| discriminate].
  destruct (Abi.encode (ManualLimitOrderDemo.order_fields (with_salt o s2)))
    as [e2 |] eqn:E2; [| discriminate].
  destruct (Abi.encode (Working1inchLimitOrder.domain_fields d))
    as [de |] eqn:D; [| discriminate].
  destruct (Abi.encode (Working1inchLimitOrder.struct_fields (with_salt o s1)))
    as [st1 |] eqn:S1; [| discriminate].
  destruct (Abi.encode (Working1inchLimitOrder.struct_fields (with_salt o s2)))
    as [st2 |] eqn:S2; [| discriminate].
  injection M1 as <-. injection M2 as <-.
  injection G1 as <-. injection G2 as <-.
  split; intro H.
  - apply Hs. apply (HashFacts.order_encoding_salt o s1 s2 e1 e2 E1 E2).
    apply CF; [simpl; tauto | simpl; tauto | exact H].
  - apply Hs. apply (HashFacts.struct_encoding_salt o s1 s2 st1 st2 S1 S2).
    apply CF; [simpl; tauto | simpl; tauto |].
    apply CF in H; [| simpl; tauto | simpl; tauto].
    injection H as H. apply app_inv_head in H. exact H.
Qed.

End SaltSensitivity.

(** The sample order with two salts one millisecond apart. *)
Lemma distinct_salts_distinct_hashes_witness :
  exists m1 m2 g1 g2 : list byte,
    ManualLimitOrderDemo.createOrderHash
      (with_salt OrderHashing.sample_order 1700000000000) = Some m1
    /\ ManualLimitOrderDemo.createOrderHash
      (with_salt OrderHashing.sample_order 1700000000001) = Some m2
    /\ Working1inchLimitOrder.generateOrderHash
      (with_salt OrderHashing.sample_order 1700000000000)
      Working1inchLimitOrder.domain = Some g1
    /\ Working1inchLimitOrder.generateOrderHash
      (with_salt OrderHashing.sample_order 1700000000001)
      Working1inchLimitOrder.domain = Some g2
    /\ m1 <> m2 /\ g1 <> g2.
Proof.
  eexists. eexists. eexists. eexists.
  split; [vm_compute; reflexivity |].
  split; [vm_compute; reflexivity |].
  split; [vm_compute; reflexivity |].
  split; [vm_compute; reflexivity |].
  apply (distinct_salts_distinct_hashes OrderHashing.sample_order
           Working1inchLimitOrder.domain 1700000000000 1700000000001).
  - lia.
  - vm_compute; reflexivity.
  - vm_compute; reflexivity.
  - vm_compute; reflexivity.
  - vm_compute; reflexivity.
  - apply HashFacts.collision_free_b_sound. vm_compute. reflexivity.
Defined.

(** C2. On the sample order the locally computed
    [ManualLimitOrderDemo.createOrderHash] is the Keccak digest of the bare
    field encoding, and is not the EIP-712 digest that
    [Working1inchLimitOrder.generateOrderHash] computes for the same order
    (under the domain of either file). *)
Theorem local_hash_is_not_eip712_hash :
  exists m g g' : list byte,
    ManualLimitOrderDemo.createOrderHash OrderHashing.sample_order = Some m
    /\ Working1inchLimitOrder.generateOrderHash
         OrderHashing.sample_order Working1inchLimitOrder.domain = Some g
    /\ Working1inchLimitOrder.generateOrderHash
         OrderHashing.sample_order ManualLimitOrderDemo.DOMAIN = Some g'
    /\ m <> g /\ m <> g'.
Proof.
  eexists. eexists. eexists.
  split; [vm_compute; reflexivity |].
  split; [vm_compute; reflexivity |].
  split; [vm_compute; reflexivity |].
  split; intro H; discriminate H.
Qed.

(** ** The decimal instance keeps positive numbers positive *)

Module DecimalFacts.
Import DecimalJs.
Local Open Scope Z_scope.

Lemma norm_pos (sc : nat) : forall m : Z, 0 < m -> 0 < mant (norm m sc).
Proof.
  induction sc as [| sc IH]; intros m Hm; cbn [norm].
  - exact Hm.
  - destruct (m mod 10 =? 0) eqn:E.
    + apply IH. apply Z.eqb_eq in E.
      assert (m = 10 * (m / 10)) by (rewrite (Z.div_mod m 10) at 1; lia).
      lia.
    + exact Hm.
Qed.

Lemma code_range (c : ascii) : (nat_of_ascii c < 256)%nat.
Proof. apply nat_ascii_bounded. Qed.

Lemma has_pos_digit_app (a b : string) :
  has_pos_digit (a ++ b) = has_pos_digit a || has_pos_digit b.
Proof.
  induction a as [| c a IH]; cbn [String.append has_pos_digit].
  - reflexivity.
  - rewrite IH. apply orb_assoc.
Qed.

Lemma dot_is_no_digit : is_pos_digit "."%char = false.
Proof. reflexivity. Qed.

(** Splitting at the dot loses no digit. *)
Lemma split_dot_pos_digit (s : string) :
  has_pos_digit s
  = has_pos_digit (fst (split_dot s)) || has_pos_digit (snd (split_dot s)).
Proof.
  induction s as [| c s IH]; cbn [split_dot has_pos_digit].
  - reflexivity.
  - destruct (Ascii.eqb c "."%char) eqn:E.
    + apply Ascii.eqb_eq in E. subst c. cbn [fst snd has_pos_digit].
      rewrite dot_is_no_digit. reflexivity.
    + destruct (split_dot s) as [w f]. cbn [fst snd has_pos_digit] in *.
      rewrite IH. apply orb_assoc.
Qed.

(** The value of a digit string grows with what was read before it. *)
Lemma digits_value_mono (s : string) :
  forall acc : Z, all_digits s = true -> 0 <= acc -> acc <= digits_value acc s.
Proof.
  induction s as [| c s IH]; intros acc Hd Hacc; cbn [digits_value].
  - lia.
  - cbn [all_digits] in Hd. apply andb_true_iff in Hd. destruct Hd as [Hc Hs].
    unfold is_digit in Hc. apply andb_true_iff in Hc. destruct Hc as [H1 H2].
    apply Z.leb_le in H1, H2.
    specialize (IH (acc * 10 + (Z.of_nat (nat_of_ascii c) - 48)) Hs). lia.
Qed.

Lemma digits_value_pos (s : string) :
  forall acc : Z,
    all_digits s = true -> has_pos_digit s = true -> 0 <= acc ->
    0 < digits_value acc s.
Proof.
  induction s as [| c s IH]; intros acc Hd Hp Hacc; cbn [digits_value].
  - discriminate Hp.
  - cbn [all_digits] in Hd. apply andb_true_iff in Hd. destruct Hd as [Hc Hs].
    unfold is_digit in Hc. apply andb_true_iff in Hc. destruct Hc as [H1 H2].
    apply Z.leb_le in H1, H2.
    cbn [has_pos_digit] in Hp.
    destruct (is_pos_digit c) eqn:Ec.
    + unfold is_pos_digit in Ec. apply andb_true_iff in Ec. destruct Ec as [H3 _].
      apply Z.leb_le in H3.
      pose proof (digits_value_mono s (acc * 10 + (Z.of_nat (nat_of_ascii c) - 48)) Hs).
      lia.
    + apply IH; [exact Hs | exact Hp | lia].
Qed.

Lemma digit_char_pos (z : Z) :
  0 < z < 10 -> is_pos_digit (ascii_of_nat (Z.to_nat z + 48)) = true.
Proof.
  intro Hz. unfold is_pos_digit.
  rewrite nat_ascii_embedding by lia.
  apply andb_true_iff. split; apply Z.leb_le; lia.
Qed.

Lemma digit_string_pos (fuel : nat) :
  forall (z : Z) (acc : string),
    0 < z -> z < 10 ^ Z.of_nat fuel ->
    has_pos_digit (digit_string fuel z acc) = true.
Proof.
  induction fuel as [| fuel IH]; intros z acc Hz Hlt.
  - change (10 ^ Z.of_nat 0) with 1 in Hlt. lia.
  - cbn [digit_string].
    destruct (z / 10 =? 0) eqn:E.
    + apply Z.eqb_eq in E. cbn [has_pos_digit].
      assert (z < 10).
      { destruct (Z.lt_ge_cases z 10) as [H | H]; [exact H |].
        assert (1 <= z / 10) by (apply Z.div_le_lower_bound; lia). lia. }
      rewrite Z.mod_small by lia.
      rewrite digit_char_pos by lia. reflexivity.
    + apply Z.eqb_neq in E. apply IH.
      * assert (0 <= z / 10) by (apply Z.div_pos; lia). lia.
      * apply Z.div_lt_upper_bound; [lia |].
        rewrite Nat2Z.inj_succ, Z.pow_succ_r in Hlt by lia. exact Hlt.
Qed.

Lemma digits_pos (z : Z) : 0 < z -> has_pos_digit (digits z) = true.
Proof.
  intro Hz. unfold digits. apply digit_string_pos; [exact Hz |].
  rewrite Nat2Z.inj_succ, Z2Nat.id by apply Z.log2_nonneg.
  destruct (Z.log2_spec z Hz) as [_ Hlt].
  apply Z.lt_le_trans with (1 := Hlt).
  apply Z.pow_le_mono_l. split; [lia | lia].
Qed.

Lemma render_pos (d : dec) : 0 < mant d -> has_pos_digit (render d) = true.
Proof.
  intro Hm. unfold render.
  destruct (scale d) as [| sc] eqn:Es.
  - apply digits_pos. exact Hm.
  - set (p := 10 ^ Z.of_nat (S sc)).
    assert (Hp : 0 < p) by (apply Z.pow_pos_nonneg; lia).
    rewrite !has_pos_digit_app. unfold pad_left. rewrite has_pos_digit_app.
    destruct (Z.eq_dec (mant d / p) 0) as [Hq | Hq].
    + assert (Hr : 0 < mant d mod p).
      { pose proof (Z.div_mod (mant d) p). pose proof (Z.mod_pos_bound (mant d) p Hp).
        lia. }
      rewrite (digits_pos _ Hr). rewrite !orb_true_r. reflexivity.
    + assert (0 <= mant d / p) by (apply Z.div_pos; lia).
      rewrite digits_pos by lia. reflexivity.
Qed.

(** [0 < x] in the decimal instance. *)
Lemma positive_mant (x : dec) :
  @Invariants.positive lib x <-> 0 < mant x.
Proof.
  unfold Invariants.positive. cbn [Lib.number_ltb Lib.parseFloat lib].
  change (parse_float "0") with (mkDec 0 0).
  unfold ltb. cbn [mant scale]. rewrite Z.ltb_lt. cbn. lia.
Qed.

Lemma decimal_times2500_positive : @Invariants.times2500_positive lib.
Proof.
  intros x Hx. apply positive_mant in Hx. apply positive_mant.
  cbn [Lib.times2500 lib]. apply norm_pos. lia.
Qed.

Lemma decimal_parses_positive : @Invariants.parses_positive lib.
Proof.
  intros x decimals v Hx. apply positive_mant in Hx.
  cbn [Lib.parseUnits Lib.toString lib].
  pose proof (render_pos (norm (mant x) (scale x)) (norm_pos (scale x) (mant x) Hx))
    as Hr.
  set (s := render (norm (mant x) (scale x))) in *.
  unfold parse_units, parse_text.
  rewrite (split_dot_pos_digit s) in Hr.
  destruct (split_dot s) as [w f]. cbn [fst snd] in Hr.
  destruct (all_digits w) eqn:Hw; [| discriminate].
  destruct (all_digits f) eqn:Hf; [| discriminate].
  cbn [andb].
  destruct (0 <? String.length w + String.length f)%nat; [| discriminate].
  cbn [mant scale].
  set (m := digits_value 0 (w ++ f)).
  assert (Hm : 0 < m).
  { apply digits_value_pos; [| rewrite has_pos_digit_app; exact Hr | lia].
    clear - Hw Hf. induction w as [| c w IH]; cbn [String.append all_digits] in *.
    - exact Hf.
    - apply andb_true_iff in Hw. destruct Hw as [Hc Hw].
      rewrite Hc, (IH Hw). reflexivity. }
  destruct (scale (norm m (String.length f)) <=? decimals)%nat; [| discriminate].
  intro H. injection H as <-.
  apply Z.mul_pos_pos; [apply norm_pos; exact Hm |].
  apply Z.pow_pos_nonneg; lia.
Qed.

End DecimalFacts.

(** ** Running programs *)

Module EffectFacts.
Import Effects.

Lemma run_bind {W A B : Type} (h : handler W) (p : prog A) (f : A -> prog B) (w : W) :
  run h (bind p f) w =
  match run h p w with
  | (inr a, tr, w1) =>
      let '(res, tr2, w2) := run h (f a) w1 in (res, (tr ++ tr2)%list, w2)
  | (inl e, tr, w1) => (inl e, tr, w1)
  end.
Proof.
  revert w. induction p as [a | e | R ev k IH]; intro w; simpl.
  - destruct (run h (f a) w) as [[res tr] w2]. reflexivity.
  - reflexivity.
  - destruct (h R ev w) as [r w1]. rewrite IH.
    destruct (run h (k r) w1) as [[[e | a] tr] w2].
    + reflexivity.
    + destruct (run h (f a) w2) as [[res tr2] w3]. reflexivity.
Qed.

Lemma run_try_catch {W A : Type} (h : handler W) (p : prog A)
      (c : error -> prog A) (w : W) :
  run h (try_catch p c) w =
  match run h p w with
  | (inr a, tr, w1) => (inr a, tr, w1)
  | (inl e, tr, w1) =>
      let '(res, tr2, w2) := run h (c e) w1 in (res, (tr ++ tr2)%list, w2)
  end.
Proof.
  revert w. induction p as [a | e | R ev k IH]; intro w; simpl.
  - reflexivity.
  - destruct (run h (c e) w) as [[res tr] w2]. reflexivity.
  - destruct (h R ev w) as [r w1]. rewrite IH.
    destruct (run h (k r) w1) as [[[e | a] tr] w2].
    + destruct (run h (c e) w2) as [[res tr2] w3]. reflexivity.
    + reflexivity.
Qed.

(** [catch (error) { throw error }] changes nothing. *)
Lemma try_catch_rethrow {A : Type} (p : prog A) :
  forall {W : Type} (h : handler W) (w : W),
    run h (try_catch p (fun e => Throw e)) w = run h p w.
Proof.
  intros W h w. rewrite run_try_catch.
  destruct (run h p w) as [[[e | a] tr] w1]; simpl.
  - rewrite app_nil_r. reflexivity.
  - reflexivity.
Qed.

(** What [preceded_by] decides. *)
Lemma preceded_by_spec (p q : entry -> bool) (tr : trace) :
  preceded_by p q false tr = true ->
  forall pre en post,
    tr = (pre ++ en :: post)%list -> q en = true ->
    exists en', In en' pre /\ p en' = true.
Proof.
  assert (G : forall tr seen,
             preceded_by p q seen tr = true ->
             forall pre en post,
               tr = (pre ++ en :: post)%list -> q en = true ->
               seen = true \/ exists en', In en' pre /\ p en' = true).
  { clear tr. induction tr as [| x rest IH]; intros seen H pre en post E Q.
    - destruct pre; discriminate.
    - simpl in H. apply andb_true_iff in H. destruct H as [H1 H2].
      destruct pre as [| y pre']; simpl in E; inversion E; subst.
      + rewrite Q in H1. left. exact H1.
      + destruct (IH _ H2 pre' en post eq_refl Q) as [S | [en' [I P]]].
        * apply orb_true_iff in S. destruct S as [S | S].
          -- left. exact S.
          -- right. exists y. split; [left; reflexivity | exact S].
        * right. exists en'. split; [right; exact I | exact P]. }
  intros H pre en post E Q.
  destruct (G tr false H pre en post E Q) as [F | R]; [discriminate | exact R].
Qed.

(** What [never_after] decides. *)
Lemma never_after_spec (p q : entry -> bool) (tr : trace) :
  never_after p q false tr = true ->
  forall pre en post,
    tr = (pre ++ en :: post)%list -> p en = true -> existsb q pre = false.
Proof.
  assert (G : forall tr seen,
             never_after p q seen tr = true ->
             forall pre en post,
               tr = (pre ++ en :: post)%list -> p en = true ->
               seen = false /\ existsb q pre = false).
  { clear tr. induction tr as [| x rest IH]; intros seen H pre en post E P.
    - destruct pre; discriminate.
    - simpl in H. apply andb_true_iff in H. destruct H as [H1 H2].
      destruct pre as [| y pre']; simpl in E; inversion E; subst.
      + rewrite P in H1. destruct seen; [discriminate | split; reflexivity].
      + destruct (IH _ H2 pre' en post eq_refl P) as [S Q].
        apply orb_false_iff in S. destruct S as [S1 S2].
        split; [exact S1 |]. simpl. rewrite S2, Q. reflexivity. }
  intros H pre en post E P. exact (proj2 (G tr false H pre en post E P)).
Qed.

End EffectFacts.

(** Symbolic execution of a helper against an arbitrary world [h]: answer
    the next request, branch on the next test. *)
Ltac answer h :=
  match goal with
  | |- context [h ?R ?ev ?w] =>
      let e := fresh "err" in
      let v := fresh "v" in
      let w' := fresh "w" in
      destruct (h R ev w) as [[e | v] w']
  end.

Ltac exec h := repeat (cbn; answer h); cbn.

Ltac branch h :=
  match goal with
  | |- context [h ?R ?ev ?w] =>
      let e := fresh "err" in
      let v := fresh "v" in
      let w' := fresh "w" in
      destruct (h R ev w) as [[e | v] w']
  | |- context [Lib.parseUnits ?s ?d] => destruct (Lib.parseUnits s d)
  | |- context [Common.second ?l] => destruct l as [| ? [| ? ?]]
  | |- context [Common.of_option _ ?o] => destruct o
  | |- context [Z.ltb ?a ?b] => destruct (Z.ltb a b) eqn:?
  end.

Ltac explore h := repeat (cbn; branch h); cbn.

(** ** The helpers on a concrete world

    A wallet with 1 ETH, 1 WETH and 5 USDC, no allowance, a router quoting
    2.5 USDC for 0.001 WETH; nothing reverts. *)

Section Runs.
Import Effects.
Local Open Scope string_scope.

Let cfg := Scenario.mkConfig Scenario.alice (10 ^ 18) (10 ^ 18) (5 * 10 ^ 6)
                             [10 ^ 15; 2500000] 1700000000000 7 Scenario.never.
Let x := DecimalJs.parse_float "0.001".
Let order := mkOrder 1 Scenario.alice Scenario.alice WETH_ADDRESS USDC_ADDRESS
                     (10 ^ 15) 2500000 0.

Example run_manual_demo :
  map describe
      (trace_of (Scenario.world cfg)
                (@ManualLimitOrderDemo.runDemo DecimalJs.lib x) 0) =
  ["getSigner"; "balanceOf"; "Date.now"; "signTypedData";
   "send approve"; "wait"; "balanceOf"; "send approve"; "wait";
   "getSigner"; "hashOrder"; "send fillOrder"; "wait"].
Proof. vm_compute. reflexivity. Qed.

Example run_simple_demo :
  map describe
      (trace_of (Scenario.world cfg)
                (@SimpleLimitOrderDemo.runDemo DecimalJs.lib x) 0) =
  ["getSigner"; "getSigner"; "balanceOf"; "send approve"; "wait";
   "Date.now"; "sdk order"; "sdk typed data"; "signTypedData"; "sdk order hash";
   "getSigner"; "balanceOf"; "send approve"; "wait"; "send fillOrder"; "wait"].
Proof. vm_compute. reflexivity. Qed.

Example run_execute_limit_order :
  let tr := trace_of (Scenario.world cfg)
              (@LimitOrderDemo.executeLimitOrder DecimalJs.lib
                 (mkLimitOrder order) "0x5167" Scenario.alice) 0 in
  map describe tr =
  ["getSigner"; "balanceOf"; "allowance"; "send approve"; "wait";
   "estimateGas fillOrder"; "send fillOrder"; "wait"]
  /\ count Common.is_fill_request tr = 2%nat.
Proof. vm_compute. split; reflexivity. Qed.

Example run_fill_order_as_taker :
  let orderResult :=
    Working1inchLimitOrder.mkOrderResult true "" [] (Some "0x5167") (Some order)
      2500000 (Working1inchLimitOrder.mkOrderSummary 0 0 0 "" "" 0 "") in
  let tr := trace_of (Scenario.world cfg)
              (@Working1inchLimitOrder.fillOrderAsTaker DecimalJs.lib
                 orderResult x) 0 in
  map describe tr =
  ["getSigner"; "balanceOf"; "allowance"; "send approve"; "wait"; "allowance";
   "remainingInvalidatorForOrder"; "send simulate"; "estimateGas fillOrder";
   "getSigner"; "allowance"; "send approve"; "wait"; "getAmountsOut";
   "Date.now"; "send swapExactTokensForTokens"; "wait"]
  /\ count Common.is_fill_request tr = 2%nat
  /\ count Common.usdc_approval tr = 1%nat.
Proof. vm_compute. repeat split; reflexivity. Qed.

Example run_create_manual_order :
  map describe
      (trace_of (Scenario.world cfg)
                (@Working1inchLimitOrder.createManualOrderDemo DecimalJs.lib x) 0) =
  ["getSigner"; "getAmountsOut"; "Date.now"; "Date.now"; "Math.random";
   "signTypedData"].
Proof. vm_compute. reflexivity. Qed.

End Runs.

(** ** Insufficient maker balance *)

Section InsufficientBalance.
Import Effects Lib Common.
Context {L : JsLib}.

(** C3. When the maker's WETH balance is strictly below the offered amount,
    [ManualLimitOrderDemo.runDemo] and [OfficialSDKDemo.runDemo] throw their
    insufficient-balance error right after the balance query: the run
    consists of the signer lookup and the balance query only, so no order is
    built, nothing is signed and no transaction (approval or settlement) is
    sent. *)
Theorem insufficient_balance_aborts
      {W : Type} (h : handler W) (w w1 w2 : W)
      (ethAmount : number) (s : signer) (bal req : Z) :
  h _ GetSigner w = (inr s, w1) ->
  h _ (balanceOf WETH_ADDRESS (account s)) w1 = (inr bal, w2) ->
  parseEther (toString ethAmount) = inr req ->
  bal < req ->
  let tr := [Entry GetSigner (inr s);
             Entry (balanceOf WETH_ADDRESS (account s)) (inr bal)] in
  run h (ManualLimitOrderDemo.runDemo ethAmount) w =
    (inl (ManualLimitOrderDemo.insufficient_weth bal req), tr, w2)
  /\ run h (OfficialSDKDemo.runDemo ethAmount) w =
    (inl (OfficialSDKDemo.insufficient_weth bal req), tr, w2)
  /\ existsb builds_signs_or_submits tr = false.
Proof.
  intros Hs Hb Hp Hlt tr.
  apply Z.ltb_lt in Hlt.
  repeat split.
  - unfold ManualLimitOrderDemo.runDemo.
    rewrite EffectFacts.try_catch_rethrow.
    simpl. rewrite Hs. simpl. rewrite Hb. simpl. rewrite Hp. simpl.
    rewrite Hlt. reflexivity.
  - unfold OfficialSDKDemo.runDemo.
    rewrite EffectFacts.try_catch_rethrow.
    simpl. rewrite Hs. simpl. rewrite Hb. simpl. rewrite Hp. simpl.
    rewrite Hlt. reflexivity.
Qed.

End InsufficientBalance.

(** A wallet holding one wei less than the 0.001 WETH it offers. *)
Lemma insufficient_balance_aborts_witness :
  let cfg := Scenario.mkConfig Scenario.alice (10 ^ 18) (10 ^ 15 - 1) (5 * 10 ^ 6)
                               [10 ^ 15; 2500000] 1700000000000 7 Scenario.never in
  let x := DecimalJs.parse_float "0.001" in
  let tr := [Effects.Entry Effects.GetSigner (inr (Effects.mkSigner Scenario.alice));
             Effects.Entry (Common.balanceOf WETH_ADDRESS Scenario.alice)
                           (inr (10 ^ 15 - 1))] in
  Effects.run (Scenario.world cfg)
              (@ManualLimitOrderDemo.runDemo DecimalJs.lib x) 0 =
    (inl (@ManualLimitOrderDemo.insufficient_weth DecimalJs.lib (10 ^ 15 - 1) (10 ^ 15)),
     tr, 0)
  /\ Effects.run (Scenario.world cfg)
              (@OfficialSDKDemo.runDemo DecimalJs.lib x) 0 =
    (inl (@OfficialSDKDemo.insufficient_weth DecimalJs.lib (10 ^ 15 - 1) (10 ^ 15)),
     tr, 0)
  /\ existsb Effects.builds_signs_or_submits tr = false.
Proof.
  intros cfg x tr.
  apply (@insufficient_balance_aborts DecimalJs.lib Scenario.World
           (Scenario.world cfg) 0 0 0 x (Effects.mkSigner Scenario.alice)
           (10 ^ 15 - 1) (10 ^ 15)).
  - reflexivity.
  - reflexivity.
  - vm_compute. reflexivity.
  - lia.
Defined.

(** ** Balance helpers *)

Section BalanceHelpers.
Import Effects Lib Common.
Context {L : JsLib}.

(** C10. The balance helpers never throw.  Either every query is answered
    and the result holds the formatted balances, or some query is rejected
    and the result holds the string "0" in every field. *)
Theorem balance_helpers_total
      {W : Type} (h : handler W) (w : W) (a : address) :
  (let r := run h (ManualBalances.checkTokenBalances a) w in
   (exists e we u,
       snd (fst r) = [Entry (GetBalance a) (inr e);
                      Entry (balanceOf WETH_ADDRESS a) (inr we);
                      Entry (balanceOf USDC_ADDRESS a) (inr u)]
       /\ fst (fst r) =
          inr (ManualBalances.mkBalances (formatEther e) (formatEther we)
                                         (formatUnits u 6)))
   \/ (forallb succeeded (snd (fst r)) = false
       /\ fst (fst r) = inr (ManualBalances.mkBalances "0" "0" "0")))
  /\
  (let r := run h (WorkingUniswapDemo.checkDemoBalances a) w in
   (exists e we u,
       snd (fst r) = [Entry (GetBalance a) (inr e);
                      Entry (balanceOf WETH_ADDRESS a) (inr we);
                      Entry (balanceOf USDC_ADDRESS a) (inr u)]
       /\ fst (fst r) =
          inr (WorkingUniswapDemo.mkBalances (formatEther e) (formatEther we)
                                             (formatUnits u 6)))
   \/ (forallb succeeded (snd (fst r)) = false
       /\ fst (fst r) = inr (WorkingUniswapDemo.mkBalances "0" "0" "0")))
  /\
  (let r := run h (WorkingLimitOrderDemo.checkBalances a) w in
   (exists e u,
       snd (fst r) = [Entry (GetBalance a) (inr e);
                      Entry (balanceOf USDC_ADDRESS a) (inr u)]
       /\ fst (fst r) =
          inr (WorkingLimitOrderDemo.mkBalances (formatEther e) (formatUnits u 6)))
   \/ (forallb succeeded (snd (fst r)) = false
       /\ fst (fst r) = inr (WorkingLimitOrderDemo.mkBalances "0" "0")))
  /\
  (let r := run h (LimitOrderDemo.checkBalances a) w in
   (exists e u,
       snd (fst r) = [Entry (GetBalance a) (inr e);
                      Entry (balanceOf USDC_ADDRESS a) (inr u)]
       /\ fst (fst r) =
          inr (LimitOrderDemo.mkBalances (formatEther e) (formatUnits u 6)))
   \/ (forallb succeeded (snd (fst r)) = false
       /\ fst (fst r) = inr (LimitOrderDemo.mkBalances "0" "0")))
  /\
  (let r := run h (UniswapDemo.checkEthBalance a) w in
   (exists e,
       snd (fst r) = [Entry (GetBalance a) (inr e)]
       /\ fst (fst r) = inr (UniswapDemo.mkEthBalance (formatEther e)))
   \/ (forallb succeeded (snd (fst r)) = false
       /\ fst (fst r) = inr (UniswapDemo.mkEthBalance "0"))).
Proof.
  repeat split;
    unfold ManualBalances.checkTokenBalances,
           WorkingUniswapDemo.checkDemoBalances,
           WorkingLimitOrderDemo.checkBalances,
           LimitOrderDemo.checkBalances,
           UniswapDemo.checkEthBalance;
    exec h;
    try (right; split; reflexivity);
    left; repeat eexists.
Qed.

End BalanceHelpers.

(** ** The router swap: slippage bound and deadline *)

Section RouterSwap.
Import Effects Lib Common.
Context {L : JsLib}.

Lemma minAmountOut_floor (E : Z) :
  0 <= E -> minAmountOut E = E * 95 / 100.
Proof.
  intro H. unfold minAmountOut. apply Z.quot_div_nonneg; lia.
Qed.

(** C6. In [WorkingUniswapDemo.swapETHForUSDC] and
    [SimpleUniswapDemo.executeSwap], when the router quotes the output [E]
    and the clock read by the function shows [now] milliseconds, the one
    swap that is submitted carries the minimum output [floor(E * 95 / 100)]
    and the deadline [floor(now / 1000) + 1200]. *)
Theorem router_swap_slippage_and_deadline
      {W : Type} (h : handler W) (w w1 w2 w3 : W) (ethAmount : number)
      (s : signer) (amountIn now E : Z) (amounts : list Z) :
  h _ GetSigner w = (inr s, w1) ->
  parseEther (toString ethAmount) = inr amountIn ->
  h _ DateNow w1 = (inr now, w2) ->
  h _ (getAmountsOut UNISWAP_ROUTER amountIn [WETH_ADDRESS; USDC_ADDRESS]) w2
    = (inr amounts, w3) ->
  nth_error amounts 1 = Some E ->
  0 <= E ->
  let quoted :=
    [Entry GetSigner (inr s); Entry DateNow (inr now);
     Entry (getAmountsOut UNISWAP_ROUTER amountIn [WETH_ADDRESS; USDC_ADDRESS])
           (inr amounts)] in
  let swap := mkCall UNISWAP_ROUTER "swapExactETHForTokens"
                     (swap_args E now (account s)) in
  (exists r rest,
      trace_of h (WorkingUniswapDemo.swapETHForUSDC ethAmount) w =
        (quoted ++ Entry (Send swap (mkOverrides (Some amountIn) (Some 300000))) r
                :: rest)%list
      /\ count (is_send_of "swapExactETHForTokens") rest = 0%nat)
  /\
  (exists r rest,
      trace_of h (WorkingLimitOrderDemo.SimpleUniswapDemo.executeSwap ethAmount) w =
        (quoted ++ Entry (Send swap (mkOverrides (Some amountIn) None)) r
                :: rest)%list
      /\ count (is_send_of "swapExactETHForTokens") rest = 0%nat).
Proof.
  intros Hs Hp Hn Hq HE Hpos quoted swap.
  unfold trace_of, swap, swap_args.
  rewrite <- (minAmountOut_floor E Hpos).
  split.
  - unfold WorkingUniswapDemo.swapETHForUSDC,
           WorkingUniswapDemo.UNISWAP_V2_ROUTER, deadline.
    cbn. rewrite Hs. cbn. rewrite Hp. cbn. rewrite Hn. cbn.
    rewrite Hq. cbn. unfold second. rewrite HE. cbn.
    exec h; eexists; eexists; split; reflexivity.
  - unfold WorkingLimitOrderDemo.SimpleUniswapDemo.executeSwap,
           WorkingLimitOrderDemo.SimpleUniswapDemo.routerAddress,
           WorkingLimitOrderDemo.SimpleUniswapDemo.wethAddress,
           WorkingLimitOrderDemo.SimpleUniswapDemo.usdcAddress, deadline.
    cbn. rewrite Hs. cbn. rewrite Hp. cbn. rewrite Hn. cbn.
    rewrite Hq. cbn. unfold second. rewrite HE. cbn.
    exec h; eexists; eexists; split; reflexivity.
Qed.

(** The same bound on every swap request of every helper that trades
    through the router, whatever the world answers. *)
Lemma router_swaps_bounded
      {W : Type} (h : handler W) (w : W) (amount : number)
      (orderResult : OfficialSDKDemo.OrderResult) :
  swaps_bounded None None
    (trace_of h (WorkingUniswapDemo.swapETHForUSDC amount) w) = true
  /\ swaps_bounded None None
    (trace_of h (WorkingLimitOrderDemo.SimpleUniswapDemo.executeSwap amount) w) = true
  /\ swaps_bounded None None
    (trace_of h (UniswapDemo.runDemo amount) w) = true
  /\ swaps_bounded None None
    (trace_of h (OfficialSDKDemo.fillOrderManually orderResult) w) = true
  /\ swaps_bounded None None
    (trace_of h (Working1inchLimitOrder.executeFallbackDemo amount) w) = true.
Proof.
  unfold trace_of, WorkingUniswapDemo.swapETHForUSDC,
         WorkingLimitOrderDemo.SimpleUniswapDemo.executeSwap,
         UniswapDemo.runDemo, UniswapDemo.getQuote, UniswapDemo.executeSwap,
         OfficialSDKDemo.fillOrderManually,
         Working1inchLimitOrder.executeFallbackDemo, parseEther.
  repeat split; explore h; rewrite ?Z.eqb_refl; reflexivity.
Qed.

End RouterSwap.

(** A swap of 0.001 ETH quoted at 2.500001 USDC at clock 1700000000999. *)
Lemma router_swap_slippage_and_deadline_witness :
  let cfg := Scenario.mkConfig Scenario.alice (10 ^ 18) 0 0
                               [10 ^ 15; 2500001] 1700000000999 7 Scenario.never in
  let x := DecimalJs.parse_float "0.001" in
  let swap := Effects.mkCall UNISWAP_ROUTER "swapExactETHForTokens"
                [Effects.AInt 2375000;
                 Effects.AList [Effects.AAddr WETH_ADDRESS; Effects.AAddr USDC_ADDRESS];
                 Effects.AAddr Scenario.alice; Effects.AInt 1700001200] in
  exists r rest,
    Effects.trace_of (Scenario.world cfg)
      (@WorkingUniswapDemo.swapETHForUSDC DecimalJs.lib x) 0 =
    [Effects.Entry Effects.GetSigner (inr (Effects.mkSigner Scenario.alice));
     Effects.Entry Effects.DateNow (inr 1700000000999);
     Effects.Entry (Common.getAmountsOut UNISWAP_ROUTER (10 ^ 15)
                      [WETH_ADDRESS; USDC_ADDRESS]) (inr [10 ^ 15; 2500001]);
     Effects.Entry (Effects.Send swap
                      (Effects.mkOverrides (Some (10 ^ 15)) (Some 300000))) r]
    ++ rest.
Proof.
  intros cfg x swap.
  destruct (@router_swap_slippage_and_deadline DecimalJs.lib Scenario.World
              (Scenario.world cfg) 0 0 0 0 x (Effects.mkSigner Scenario.alice)
              (10 ^ 15) 1700000000999 2500001 [10 ^ 15; 2500001])
    as [[r [rest [H _]]] _].
  - reflexivity.
  - vm_compute. reflexivity.
  - reflexivity.
  - reflexivity.
  - reflexivity.
  - lia.
  - exists r, rest. exact H.
Defined.

(** ** The allowance precondition *)

Section AllowancePrecondition.
Import Effects Lib Common Invariants.
Context {L : JsLib}.


End AllowancePrecondition.


(** A fill request with the allowance unread, and one after a short
    reading with no approval, are rejected by the check. *)
Example unchecked_fill_rejected :
  let fill := Effects.Entry
                (Effects.Send
                   (LimitOrderDemo.fill_call
                      (Effects.mkLimitOrder OrderHashing.sample_order) "0x5167")
                   Effects.no_overrides)
                (inl (Effects.mkError "reverted")) in
  Invariants.allowance_enforced 2500000000 Invariants.Unread [fill] = false
  /\ Invariants.allowance_enforced 2500000000 Invariants.Unread
       [Effects.Entry
          (Common.allowance USDC_ADDRESS Scenario.alice LIMIT_ORDER_PROTOCOL) (inr 5);
        fill] = false.
Proof. split; reflexivity. Qed.

(** ** Stage order *)

Section StageOrder.
Import Effects Lib Common Invariants.
Context {L : JsLib}.

Local Arguments ManualLimitOrderDemo.createOrderHash : simpl never.

(** C4, as the code has it.  In every run of
    [ManualLimitOrderDemo.runDemo] and of [SimpleLimitOrderDemo.runDemo]:
    the maker's WETH balance is read successfully before anything is
    signed; the order is signed before any taker-side check (USDC balance
    query, USDC approval) and before any fill request; a fill request is
    made only after the USDC approval was sent and its confirmation
    awaited; and a run that returns has signed once and submitted one fill.
    In [SimpleLimitOrderDemo.runDemo] the SDK builds the order before it is
    signed, and the WETH approval precedes the build; so does the WETH
    wrap: a deposit is sent only after the WETH balance was read, never
    after the WETH approval or after the build was requested, and the build
    is not requested while a deposit is unconfirmed.  In
    [ManualLimitOrderDemo.runDemo] the WETH approval follows the signature
    and nothing is wrapped. *)
Theorem stages_in_code_order
      {W : Type} (h : handler W) (w : W) (ethAmount : number) :
  (let r := run h (ManualLimitOrderDemo.runDemo ethAmount) w in
   stage_order (snd (fst r)) = true
   /\ all_stages_done (fst (fst r)) (snd (fst r)) = true
   /\ preceded_by (ok is_sign) (is_approve_of WETH_ADDRESS LIMIT_ORDER_PROTOCOL)
                  false (snd (fst r)) = true
   /\ count (is_send_of "deposit") (snd (fst r)) = 0%nat)
  /\
  (let r := run h (SimpleLimitOrderDemo.runDemo ethAmount) w in
   stage_order (snd (fst r)) = true
   /\ all_stages_done (fst (fst r)) (snd (fst r)) = true
   /\ preceded_by (ok is_sdk_build) is_sign false (snd (fst r)) = true
   /\ preceded_by (ok (is_approve_of WETH_ADDRESS LIMIT_ORDER_PROTOCOL))
                  is_sdk_build false (snd (fst r)) = true
   /\ never_after (is_send_of "deposit") is_sdk_build false (snd (fst r)) = true
   /\ not_while_pending (is_send_of "deposit") is_sdk_build NotSent (snd (fst r))
      = true
   /\ never_after (is_send_of "deposit")
                  (is_approve_of WETH_ADDRESS LIMIT_ORDER_PROTOCOL)
                  false (snd (fst r)) = true
   /\ preceded_by (ok (is_view_of WETH_ADDRESS "balanceOf")) (is_send_of "deposit")
                  false (snd (fst r)) = true).
Proof.
  split.
  - unfold ManualLimitOrderDemo.runDemo, ManualLimitOrderDemo.fillOrder,
           stage_order, all_stages_done, parseEther.
    explore h; rewrite ?String.eqb_refl; repeat split; reflexivity.
  - unfold SimpleLimitOrderDemo.runDemo, SimpleLimitOrderDemo.wrapETH,
           SimpleLimitOrderDemo.fillOrder, stage_order, all_stages_done,
           parseEther.
    explore h; rewrite ?String.eqb_refl; repeat split; reflexivity.
Qed.

End StageOrder.

(** Preconditions do not all come first: on a run of
    [ManualLimitOrderDemo.runDemo] in which every request succeeds, the
    order is signed by the fourth request, and the WETH approval, the USDC
    balance query and the USDC approval all follow it. *)
Lemma manual_demo_checks_after_signing :
  let cfg := Scenario.mkConfig Scenario.alice (10 ^ 18) (10 ^ 18) (5 * 10 ^ 6)
                               [10 ^ 15; 2500000] 1700000000000 7 Scenario.never in
  let r := Effects.run (Scenario.world cfg)
             (@ManualLimitOrderDemo.runDemo DecimalJs.lib
                (DecimalJs.parse_float "0.001")) 0 in
  let tr := snd (fst r) in
  (exists res, fst (fst r) = inr res)
  /\ option_map Effects.is_sign (nth_error tr 3) = Some true
  /\ option_map (Effects.is_approve_of WETH_ADDRESS LIMIT_ORDER_PROTOCOL)
                (nth_error tr 4) = Some true
  /\ option_map (Effects.is_view_of USDC_ADDRESS "balanceOf")
                (nth_error tr 6) = Some true
  /\ option_map Common.usdc_approval (nth_error tr 7) = Some true
  /\ Common.preconditions_first tr = false.
Proof.
  intros cfg r tr.
  split; [eexists; vm_compute; reflexivity |].
  repeat split; vm_compute; reflexivity.
Qed.

(** A deposit that follows the order construction, and a construction
    requested while the deposit is unconfirmed, are rejected by the two
    checks on the wrap. *)
Example late_deposit_rejected :
  let deposit := Effects.Entry
                   (Effects.Send (Effects.mkCall WETH_ADDRESS "deposit" [])
                                 (Effects.mkOverrides (Some 1) None))
                   (inr (Effects.mkTx "0xdeposit")) in
  let build := Effects.Entry
                 (Effects.SdkCreateOrder
                    (Effects.mkOrderInfo WETH_ADDRESS USDC_ADDRESS 1 1
                                         Scenario.alice Scenario.alice)
                    (Effects.mkSdkTraits None true true))
                 (inr (Effects.mkLimitOrder OrderHashing.sample_order)) in
  Effects.never_after (Effects.is_send_of "deposit") Effects.is_sdk_build false
                      [build; deposit] = false
  /\ Invariants.not_while_pending (Effects.is_send_of "deposit") Effects.is_sdk_build
                                  Effects.NotSent [deposit; build] = false.
Proof. split; reflexivity. Qed.

(** ** The order that is signed *)

Section SignedOrder.
Import Effects Lib Common Invariants.
Context {L : JsLib}.

Local Arguments ManualLimitOrderDemo.createOrderHash : simpl never.
Local Arguments Working1inchLimitOrder.generateOrderHash : simpl never.
Local Arguments Working1inchLimitOrder.createProperMakerTraits : simpl never.

(** What the two functions put into the order they sign. *)
Lemma signed_order_amounts
      {W : Type} (h : handler W) (w : W) (amount : number)
      (s : signer) (o : Order) :
  (In (s, o) (signed_orders
                (trace_of h (ManualLimitOrderDemo.runDemo amount) w)) ->
   maker o = account s /\ receiver o = account s
   /\ parseEther (toString amount) = inr (makingAmount o)
   /\ parseUnits (toString (times2500 amount)) 6 = inr (takingAmount o))
  /\
  (In (s, o) (signed_orders
                (trace_of h (Working1inchLimitOrder.createManualOrderDemo amount) w)) ->
   maker o = account s /\ receiver o = account s
   /\ parseEther (toString amount) = inr (makingAmount o)
   /\ exists amounts,
        In (Entry (getAmountsOut UNISWAP_ROUTER (makingAmount o)
                                 [WETH_ADDRESS; USDC_ADDRESS]) (inr amounts))
           (trace_of h (Working1inchLimitOrder.createManualOrderDemo amount) w)
        /\ nth_error amounts 1 = Some (takingAmount o)).
Proof.
  split.
  - unfold trace_of, ManualLimitOrderDemo.runDemo, ManualLimitOrderDemo.fillOrder,
           parseEther.
    explore h; intro H; repeat (destruct H as [H | H]); try contradiction;
      injection H as <- <-; repeat split; reflexivity.
  - unfold trace_of, Working1inchLimitOrder.createManualOrderDemo, parseEther.
    explore h; intro H; repeat (destruct H as [H | H]); try contradiction;
      injection H as <- <-; repeat split; try reflexivity;
      eexists; (split; [right; left; reflexivity | reflexivity]).
Qed.

(** C9, as the code has it.  Every order that
    [ManualLimitOrderDemo.runDemo] or
    [Working1inchLimitOrder.createManualOrderDemo] asks the wallet to sign
    has the signing account as maker and receiver.  Its offered amount is
    the parsed input amount.  Its requested amount is, in [runDemo], the
    parsed product of the input and 2500, and in [createManualOrderDemo]
    the second entry of the router's quote, whatever that is.  So, for a
    positive input amount (and numbers and a parser that behave as doubles
    and ethers do: the text of a positive number parses to a positive
    integer, and 2500 times a positive number is positive), the offered
    amount is strictly positive in both functions and the requested amount
    is strictly positive in [runDemo]; in [createManualOrderDemo] the
    requested amount is positive only if the quote is. *)
Theorem signed_order_fields
      {W : Type} (h : handler W) (w : W) (amount : number)
      (s : signer) (o : Order) :
  (In (s, o) (signed_orders
                (trace_of h (ManualLimitOrderDemo.runDemo amount) w)) ->
   maker o = account s /\ receiver o = account s
   /\ parseEther (toString amount) = inr (makingAmount o)
   /\ parseUnits (toString (times2500 amount)) 6 = inr (takingAmount o)
   /\ (parses_positive -> times2500_positive -> positive amount ->
       0 < makingAmount o /\ 0 < takingAmount o))
  /\
  (In (s, o) (signed_orders
                (trace_of h (Working1inchLimitOrder.createManualOrderDemo amount) w)) ->
   maker o = account s /\ receiver o = account s
   /\ parseEther (toString amount) = inr (makingAmount o)
   /\ (exists amounts,
        In (Entry (getAmountsOut UNISWAP_ROUTER (makingAmount o)
                                 [WETH_ADDRESS; USDC_ADDRESS]) (inr amounts))
           (trace_of h (Working1inchLimitOrder.createManualOrderDemo amount) w)
        /\ nth_error amounts 1 = Some (takingAmount o))
   /\ (parses_positive -> positive amount -> 0 < makingAmount o)).
Proof.
  destruct (signed_order_amounts h w amount s o) as [Hrun Hcreate].
  split; intro HIn.
  - destruct (Hrun HIn) as (Hm & Hr & Hmk & Htk).
    split; [exact Hm |]. split; [exact Hr |]. split; [exact Hmk |].
    split; [exact Htk |].
    intros Hp Ht Hpos. split.
    + apply (Hp amount 18%nat); assumption.
    + apply (Hp (times2500 amount) 6%nat); [apply Ht; assumption | assumption].
  - destruct (Hcreate HIn) as (Hm & Hr & Hmk & amounts & Hq & Ha).
    split; [exact Hm |]. split; [exact Hr |]. split; [exact Hmk |].
    split; [exists amounts; split; assumption |].
    intros Hp Hpos. apply (Hp amount 18%nat); assumption.
Qed.

End SignedOrder.

(** The orders signed for 0.001 WETH in a world whose router quotes
    2.5 USDC: both have positive amounts. *)
Lemma signed_order_fields_witness :
  let cfg := Scenario.mkConfig Scenario.alice (10 ^ 18) (10 ^ 18) (5 * 10 ^ 6)
                               [10 ^ 15; 2500000] 1700000000000 7 Scenario.never in
  let x := DecimalJs.parse_float "0.001" in
  let s := Effects.mkSigner Scenario.alice in
  let o := mkOrder 1700000000007 Scenario.alice Scenario.alice
                   WETH_ADDRESS USDC_ADDRESS (10 ^ 15) 2500000
                   (Working1inchLimitOrder.createProperMakerTraits 1700000000000) in
  let o' := mkOrder 1700000000000 Scenario.alice Scenario.alice
                    WETH_ADDRESS USDC_ADDRESS (10 ^ 15) 2500000 0 in
  (In (s, o)
      (Effects.signed_orders
         (Effects.trace_of (Scenario.world cfg)
            (@Working1inchLimitOrder.createManualOrderDemo DecimalJs.lib x) 0))
   /\ maker o = Effects.account s
   /\ (exists amounts, nth_error amounts 1 = Some (takingAmount o))
   /\ 0 < makingAmount o)
  /\
  (In (s, o')
      (Effects.signed_orders
         (Effects.trace_of (Scenario.world cfg)
            (@ManualLimitOrderDemo.runDemo DecimalJs.lib x) 0))
   /\ maker o' = Effects.account s
   /\ 0 < makingAmount o' /\ 0 < takingAmount o').
Proof.
  intros cfg x s o o'.
  assert (Px : @Invariants.positive DecimalJs.lib x) by (vm_compute; reflexivity).
  split.
  - assert (I : In (s, o)
                   (Effects.signed_orders
                      (Effects.trace_of (Scenario.world cfg)
                         (@Working1inchLimitOrder.createManualOrderDemo
                            DecimalJs.lib x) 0)))
      by (vm_compute; left; reflexivity).
    split; [exact I |].
    destruct (@signed_order_fields DecimalJs.lib Scenario.World
                (Scenario.world cfg) 0 x s o) as [_ H].
    destruct (H I) as [Hm [_ [_ [[amounts [_ Ha]] Hpos]]]].
    split; [exact Hm |]. split; [exists amounts; exact Ha |].
    exact (Hpos DecimalFacts.decimal_parses_positive Px).
  - assert (I : In (s, o')
                   (Effects.signed_orders
                      (Effects.trace_of (Scenario.world cfg)
                         (@ManualLimitOrderDemo.runDemo DecimalJs.lib x) 0)))
      by (vm_compute; left; reflexivity).
    split; [exact I |].
    destruct (@signed_order_fields DecimalJs.lib Scenario.World
                (Scenario.world cfg) 0 x s o') as [H _].
    destruct (H I) as [Hm [_ [_ [_ Hpos]]]].
    split; [exact Hm |].
    exact (Hpos DecimalFacts.decimal_parses_positive
                DecimalFacts.decimal_times2500_positive Px).
Defined.

(** A positive input does not make the requested amount positive:
    [createManualOrderDemo] signs and returns an order whose requested
    amount is zero when the router quotes zero. *)
Lemma manual_order_with_zero_taking_amount :
  let cfg := Scenario.mkConfig Scenario.alice (10 ^ 18) (10 ^ 18) (5 * 10 ^ 6)
                               [10 ^ 15; 0] 1700000000000 7 Scenario.never in
  let x := DecimalJs.parse_float "0.001" in
  let r := Effects.run (Scenario.world cfg)
             (@Working1inchLimitOrder.createManualOrderDemo DecimalJs.lib x) 0 in
  DecimalJs.ltb (DecimalJs.mkDec 0 0) x = true
  /\ exists res o,
      fst (fst r) = inr res
      /\ Working1inchLimitOrder.orderData res = Some o
      /\ In (Effects.mkSigner Scenario.alice, o) (Effects.signed_orders (snd (fst r)))
      /\ makingAmount o = 10 ^ 15
      /\ takingAmount o = 0
      /\ ~ (0 < takingAmount o).
Proof.
  intros cfg x r.
  split; [vm_compute; reflexivity |].
  eexists. eexists.
  split; [vm_compute; reflexivity |].
  split; [vm_compute; reflexivity |].
  split; [vm_compute; left; reflexivity |].
  split; [vm_compute; reflexivity |].
  split; [vm_compute; reflexivity |].
  vm_compute. intro H. discriminate H.
Qed.

(** ** Fallback and the original error *)

Section ReturningRuns.
Import Effects.

(** A sequence that returns: both parts returned, one after the other. *)
Lemma run_bind_returns {W A B : Type} (h : handler W) (p : prog A)
      (f : A -> prog B) (w w2 : W) (b : B) (tr : trace) :
  run h (bind p f) w = (inr b, tr, w2) ->
  exists (a : A) (tr1 : trace) (w1 : W) (tr2 : trace),
    run h p w = (inr a, tr1, w1)
    /\ run h (f a) w1 = (inr b, tr2, w2)
    /\ tr = (tr1 ++ tr2)%list.
Proof.
  rewrite EffectFacts.run_bind.
  destruct (run h p w) as [[[e | a] tr1] w1] eqn:E1; [discriminate |].
  destruct (run h (f a) w1) as [[r2 tr2] w3] eqn:E2.
  intro H. injection H as Hr Ht Hw. subst.
  exists a, tr1, w1, tr2. split; [reflexivity |]. split; [exact E2 | reflexivity].
Qed.

End ReturningRuns.

Section Fallback.
Import Effects Lib Common.
Context {L : JsLib}.

Ltac peel H a :=
  let tr1 := fresh "tr" in
  let w1 := fresh "w" in
  let tr2 := fresh "tr" in
  let H1 := fresh "R" in
  apply run_bind_returns in H;
  destruct H as (a & tr1 & w1 & tr2 & H1 & H & ->);
  cbv beta zeta in H.

(** A run of [fillOrderAsTaker] that returns ends with a run of
    [executeFallbackDemo] on the order's offered amount, and returns the
    record of that run, tagged. *)
Lemma taker_returns_tagged_fallback
      {W : Type} (h : handler W) (w w2 : W)
      (orderResult : Working1inchLimitOrder.OrderResult) (wethAmount : number)
      (res : Execution) (tr : trace) :
  run h (Working1inchLimitOrder.fillOrderAsTaker orderResult wethAmount) w
    = (inr res, tr, w2) ->
  exists (o : Order) (fallbackResult : Execution) (pre : trace) (w1 : W)
         (tr_fb : trace),
    Working1inchLimitOrder.orderData orderResult = Some o
    /\ run h (Working1inchLimitOrder.executeFallbackDemo
                (parseFloat (formatEther (makingAmount o)))) w1
       = (inr fallbackResult, tr_fb, w2)
    /\ tr = (pre ++ tr_fb)%list
    /\ res = Working1inchLimitOrder.tag_fallback fallbackResult.
Proof.
  unfold Working1inchLimitOrder.fillOrderAsTaker.
  rewrite EffectFacts.try_catch_rethrow. intro H.
  peel H s.
  peel H o.
  destruct (Working1inchLimitOrder.orderData orderResult) as [o' |] eqn:Eo;
    [| discriminate R0].
  cbn in R0. injection R0 as <- <- <-.
  peel H bal.
  destruct (bal <? takingAmount o'); [discriminate H |].
  peel H u1. peel H sg. peel H u2. peel H u3. peel H gas. peel H fb.
  cbn in H. injection H as <- <- <-.
  exists o', fb. eexists. eexists. eexists.
  split; [reflexivity |]. split; [eassumption |].
  split; [| reflexivity].
  rewrite app_nil_r, !app_assoc. reflexivity.
Qed.

(** C1, as the code has it.  When the guards of [RobustSwapDemo.runDemo]
    pass, the handler never throws and what it shows is decided by the two
    attempts: if the first (Uniswap) succeeds, its result; if it throws and
    the fallback (1inch router) succeeds, the fallback's result tagged
    "1inch Direct" with no error shown, the first error being dropped; only
    if both throw is the first error's message shown, together with the
    second.  [fillOrderAsTaker], when it returns, returns the fallback's
    record tagged with its own method and note: its run ends with a run of
    [executeFallbackDemo] on the order's offered amount, and what it
    returns is the record that run returned, with only the method and the
    note replaced. *)
Theorem fallback_result_shown
      {W : Type} (h : handler W) (w : W) (st : RobustSwapDemo.State)
      (orderResult : Working1inchLimitOrder.OrderResult) (wethAmount : number) :
  RobustSwapDemo.connected st = true ->
  number_ltb (parseFloat (RobustSwapDemo.balance_eth st))
             (plusMilli (parseFloat (RobustSwapDemo.ethAmount st))) = false ->
  let amount := parseFloat (RobustSwapDemo.ethAmount st) in
  run h (RobustSwapDemo.runDemo st) w =
    match run h (UniswapDemo.runDemo amount) w with
    | (inr demoResult, tr1, w1) =>
        (inr (RobustSwapDemo.shown st
                (Some (RobustSwapDemo.mkResult "Uniswap V2"
                         (Some (UniswapDemo.quote demoResult))
                         (UniswapDemo.execution demoResult)))
                None),
         tr1, w1)
    | (inl uniswapError, tr1, w1) =>
        match run h (DirectSwapDemo.runDirectDemo amount) w1 with
        | (inr directResult, tr2, w2) =>
            (inr (RobustSwapDemo.shown st
                    (Some (RobustSwapDemo.mkResult "1inch Direct" None directResult))
                    None),
             (tr1 ++ tr2)%list, w2)
        | (inl directError, tr2, w2) =>
            (inr (RobustSwapDemo.shown st None
                    (Some (RobustSwapDemo.all_failed uniswapError directError))),
             (tr1 ++ tr2)%list, w2)
        end
    end
  /\ match run h (Working1inchLimitOrder.fillOrderAsTaker orderResult wethAmount) w with
     | (inr res, tr, w2) =>
         ex_method res = Some Working1inchLimitOrder.taker_method
         /\ note res = Some Working1inchLimitOrder.taker_note
         /\ exists (o : Order) (fallbackResult : Execution) (pre : trace) (w1 : W)
                   (tr_fb : trace),
             Working1inchLimitOrder.orderData orderResult = Some o
             /\ run h (Working1inchLimitOrder.executeFallbackDemo
                         (parseFloat (formatEther (makingAmount o)))) w1
                = (inr fallbackResult, tr_fb, w2)
             /\ tr = (pre ++ tr_fb)%list
             /\ res = Working1inchLimitOrder.tag_fallback fallbackResult
             /\ success res = success fallbackResult
             /\ transactionHash res = transactionHash fallbackResult
             /\ ex_blockNumber res = ex_blockNumber fallbackResult
             /\ ex_gasUsed res = ex_gasUsed fallbackResult
             /\ actualOutput res = actualOutput fallbackResult
     | (inl _, _, _) => True
     end.
Proof.
  intros Hc Hb amount. split.
  - unfold RobustSwapDemo.runDemo. rewrite Hc, Hb. cbn [negb].
    rewrite EffectFacts.run_bind, EffectFacts.run_try_catch, EffectFacts.run_bind.
    cbn [RobustSwapDemo.ethAmount RobustSwapDemo.setResult RobustSwapDemo.setError
         RobustSwapDemo.setIsLoading RobustSwapDemo.connected
         RobustSwapDemo.balance_eth RobustSwapDemo.isLoading
         RobustSwapDemo.result RobustSwapDemo.error].
    fold amount.
    destruct (run h (UniswapDemo.runDemo amount) w) as [[[e1 | d1] tr1] w1].
    + rewrite EffectFacts.run_try_catch, EffectFacts.run_bind.
      destruct (run h (DirectSwapDemo.runDirectDemo amount) w1)
        as [[[e2 | d2] tr2] w2]; cbn; rewrite ?app_nil_r; reflexivity.
    + cbn. rewrite ?app_nil_r. reflexivity.
  - destruct (run h (Working1inchLimitOrder.fillOrderAsTaker orderResult wethAmount) w)
      as [[[e | res] tr] w2] eqn:R; [exact I |].
    destruct (taker_returns_tagged_fallback h w w2 orderResult wethAmount res tr R)
      as (o & fb & pre & w1 & tr_fb & Ho & Hfb & Htr & Hres).
    subst res. split; [reflexivity |]. split; [reflexivity |].
    exists o, fb, pre, w1, tr_fb. repeat split; assumption.
Qed.

End Fallback.

(** A click with 1.0 ETH in the wallet and 0.001 ETH to swap, in a world
    where the router's quote reverts. *)
Lemma fallback_result_shown_witness :
  let cfg := Scenario.mkConfig Scenario.alice (10 ^ 18) 0 0 [10 ^ 15; 2500000]
               1700000000000 7
               (Scenario.reverting "getAmountsOut" "execution reverted") in
  let st := RobustSwapDemo.mkState true "1.0" "0.001" false None None in
  Effects.outcome (Scenario.world cfg) (@RobustSwapDemo.runDemo DecimalJs.lib st) 0 =
  inr (RobustSwapDemo.mkState true "1.0" "0.001" false
         (Some (RobustSwapDemo.mkResult "1inch Direct" None
                  (Common.mkExecution (Some true) "0xswap" 19000000 120000
                                      None None None None None)))
         None).
Proof.
  intros cfg st.
  unfold Effects.outcome.
  rewrite (proj1 (@fallback_result_shown DecimalJs.lib Scenario.World
                    (Scenario.world cfg) 0 st
                    (Working1inchLimitOrder.mkOrderResult true "" [] None None 0
                       (Working1inchLimitOrder.mkOrderSummary 0 0 0 "" "" 0 ""))
                    (DecimalJs.parse_float "0.001")
                    eq_refl eq_refl)).
  vm_compute. reflexivity.
Defined.

(** The settlement attempt throws "execution reverted", the fallback
    succeeds, and what is shown is the fallback's outcome alone: no error
    is kept in the state. *)
Lemma fallback_drops_original_error :
  let cfg := Scenario.mkConfig Scenario.alice (10 ^ 18) 0 0 [10 ^ 15; 2500000]
               1700000000000 7
               (Scenario.reverting "getAmountsOut" "execution reverted") in
  let st := RobustSwapDemo.mkState true "1.0" "0.001" false None None in
  let x := @Lib.parseFloat DecimalJs.lib "0.001" in
  Effects.outcome (Scenario.world cfg) (@UniswapDemo.runDemo DecimalJs.lib x) 0 =
    inl (Effects.mkError "execution reverted")
  /\ (exists directResult,
        Effects.outcome (Scenario.world cfg)
          (@DirectSwapDemo.runDirectDemo DecimalJs.lib x) 0 = inr directResult)
  /\ exists st',
      Effects.outcome (Scenario.world cfg)
        (@RobustSwapDemo.runDemo DecimalJs.lib st) 0 = inr st'
      /\ RobustSwapDemo.error st' = None
      /\ option_map RobustSwapDemo.method (RobustSwapDemo.result st')
         = Some "1inch Direct"%string.
Proof.
  intros cfg st x.
  split; [vm_compute; reflexivity |].
  split; [eexists; vm_compute; reflexivity |].
  eexists. split; [vm_compute; reflexivity |].
  split; vm_compute; reflexivity.
Qed.

(** * Further properties *)

(** ** Order hashes: when they are defined, and what they determine *)

Module HashMore.
Import Bytes OrderHashing.

Lemma keccak_round_length (st : list Z) (rc : Z) :
  List.length (Keccak.keccak_round st rc) = 25%nat.
Proof.
  unfold Keccak.keccak_round, Keccak.iota.
  destruct (Keccak.chi (Keccak.rho_pi (Keccak.theta st))) as [| a rest] eqn:E.
  - apply (f_equal (@List.length Z)) in E. unfold Keccak.chi in E.
    rewrite length_map in E. discriminate E.
  - apply (f_equal (@List.length Z)) in E. unfold Keccak.chi in E.
    rewrite length_map in E. simpl in *. exact (eq_sym E).
Qed.

Lemma fold_round_length (rcs : list Z) (st : list Z) :
  List.length st = 25%nat ->
  List.length (fold_left Keccak.keccak_round rcs st) = 25%nat.
Proof.
  revert st. induction rcs as [| rc rcs IH]; intros st H; simpl.
  - exact H.
  - apply IH. apply keccak_round_length.
Qed.

Lemma absorb_length (n : nat) (st : list Z) (bs : list byte) :
  List.length st = 25%nat -> List.length (Keccak.absorb n st bs) = 25%nat.
Proof.
  revert st bs. induction n as [| n IH]; intros st bs H.
  - exact H.
  - cbn [Keccak.absorb]. apply IH.
    unfold Keccak.absorb_block, Keccak.keccak_f.
    apply fold_round_length. rewrite length_map. reflexivity.
Qed.

Lemma le_bytes_length (n : nat) (v : Z) : List.length (le_bytes n v) = n.
Proof.
  revert v. induction n as [| n IH]; intro v; simpl;
    [reflexivity | rewrite IH; reflexivity].
Qed.

(** A digest is 32 bytes long. *)
Lemma keccak256_length (msg : list byte) :
  List.length (Keccak.keccak256 msg) = 32%nat.
Proof.
  unfold Keccak.keccak256.
  set (st := Keccak.absorb _ _ _).
  assert (H : List.length st = 25%nat)
    by (apply absorb_length; reflexivity).
  destruct st as [| a [| b [| c [| d rest]]]]; try discriminate H.
  cbn [firstn flat_map]. rewrite !length_app, !le_bytes_length. reflexivity.
Qed.

Lemma encode_word_digest (msg : list byte) :
  Abi.encode_word (Abi.Bytes32 (Keccak.keccak256 msg)) = Some (Keccak.keccak256 msg).
Proof.
  unfold Abi.encode_word. rewrite keccak256_length. reflexivity.
Qed.

Lemma encode_order_fields (o : Order) :
  Abi.encode (ManualLimitOrderDemo.order_fields o) =
  if order_ok o
  then Some (be_bytes 32 (salt o) ++ be_bytes 32 (maker o)
             ++ be_bytes 32 (receiver o) ++ be_bytes 32 (makerAsset o)
             ++ be_bytes 32 (takerAsset o) ++ be_bytes 32 (makingAmount o)
             ++ be_bytes 32 (takingAmount o) ++ be_bytes 32 (makerTraits o)
             ++ [])%list
  else None.
Proof.
  unfold ManualLimitOrderDemo.order_fields, order_ok.
  cbn [Abi.encode Abi.encode_word].
  destruct (Abi.in_range 256 (salt o)); [| reflexivity].
  destruct (Abi.in_range 160 (maker o));
    [| cbn; repeat match goal with |- context [if ?b then _ else _] => destruct b end; reflexivity].
  destruct (Abi.in_range 160 (receiver o));
    [| cbn; repeat match goal with |- context [if ?b then _ else _] => destruct b end; reflexivity].
  destruct (Abi.in_range 160 (makerAsset o));
    [| cbn; repeat match goal with |- context [if ?b then _ else _] => destruct b end; reflexivity].
  destruct (Abi.in_range 160 (takerAsset o));
    [| cbn; repeat match goal with |- context [if ?b then _ else _] => destruct b end; reflexivity].
  destruct (Abi.in_range 256 (makingAmount o));
    [| cbn; repeat match goal with |- context [if ?b then _ else _] => destruct b end; reflexivity].
  destruct (Abi.in_range 256 (takingAmount o));
    [| cbn; repeat match goal with |- context [if ?b then _ else _] => destruct b end; reflexivity].
  destruct (Abi.in_range 256 (makerTraits o)); reflexivity.
Qed.

End HashMore.

Section HashDefined.
Import OrderHashing.

(** X1. [createOrderHash] returns a digest exactly when every field of the
    order fits its ABI type (amounts, salt and traits in [0, 2^256),
    addresses in [0, 2^160)), and [generateOrderHash] exactly when, in
    addition, the chain id and the verifying contract of the domain fit;
    otherwise the encoder throws.  A digest that is returned is 32 bytes
    long. *)
Theorem order_hash_defined_iff (o : Order) (d : Domain) :
  ((exists h, ManualLimitOrderDemo.createOrderHash o = Some h
              /\ List.length h = 32%nat)
   <-> order_ok o = true)
  /\
  ((exists g, Working1inchLimitOrder.generateOrderHash o d = Some g
              /\ List.length g = 32%nat)
   <-> order_ok o && domain_ok d = true).
Proof.
  split.
  - unfold ManualLimitOrderDemo.createOrderHash.
    rewrite HashMore.encode_order_fields.
    destruct (order_ok o); split.
    + reflexivity.
    + intros _. eexists. split; [reflexivity | apply HashMore.keccak256_length].
    + intros [h [H _]]. discriminate H.
    + discriminate.
  - unfold Working1inchLimitOrder.generateOrderHash,
           Working1inchLimitOrder.domain_fields,
           Working1inchLimitOrder.struct_fields,
           Working1inchLimitOrder.hash_string, domain_ok.
    cbn [Abi.encode]. rewrite !HashMore.encode_word_digest.
    rewrite HashMore.encode_order_fields.
    cbn [Abi.encode_word].
    destruct (Abi.in_range 256 (chainId d));
      destruct (Abi.in_range 160 (verifyingContract d));
      destruct (order_ok o); cbn [andb]; split;
      try reflexivity; try discriminate;
      try (intros [g [H _]]; discriminate H).
    intros _. eexists. split; [reflexivity | apply HashMore.keccak256_length].
Qed.

End HashDefined.

(** An order whose offered amount is negative has no hash. *)
Example negative_amount_has_no_hash :
  let o := OrderHashing.sample_order in
  let bad := mkOrder (salt o) (maker o) (receiver o) (makerAsset o)
                     (takerAsset o) (-1) (takingAmount o) (makerTraits o) in
  OrderHashing.order_ok o = true
  /\ ManualLimitOrderDemo.createOrderHash bad = None
  /\ Working1inchLimitOrder.generateOrderHash bad Working1inchLimitOrder.domain = None.
Proof. vm_compute. repeat split. Qed.

Module HashInjective.
Import Bytes OrderHashing.

Lemma range160 (a : Z) : Abi.in_range 160 a = true -> 0 <= a < 2 ^ (8 * Z.of_nat 32).
Proof.
  intro H. apply HashFacts.in_range_spec in H.
  change (8 * Z.of_nat 32) with 256.
  assert (2 ^ 160 < 2 ^ 256) by (apply Z.pow_lt_mono_r; lia). lia.
Qed.

Lemma range256 (a : Z) : Abi.in_range 256 a = true -> 0 <= a < 2 ^ (8 * Z.of_nat 32).
Proof. intro H. apply HashFacts.in_range_spec in H. exact H. Qed.

(** Two words followed by equal-length rests. *)
Lemma word_inj (a b : Z) (x y : list byte) :
  0 <= a < 2 ^ (8 * Z.of_nat 32) -> 0 <= b < 2 ^ (8 * Z.of_nat 32) ->
  (be_bytes 32 a ++ x = be_bytes 32 b ++ y)%list -> a = b /\ x = y.
Proof.
  intros Ha Hb E.
  apply HashFacts.app_same_length_inj in E;
    [| rewrite !HashFacts.be_bytes_length; reflexivity].
  destruct E as [E1 E2]. split; [| exact E2].
  exact (HashFacts.be_bytes_inj 32 a b Ha Hb E1).
Qed.

Lemma Some_inj {A : Type} (a b : A) : Some a = Some b -> a = b.
Proof. intro H. injection H as H. exact H. Qed.

Lemma order_encoding_inj (o1 o2 : Order) (e : list byte) :
  Abi.encode (ManualLimitOrderDemo.order_fields o1) = Some e ->
  Abi.encode (ManualLimitOrderDemo.order_fields o2) = Some e ->
  o1 = o2.
Proof.
  rewrite !HashMore.encode_order_fields.
  destruct (order_ok o1) eqn:K1; [| discriminate].
  destruct (order_ok o2) eqn:K2; [| discriminate].
  intros H1 H2. rewrite <- H2 in H1. apply Some_inj in H1. rename H1 into E.
  clear H2.
  unfold order_ok in K1, K2.
  do 7 (apply andb_true_iff in K1; destruct K1 as [K1 ?]).
  do 7 (apply andb_true_iff in K2; destruct K2 as [K2 ?]).
  destruct o1 as [s1 m1 r1 ma1 ta1 mk1 tk1 tr1], o2 as [s2 m2 r2 ma2 ta2 mk2 tk2 tr2];
    cbn [salt maker receiver makerAsset takerAsset makingAmount
                         takingAmount makerTraits] in *.
  repeat match goal with
         | E : (be_bytes 32 ?a ++ _ = be_bytes 32 ?b ++ _)%list |- _ =>
             apply word_inj in E;
             [ let E1 := fresh "E" in destruct E as [E1 E]; subst
             | first [apply range256; assumption | apply range160; assumption]
             | first [apply range256; assumption | apply range160; assumption] ]
         end.
  reflexivity.
Qed.

Lemma toUtf8Bytes_inj (s t : string) : toUtf8Bytes s = toUtf8Bytes t -> s = t.
Proof.
  unfold toUtf8Bytes. intro H.
  apply (f_equal string_of_list_byte) in H.
  rewrite !string_of_list_byte_of_string in H. exact H.
Qed.

Lemma encode_domain_fields (d : Domain) :
  Abi.encode (Working1inchLimitOrder.domain_fields d) =
  if domain_ok d
  then Some (Working1inchLimitOrder.hash_string Working1inchLimitOrder.EIP712DOMAIN_TYPE
             ++ Working1inchLimitOrder.hash_string (name d)
             ++ Working1inchLimitOrder.hash_string (version d)
             ++ be_bytes 32 (chainId d) ++ be_bytes 32 (verifyingContract d)
             ++ [])%list
  else None.
Proof.
  unfold Working1inchLimitOrder.domain_fields, Working1inchLimitOrder.hash_string,
         domain_ok.
  cbn [Abi.encode]. rewrite !HashMore.encode_word_digest. cbn [Abi.encode_word].
  destruct (Abi.in_range 256 (chainId d));
    destruct (Abi.in_range 160 (verifyingContract d)); reflexivity.
Qed.

Lemma encode_struct_fields (o : Order) :
  Abi.encode (Working1inchLimitOrder.struct_fields o) =
  match Abi.encode (ManualLimitOrderDemo.order_fields o) with
  | Some e =>
      Some (Working1inchLimitOrder.hash_string Working1inchLimitOrder.ORDER_TYPE ++ e)%list
  | None => None
  end.
Proof.
  unfold Working1inchLimitOrder.struct_fields, Working1inchLimitOrder.hash_string.
  cbn [Abi.encode]. rewrite HashMore.encode_word_digest. reflexivity.
Qed.

End HashInjective.

Section HashDetermines.
Import OrderHashing.

Ltac member := cbn [In app]; tauto.

(** X2. Absent a Keccak collision among the byte strings hashed for them,
    two encodable orders with the same [createOrderHash], or with the same
    [generateOrderHash] under one domain, are the same order: every field,
    not only the salt, is bound by the hash. *)
Theorem order_hash_determines_order (o1 o2 : Order) (d : Domain) :
  order_ok o1 = true -> order_ok o2 = true -> domain_ok d = true ->
  collision_free (hashed_inputs o1 d ++ hashed_inputs o2 d) ->
  (ManualLimitOrderDemo.createOrderHash o1 = ManualLimitOrderDemo.createOrderHash o2
   -> o1 = o2)
  /\
  (Working1inchLimitOrder.generateOrderHash o1 d =
   Working1inchLimitOrder.generateOrderHash o2 d -> o1 = o2).
Proof.
  intros K1 K2 Kd CF.
  unfold hashed_inputs in CF.
  unfold ManualLimitOrderDemo.createOrderHash,
         Working1inchLimitOrder.generateOrderHash.
  rewrite !HashInjective.encode_struct_fields in *.
  rewrite HashInjective.encode_domain_fields in *. rewrite Kd in *.
  pose proof (HashMore.encode_order_fields o1) as E1. rewrite K1 in E1.
  pose proof (HashMore.encode_order_fields o2) as E2. rewrite K2 in E2.
  destruct (Abi.encode (ManualLimitOrderDemo.order_fields o1)) as [e1 |] eqn:F1;
    [| discriminate E1].
  destruct (Abi.encode (ManualLimitOrderDemo.order_fields o2)) as [e2 |] eqn:F2;
    [| discriminate E2].
  clear E1 E2.
  split; intro H; apply HashInjective.Some_inj in H.
  - apply CF in H; [| member | member].
    subst e2. exact (HashInjective.order_encoding_inj o1 o2 e1 F1 F2).
  - apply CF in H; [| member | member].
    apply app_inv_head in H. apply app_inv_head in H.
    apply CF in H; [| member | member].
    apply app_inv_head in H.
    subst e2. exact (HashInjective.order_encoding_inj o1 o2 e1 F1 F2).
Qed.

(** X3. Absent a Keccak collision among the byte strings hashed for them,
    [generateOrderHash] gives one order different digests under different
    domains: a signature made for one chain id, verifying contract, name or
    version does not fit another. *)
Theorem order_hash_determines_domain (o : Order) (d1 d2 : Domain) :
  order_ok o = true -> domain_ok d1 = true -> domain_ok d2 = true ->
  collision_free (domain_inputs o d1 ++ domain_inputs o d2) ->
  Working1inchLimitOrder.generateOrderHash o d1 =
  Working1inchLimitOrder.generateOrderHash o d2 ->
  d1 = d2.
Proof.
  intros K K1 K2 CF.
  unfold domain_inputs in CF.
  unfold Working1inchLimitOrder.generateOrderHash.
  rewrite !HashInjective.encode_struct_fields in *.
  rewrite !HashInjective.encode_domain_fields in *. rewrite K1, K2 in *.
  pose proof (HashMore.encode_order_fields o) as E. rewrite K in E.
  destruct (Abi.encode (ManualLimitOrderDemo.order_fields o)) as [e |];
    [| discriminate E].
  clear E. intro H. apply HashInjective.Some_inj in H.
  apply CF in H; [| member | member].
  apply app_inv_head in H.
  apply app_inv_tail in H.
  apply CF in H; [| member | member].
  apply app_inv_head in H.
  unfold Working1inchLimitOrder.hash_string in H.
  apply HashFacts.app_same_length_inj in H;
    [| rewrite !HashMore.keccak256_length; reflexivity].
  destruct H as [Hn H].
  apply HashFacts.app_same_length_inj in H;
    [| rewrite !HashMore.keccak256_length; reflexivity].
  destruct H as [Hv H].
  unfold domain_ok in K1, K2.
  apply andb_true_iff in K1, K2. destruct K1 as [C1 V1], K2 as [C2 V2].
  apply HashInjective.word_inj in H;
    [| apply HashInjective.range256; assumption
     | apply HashInjective.range256; assumption].
  destruct H as [Hc H].
  apply HashInjective.word_inj in H;
    [| apply HashInjective.range160; assumption
     | apply HashInjective.range160; assumption].
  destruct H as [Hvc _].
  apply CF in Hn; [| member | member].
  apply CF in Hv; [| member | member].
  apply HashInjective.toUtf8Bytes_inj in Hn, Hv.
  destruct d1 as [n1 v1 c1 vc1], d2 as [n2 v2 c2 vc2];
    cbn [name version chainId verifyingContract] in *.
  subst. reflexivity.
Qed.

End HashDetermines.
(** The sample order and the same order asking for one more unit of the
    taker asset. *)
Lemma order_hash_determines_order_witness :
  let o1 := OrderHashing.sample_order in
  let o2 := mkOrder (salt o1) (maker o1) (receiver o1) (makerAsset o1)
                    (takerAsset o1) (makingAmount o1) (takingAmount o1 + 1)
                    (makerTraits o1) in
  (ManualLimitOrderDemo.createOrderHash o1 = ManualLimitOrderDemo.createOrderHash o2
   -> o1 = o2)
  /\
  (Working1inchLimitOrder.generateOrderHash o1 Working1inchLimitOrder.domain =
   Working1inchLimitOrder.generateOrderHash o2 Working1inchLimitOrder.domain
   -> o1 = o2).
Proof.
  intros o1 o2.
  apply (order_hash_determines_order o1 o2 Working1inchLimitOrder.domain).
  - vm_compute; reflexivity.
  - vm_compute; reflexivity.
  - vm_compute; reflexivity.
  - apply HashFacts.collision_free_b_sound. vm_compute. reflexivity.
Defined.

(** The sample order under the domains of the two helper files. *)
Lemma order_hash_determines_domain_witness :
  OrderHashing.domain_ok Working1inchLimitOrder.domain = true
  /\ OrderHashing.domain_ok ManualLimitOrderDemo.DOMAIN = true
  /\ (Working1inchLimitOrder.generateOrderHash
        OrderHashing.sample_order Working1inchLimitOrder.domain =
      Working1inchLimitOrder.generateOrderHash
        OrderHashing.sample_order ManualLimitOrderDemo.DOMAIN ->
      Working1inchLimitOrder.domain = ManualLimitOrderDemo.DOMAIN).
Proof.
  split; [vm_compute; reflexivity |].
  split; [vm_compute; reflexivity |].
  apply (order_hash_determines_domain OrderHashing.sample_order
           Working1inchLimitOrder.domain ManualLimitOrderDemo.DOMAIN).
  - vm_compute; reflexivity.
  - vm_compute; reflexivity.
  - vm_compute; reflexivity.
  - apply HashFacts.collision_free_b_sound. vm_compute. reflexivity.
Defined.

(** ** Maker traits as numbers *)

Section TraitsArithmetic.
Import Working1inchLimitOrder.

Lemma in_range_intro (bits v : Z) :
  0 <= v < 2 ^ bits -> Abi.in_range bits v = true.
Proof.
  intros [H1 H2]. unfold Abi.in_range. apply andb_true_iff.
  split; [apply Z.leb_le | apply Z.ltb_lt]; assumption.
Qed.

Lemma lor_disjoint (a b : Z) : Z.land a b = 0 -> Z.lor a b = a + b.
Proof.
  intro H. rewrite Z.add_nocarry_lxor by exact H.
  symmetry. apply Z.lxor_lor. exact H.
Qed.

Lemma flags_low_disjoint (e : Z) : Z.land 3 (Z.shiftl e 160) = 0.
Proof.
  apply Z.bits_inj'. intros i Hi.
  rewrite Z.land_spec, Z.bits_0.
  destruct (Z.ltb_spec i 160).
  - rewrite Z.shiftl_spec_low by lia. apply andb_false_r.
  - change 3 with (Z.ones 2). rewrite Z.ones_spec_high by lia. reflexivity.
Qed.

Lemma proper_traits_sum (now : Z) :
  createProperMakerTraits now = expiration now * 2 ^ 160 + 3.
Proof.
  unfold createProperMakerTraits.
  change (Z.lor (Z.lor 0 1) (Z.shiftl 1 1)) with 3.
  rewrite lor_disjoint by apply flags_low_disjoint.
  rewrite Z.shiftl_mul_pow2 by lia. lia.
Qed.

Lemma flags_high_disjoint (e : Z) :
  0 <= e < 2 ^ 94 ->
  Z.land (Z.lor (Z.lor 0 (Z.shiftl 1 255)) (Z.shiftl 1 254)) (Z.shiftl e 160) = 0.
Proof.
  intro He. apply Z.bits_inj'. intros i Hi.
  rewrite Z.land_spec, Z.bits_0, !Z.lor_spec, Z.bits_0, !Z.shiftl_1_l.
  rewrite !Z.pow2_bits_eqb by lia. cbn [orb].
  destruct (Z.ltb_spec i 254).
  - destruct (Z.eqb_spec 255 i); [lia |]. destruct (Z.eqb_spec 254 i); [lia |].
    reflexivity.
  - rewrite Z.shiftl_spec by lia.
    destruct (Z.eq_dec e 0) as [-> | Hne].
    + rewrite Z.bits_0. apply andb_false_r.
    + rewrite (Z.bits_above_log2 e (i - 160)); [apply andb_false_r | lia |].
      assert (Z.log2 e < 94) by (apply Z.log2_lt_pow2; lia). lia.
Qed.

Lemma advanced_traits_sum (now : Z) :
  0 <= expiration now < 2 ^ 94 ->
  createAdvancedMakerTraits now = 2 ^ 255 + 2 ^ 254 + expiration now * 2 ^ 160.
Proof.
  intro He. unfold createAdvancedMakerTraits.
  rewrite lor_disjoint by (apply flags_high_disjoint; exact He).
  change (Z.lor (Z.lor 0 (Z.shiftl 1 255)) (Z.shiftl 1 254)) with (2 ^ 255 + 2 ^ 254).
  rewrite Z.shiftl_mul_pow2 by lia. reflexivity.
Qed.

(** X4. As a number, the value of [createProperMakerTraits] is the expiry
    times 2^160 plus 3, and for a clock that is not negative it is a uint256
    the ABI coder accepts exactly when the expiry is below 2^96. *)
Theorem proper_traits_encodable (now : Z) :
  0 <= now ->
  createProperMakerTraits now = expiration now * 2 ^ 160 + 3
  /\ (Abi.in_range 256 (createProperMakerTraits now) = true
      <-> expiration now < 2 ^ 96).
Proof.
  intro Hnow. split; [apply proper_traits_sum |].
  rewrite proper_traits_sum.
  assert (He : 0 <= expiration now).
  { unfold expiration. assert (0 <= now / 1000) by (apply Z.div_pos; lia). lia. }
  change (2 ^ 96) with 79228162514264337593543950336.
  split; intro H.
  - apply HashFacts.in_range_spec in H.
    change (2 ^ 256) with (79228162514264337593543950336 * 2 ^ 160) in H.
    assert (0 < 2 ^ 160) by (apply Z.pow_pos_nonneg; lia). nia.
  - apply in_range_intro.
    change (2 ^ 256) with (79228162514264337593543950336 * 2 ^ 160).
    assert (3 < 2 ^ 160) by (apply Z.ltb_lt; reflexivity). nia.
Qed.

(** X5. For an expiry of fewer than 94 bits, [createAdvancedMakerTraits]
    is 2^255 + 2^254 plus the expiry times 2^160: a uint256 with both flag
    bits set, nothing below bit 160, and the expiry readable from the 94
    bits starting at bit 160. *)
Theorem advanced_traits_layout (now : Z) :
  0 <= expiration now < 2 ^ 94 ->
  let t := createAdvancedMakerTraits now in
  t = 2 ^ 255 + 2 ^ 254 + expiration now * 2 ^ 160
  /\ Abi.in_range 256 t = true
  /\ Z.testbit t 254 = true /\ Z.testbit t 255 = true
  /\ Z.land (Z.shiftr t 160) (Z.ones 94) = expiration now
  /\ Z.land t (Z.ones 160) = 0.
Proof.
  intros He t. subst t. rewrite advanced_traits_sum by exact He.
  set (e := expiration now) in *.
  assert (P160 : 0 < 2 ^ 160) by (apply Z.pow_pos_nonneg; lia).
  assert (S : 2 ^ 255 + 2 ^ 254 + e * 2 ^ 160 = (3 * 2 ^ 94 + e) * 2 ^ 160).
  { change (2 ^ 255) with (2 * 2 ^ 94 * 2 ^ 160).
    change (2 ^ 254) with (2 ^ 94 * 2 ^ 160). ring. }
  split; [reflexivity |].
  split.
  { apply in_range_intro. rewrite S.
    change (2 ^ 256) with (4 * 2 ^ 94 * 2 ^ 160).
    assert (0 < 2 ^ 94) by (apply Z.pow_pos_nonneg; lia). nia. }
  assert (Hi : forall i, 160 <= i ->
             Z.testbit (2 ^ 255 + 2 ^ 254 + e * 2 ^ 160) i
             = Z.testbit (3 * 2 ^ 94 + e) (i - 160)).
  { intros i Hi. rewrite S, <- Z.shiftl_mul_pow2 by lia.
    apply Z.shiftl_spec. lia. }
  assert (Hs : 3 * 2 ^ 94 + e = Z.lor (Z.shiftl 3 94) e).
  { rewrite lor_disjoint.
    - rewrite Z.shiftl_mul_pow2 by lia. reflexivity.
    - apply Z.bits_inj'. intros i Hi0.
      rewrite Z.land_spec, Z.bits_0.
      destruct (Z.ltb_spec i 94).
      + rewrite Z.shiftl_spec_low by lia. reflexivity.
      + destruct (Z.eq_dec e 0) as [E0 | Hne].
        * rewrite E0, Z.bits_0. apply andb_false_r.
        * rewrite (Z.bits_above_log2 e i); [apply andb_false_r | lia |].
          assert (Z.log2 e < 94) by (apply Z.log2_lt_pow2; lia). lia. }
  split.
  { rewrite Hi by lia. rewrite Hs, Z.lor_spec, Z.shiftl_spec by lia. reflexivity. }
  split.
  { rewrite Hi by lia. rewrite Hs, Z.lor_spec, Z.shiftl_spec by lia. reflexivity. }
  split.
  { rewrite S, <- Z.shiftl_mul_pow2, Z.shiftr_shiftl_l by lia.
    change (160 - 160) with 0. rewrite Z.shiftl_0_r.
    rewrite Z.land_ones by lia.
    rewrite Z.add_comm, Z.mod_add by lia.
    apply Z.mod_small. exact He. }
  { rewrite S. rewrite Z.land_ones by lia. apply Z.mod_mul. lia. }
Qed.

End TraitsArithmetic.

(** A clock of late 2023. *)
Lemma proper_traits_encodable_witness :
  Working1inchLimitOrder.createProperMakerTraits 1700000000000
  = Working1inchLimitOrder.expiration 1700000000000 * 2 ^ 160 + 3
  /\ (Abi.in_range 256 (Working1inchLimitOrder.createProperMakerTraits 1700000000000)
      = true
      <-> Working1inchLimitOrder.expiration 1700000000000 < 2 ^ 96).
Proof. apply (proper_traits_encodable 1700000000000). lia. Defined.

Lemma advanced_traits_layout_witness :
  Z.land (Z.shiftr (Working1inchLimitOrder.createAdvancedMakerTraits 1700000000000) 160)
         (Z.ones 94)
  = Working1inchLimitOrder.expiration 1700000000000.
Proof.
  apply (advanced_traits_layout 1700000000000).
  vm_compute. split; [discriminate | reflexivity].
Defined.

(** ** What is filled, and with which signature *)

Section Fills.
Import Effects Lib Common Invariants.
Context {L : JsLib}.

Local Arguments ManualLimitOrderDemo.createOrderHash : simpl never.

(** X6. In every run of the five workflows that fill on the settlement
    contract, each [fillOrder] request (transaction or gas estimate) carries
    as its signature argument the text the wallet returned for the signing
    request of that run; none is made before the wallet has signed. *)
Theorem fills_carry_wallet_signature
      {W : Type} (h : handler W) (w : W) (traitsValue : SdkTraits -> Z)
      (ethAmount usdcAmount : number) (expected : option number) :
  fills_carry_signature None
    (trace_of h (ManualLimitOrderDemo.runDemo ethAmount) w) = true
  /\ fills_carry_signature None
    (trace_of h (Fixed1inchDemo.runDemo ethAmount) w) = true
  /\ fills_carry_signature None
    (trace_of h (SimpleLimitOrderDemo.runDemo ethAmount) w) = true
  /\ fills_carry_signature None
    (trace_of h (LimitOrderDemo.runCompleteDemo ethAmount usdcAmount) w) = true
  /\ fills_carry_signature None
    (trace_of h (WorkingLimitOrderDemo.runCompleteDemo traitsValue ethAmount expected) w)
     = true.
Proof.
  unfold trace_of, ManualLimitOrderDemo.runDemo, ManualLimitOrderDemo.fillOrder,
         Fixed1inchDemo.runDemo, SimpleLimitOrderDemo.runDemo,
         SimpleLimitOrderDemo.wrapETH, SimpleLimitOrderDemo.fillOrder,
         LimitOrderDemo.runCompleteDemo, LimitOrderDemo.createLimitOrder,
         LimitOrderDemo.executeLimitOrder,
         WorkingLimitOrderDemo.runCompleteDemo,
         WorkingLimitOrderDemo.createLimitOrder,
         WorkingLimitOrderDemo.executeLimitOrder, parseEther.
  repeat split; explore h; rewrite ?String.eqb_refl; reflexivity.
Qed.

(** X7. In every run of [ManualLimitOrderDemo.runDemo] and of
    [Fixed1inchDemo.runDemo], each [fillOrder] request passes the very order
    the wallet signed (all eight fields) and asks to fill it in full: the
    making and taking amounts of the request are the order's own. *)
Theorem fills_are_of_the_signed_order
      {W : Type} (h : handler W) (w : W) (ethAmount : number) :
  fills_signed_order None
    (trace_of h (ManualLimitOrderDemo.runDemo ethAmount) w) = true
  /\ fills_signed_order None
    (trace_of h (Fixed1inchDemo.runDemo ethAmount) w) = true.
Proof.
  unfold trace_of, ManualLimitOrderDemo.runDemo, ManualLimitOrderDemo.fillOrder,
         Fixed1inchDemo.runDemo, parseEther.
  repeat split; explore h; rewrite ?Z.eqb_refl; reflexivity.
Qed.

End Fills.

(** A fill with another signature than the wallet's, and a fill of another
    amount than the signed order's, are rejected by the two checks. *)
Example other_signature_rejected :
  Invariants.fills_carry_signature None
    [Effects.Entry
       (Effects.SignTypedData (Effects.mkSigner Scenario.alice)
          ManualLimitOrderDemo.DOMAIN OrderHashing.sample_order) (inr "0xaa"%string);
     Effects.Entry
       (Effects.Send (Fixed1inchDemo.fill_call OrderHashing.sample_order "0xbb")
          Effects.no_overrides) (inl (Effects.mkError "reverted"))] = false
  /\ Invariants.fills_signed_order None
    [Effects.Entry
       (Effects.SignTypedData (Effects.mkSigner Scenario.alice)
          ManualLimitOrderDemo.DOMAIN OrderHashing.sample_order) (inr "0xaa"%string);
     Effects.Entry
       (Effects.Send
          (Fixed1inchDemo.fill_call (with_salt OrderHashing.sample_order 5) "0xaa")
          Effects.no_overrides) (inl (Effects.mkError "reverted"))] = false.
Proof. split; reflexivity. Qed.

(** ** Creating the order by hand *)

Ltac branch_eq h :=
  match goal with
  | |- context [h ?R ?ev ?w] =>
      let e := fresh "err" in
      let v := fresh "v" in
      let w' := fresh "w" in
      destruct (h R ev w) as [[e | v] w']
  | |- context [Lib.parseUnits ?s ?d] => destruct (Lib.parseUnits s d) eqn:?
  | |- context [Common.second ?l] => destruct l as [| ? [| ? ?]]
  | |- context [Common.of_option _ ?o] => destruct o eqn:?
  | |- context [Z.ltb ?a ?b] => destruct (Z.ltb a b) eqn:?
  end.

Ltac explore_eq h := repeat (cbn; branch_eq h); cbn.

Section OrderCreation.
Import Effects Lib Common Invariants.
Context {L : JsLib}.

Local Arguments Working1inchLimitOrder.generateOrderHash : simpl never.
Local Arguments Working1inchLimitOrder.createProperMakerTraits : simpl never.

(** X8. Creating the order sends no transaction: no run of
    [createManualOrderDemo], [runHackathonDemo] or [runCompleteDemo] of
    [Working1inchLimitOrder] sends one.  [createManualOrderDemo] asks the
    wallet to sign at most once; the other two, which start it again after
    any error, at most twice. *)
Theorem order_creation_sends_nothing
      {W : Type} (h : handler W) (w : W) (wethAmount : number) :
  let created := trace_of h (Working1inchLimitOrder.createManualOrderDemo wethAmount) w in
  let hackathon := trace_of h (Working1inchLimitOrder.runHackathonDemo wethAmount) w in
  let complete := trace_of h (Working1inchLimitOrder.runCompleteDemo wethAmount) w in
  count is_send created = 0%nat
  /\ (count is_sign created <=? 1)%nat = true
  /\ count is_send hackathon = 0%nat
  /\ (count is_sign hackathon <=? 2)%nat = true
  /\ count is_send complete = 0%nat
  /\ (count is_sign complete <=? 2)%nat = true.
Proof.
  unfold trace_of, Working1inchLimitOrder.runCompleteDemo,
         Working1inchLimitOrder.runHackathonDemo,
         Working1inchLimitOrder.createManualOrderDemo, parseEther.
  repeat split; explore h; reflexivity.
Qed.

(** X9. When [runCompleteDemo] returns, its result is consistent with what
    the wallet signed: the returned order was signed under [domain] by the
    account that is its maker and receiver, the returned signature is the
    wallet's answer to that request, the returned hash (also the summary's)
    is [generateOrderHash] of the returned order under [domain], and the
    summary's method is the manual implementation's. *)
Theorem created_order_is_consistent
      {W : Type} (h : handler W) (w : W) (wethAmount : number) :
  match run h (Working1inchLimitOrder.runCompleteDemo wethAmount) w with
  | (inr r, tr, _) =>
      let c := Working1inchLimitOrder.orderCreated r in
      exists (s : signer) (o : Order) (sig : string),
        Working1inchLimitOrder.orderData c = Some o
        /\ Working1inchLimitOrder.or_signature c = Some sig
        /\ In (Entry (SignTypedData s Working1inchLimitOrder.domain o) (inr sig)) tr
        /\ maker o = account s /\ receiver o = account s
        /\ Working1inchLimitOrder.generateOrderHash o Working1inchLimitOrder.domain
           = Some (Working1inchLimitOrder.or_orderHash c)
        /\ Working1inchLimitOrder.sm_orderHash (Working1inchLimitOrder.summary r)
           = Working1inchLimitOrder.or_orderHash c
        /\ Working1inchLimitOrder.or_takingAmount c = takingAmount o
        /\ Working1inchLimitOrder.sm_method (Working1inchLimitOrder.summary r)
           = "1inch Limit Order Protocol V4 - Manual Implementation"%string
  | (inl _, _, _) => True
  end.
Proof.
  unfold Working1inchLimitOrder.runCompleteDemo,
         Working1inchLimitOrder.runHackathonDemo,
         Working1inchLimitOrder.createManualOrderDemo, parseEther.
  explore_eq h; try exact I;
    (eexists; eexists; eexists;
     split; [reflexivity |]; split; [reflexivity |];
     split; [cbn [In]; auto 20 |];
     split; [reflexivity |]; split; [reflexivity |];
     split; [eassumption |]; repeat split; reflexivity).
Qed.

End OrderCreation.

(** A run of [runCompleteDemo] that returns: 0.001 WETH quoted at 2.5 USDC. *)
Example complete_demo_returns :
  let cfg := Scenario.mkConfig Scenario.alice (10 ^ 18) (10 ^ 18) (5 * 10 ^ 6)
                               [10 ^ 15; 2500000] 1700000000000 7 Scenario.never in
  match Effects.outcome (Scenario.world cfg)
          (@Working1inchLimitOrder.runCompleteDemo DecimalJs.lib
             (DecimalJs.parse_float "0.001")) 0 with
  | inr r =>
      Working1inchLimitOrder.sm_trade (Working1inchLimitOrder.summary r)
      = "0.001 WETH → 2.500000 USDC"%string
  | inl _ => False
  end.
Proof. vm_compute. reflexivity. Qed.

(** ** Quotes and swaps through the router *)

Section Quotes.
Import Effects Lib Common Invariants.
Context {L : JsLib}.

(** X10. The three [getQuote] helpers ([WorkingUniswapDemo],
    [SimpleUniswapDemo], [UniswapDemo]) behave alike and never throw.  A
    run sends nothing and makes at most the one view call to the router.  It
    returns the formatted second entry of the router's answer, and "0" in
    exactly three cases: the amount does not parse, the call is rejected, or
    the answer has fewer than two entries. *)
Theorem quotes_never_throw
      {W : Type} (h : handler W) (w : W) (ethAmount : number) :
  run h (WorkingUniswapDemo.getQuote ethAmount) w
    = run h (UniswapDemo.getQuote ethAmount) w
  /\ run h (WorkingLimitOrderDemo.SimpleUniswapDemo.getQuote ethAmount) w
    = run h (UniswapDemo.getQuote ethAmount) w
  /\ outcome h (UniswapDemo.getQuote ethAmount) w
    = inr match parseEther (toString ethAmount) with
          | inl _ => "0"%string
          | inr amountIn =>
              match fst (h _ (getAmountsOut UNISWAP_ROUTER amountIn
                                [WETH_ADDRESS; USDC_ADDRESS]) w) with
              | inl _ => "0"%string
              | inr amounts =>
                  match nth_error amounts 1 with
                  | Some E => formatUnits E 6
                  | None => "0"%string
                  end
              end
          end
  /\ count is_send (trace_of h (UniswapDemo.getQuote ethAmount) w) = 0%nat
  /\ (List.length (trace_of h (UniswapDemo.getQuote ethAmount) w) <=? 1)%nat = true
  /\ count (is_view_of UNISWAP_ROUTER "getAmountsOut")
            (trace_of h (UniswapDemo.getQuote ethAmount) w)
     = List.length (trace_of h (UniswapDemo.getQuote ethAmount) w).
Proof.
  split; [reflexivity |]. split; [reflexivity |].
  unfold outcome, trace_of, UniswapDemo.getQuote, parseEther.
  destruct (parseUnits (toString ethAmount) 18) as [e | amountIn]; cbn.
  - repeat split.
  - change UniswapDemo.UNISWAP_V2_ROUTER with UNISWAP_ROUTER.
    change UniswapDemo.wethAddress with WETH_ADDRESS.
    change UniswapDemo.usdcAddress with USDC_ADDRESS.
    destruct (h (list Z)
                (getAmountsOut UNISWAP_ROUTER amountIn [WETH_ADDRESS; USDC_ADDRESS]) w)
      as [[e | [| a0 [| E rest]]] w1]; cbn; repeat split.
Qed.

End Quotes.

Section ComposedSwaps.
Import Effects Lib Common Invariants.
Context {L : JsLib}.

(** X11. The slippage bound and the deadline hold in the composed runs as
    well: in every run of [WorkingUniswapDemo.swapWETHForUSDC],
    [WorkingUniswapDemo.runDemo] (either way), [SimpleUniswapDemo.runDemo],
    [SimpleWorkingDemo.executeSwap] and [SimpleWorkingDemo.runDemo],
    [OfficialSDKDemo.runDemo] and [Working1inchLimitOrder.fillOrderAsTaker],
    each swap request carries 95%
    (BigInt division) of the quote read last before it, not of an earlier
    one, and the clock value read last, in seconds, plus 1200. *)
Theorem composed_swaps_bounded
      {W : Type} (h : handler W) (w : W) (amount : number) (useWETH : bool)
      (rate : string -> number -> string)
      (orderResult : Working1inchLimitOrder.OrderResult) :
  swaps_bounded None None
    (trace_of h (WorkingUniswapDemo.swapWETHForUSDC amount) w) = true
  /\ swaps_bounded None None
    (trace_of h (WorkingUniswapDemo.runDemo amount useWETH) w) = true
  /\ swaps_bounded None None
    (trace_of h (WorkingLimitOrderDemo.SimpleUniswapDemo.runDemo amount) w) = true
  /\ swaps_bounded None None
    (trace_of h (SimpleWorkingDemo.executeSwap amount) w) = true
  /\ swaps_bounded None None
    (trace_of h (SimpleWorkingDemo.runDemo rate amount) w) = true
  /\ swaps_bounded None None
    (trace_of h (OfficialSDKDemo.runDemo amount) w) = true
  /\ swaps_bounded None None
    (trace_of h (Working1inchLimitOrder.fillOrderAsTaker orderResult amount) w) = true.
Proof.
  unfold trace_of, WorkingUniswapDemo.runDemo, WorkingUniswapDemo.getQuote,
         WorkingUniswapDemo.swapWETHForUSDC, WorkingUniswapDemo.swapETHForUSDC,
         WorkingLimitOrderDemo.SimpleUniswapDemo.runDemo,
         WorkingLimitOrderDemo.SimpleUniswapDemo.getQuote,
         WorkingLimitOrderDemo.SimpleUniswapDemo.executeSwap,
         SimpleWorkingDemo.runDemo, SimpleWorkingDemo.getQuote,
         SimpleWorkingDemo.executeSwap,
         OfficialSDKDemo.runDemo, OfficialSDKDemo.createOrder,
         OfficialSDKDemo.fillOrderManually,
         Working1inchLimitOrder.fillOrderAsTaker,
         Working1inchLimitOrder.ensureUsdcAllowance,
         Working1inchLimitOrder.executeFallbackDemo, parseEther.
  repeat split.
  - explore h; rewrite ?Z.eqb_refl; reflexivity.
  - destruct useWETH; explore h; rewrite ?Z.eqb_refl; reflexivity.
  - explore h; rewrite ?Z.eqb_refl; reflexivity.
  - explore h; try congruence; rewrite ?Z.eqb_refl; reflexivity.
  - explore h; try congruence; rewrite ?Z.eqb_refl; reflexivity.
  - explore h; rewrite ?Z.eqb_refl; reflexivity.
  - destruct orderResult as [ok m oh [[| c sig] |] [o |] ta summary];
      explore h; rewrite ?Z.eqb_refl; reflexivity.
Qed.

(** X12. A token swap is sent only when the router's WETH allowance is
    known to cover its input amount: in every run of the seven helpers that
    swap WETH, each [swapExactTokensForTokens] transaction comes after an
    allowance answer that is not below the amount, or after an approval of
    at least the amount was sent and its confirmation awaited. *)
Theorem token_swaps_wait_for_allowance
      {W : Type} (h : handler W) (w : W) (amount : number)
      (rate : string -> number -> string)
      (official : OfficialSDKDemo.OrderResult)
      (orderResult : Working1inchLimitOrder.OrderResult) :
  let covered := token_swaps_covered WETH_ADDRESS UNISWAP_ROUTER (None, None) in
  covered (trace_of h (WorkingUniswapDemo.swapWETHForUSDC amount) w) = true
  /\ covered (trace_of h (WorkingUniswapDemo.runDemo amount true) w) = true
  /\ covered (trace_of h (SimpleWorkingDemo.executeSwap amount) w) = true
  /\ covered (trace_of h (SimpleWorkingDemo.runDemo rate amount) w) = true
  /\ covered (trace_of h (OfficialSDKDemo.fillOrderManually official) w) = true
  /\ covered (trace_of h (Working1inchLimitOrder.executeFallbackDemo amount) w) = true
  /\ covered (trace_of h (Working1inchLimitOrder.fillOrderAsTaker orderResult amount) w)
     = true.
Proof.
  intro covered. subst covered.
  unfold trace_of, WorkingUniswapDemo.runDemo, WorkingUniswapDemo.getQuote,
         WorkingUniswapDemo.swapWETHForUSDC,
         SimpleWorkingDemo.runDemo, SimpleWorkingDemo.getQuote,
         SimpleWorkingDemo.executeSwap,
         OfficialSDKDemo.fillOrderManually,
         Working1inchLimitOrder.fillOrderAsTaker,
         Working1inchLimitOrder.ensureUsdcAllowance,
         Working1inchLimitOrder.executeFallbackDemo, parseEther.
  repeat split.
  - explore h; try congruence;
      rewrite ?String.eqb_refl; cbn; rewrite ?Z.ltb_irrefl; reflexivity.
  - explore h; try congruence;
      rewrite ?String.eqb_refl; cbn; rewrite ?Z.ltb_irrefl; reflexivity.
  - explore h; try congruence;
      rewrite ?String.eqb_refl; cbn; rewrite ?Z.ltb_irrefl; reflexivity.
  - explore h; try congruence;
      rewrite ?String.eqb_refl; cbn; rewrite ?Z.ltb_irrefl; reflexivity.
  - explore h; try congruence;
      rewrite ?String.eqb_refl; cbn; rewrite ?Z.ltb_irrefl; reflexivity.
  - explore h; try congruence;
      rewrite ?String.eqb_refl; cbn; rewrite ?Z.ltb_irrefl; reflexivity.
  - destruct orderResult as [ok m oh [[| c sig] |] [o |] ta summary];
      explore h; try congruence;
      rewrite ?String.eqb_refl; cbn; rewrite ?Z.ltb_irrefl; reflexivity.
Qed.

End ComposedSwaps.

(** A token swap of more than the allowance read, with no approval in
    between, is rejected by the check. *)
Example uncovered_swap_rejected :
  Invariants.token_swaps_covered WETH_ADDRESS UNISWAP_ROUTER (None, None)
    [Effects.Entry (Common.allowance WETH_ADDRESS Scenario.alice UNISWAP_ROUTER) (inr 5);
     Effects.Entry
       (Effects.Send
          (Effects.mkCall UNISWAP_ROUTER "swapExactTokensForTokens"
             [Effects.AInt 6; Effects.AInt 0; Effects.AList [];
              Effects.AAddr Scenario.alice; Effects.AInt 0])
          Effects.no_overrides)
       (inl (Effects.mkError "reverted"))] = false.
Proof. reflexivity. Qed.

Section ApprovalHash.
Import Effects Lib Common Invariants.
Context {L : JsLib}.

(** X13. [SimpleWorkingDemo.executeSwap], and [SimpleWorkingDemo.runDemo]
    which calls it, return only from runs in which no approval was needed:
    the result then has no approval hash and the run sent no approval.  In
    a run that did approve, then swapped and saw the swap confirmed (two
    confirmations awaited successfully), the result is never returned:
    building it reads [approveTx] outside the block that declares it, and
    the function throws that reference error after the swap took place. *)
Theorem swap_result_lost_after_approval
      {W : Type} (h : handler W) (w : W) (wethAmount : number)
      (rate : string -> number -> string) :
  let lost (e : error) (tr : trace) : Prop :=
    if (count (ok is_wait) tr =? 2)%nat
    then e = SimpleWorkingDemo.approveTx_not_defined
         /\ count (ok (is_send_of "approve")) tr = 1%nat
         /\ count (ok (is_send_of "swapExactTokensForTokens")) tr = 1%nat
    else True in
  match run h (SimpleWorkingDemo.executeSwap wethAmount) w with
  | (inr r, tr, _) =>
      count (is_send_of "approve") tr = 0%nat
      /\ SimpleWorkingDemo.sr_approvalTx r = None
      /\ count (ok (is_send_of "swapExactTokensForTokens")) tr = 1%nat
  | (inl e, tr, _) => lost e tr
  end
  /\ match run h (SimpleWorkingDemo.runDemo rate wethAmount) w with
     | (inr r, tr, _) =>
         count (is_send_of "approve") tr = 0%nat
         /\ SimpleWorkingDemo.sr_approvalTx (SimpleWorkingDemo.dr_execution r) = None
         /\ count (ok (is_send_of "swapExactTokensForTokens")) tr = 1%nat
     | (inl e, tr, _) => lost e tr
     end.
Proof.
  intro lost. subst lost.
  unfold SimpleWorkingDemo.runDemo, SimpleWorkingDemo.getQuote,
         SimpleWorkingDemo.executeSwap, parseEther.
  split; explore h; try congruence; try exact I; repeat split; reflexivity.
Qed.

End ApprovalHash.

(** Such a run: allowance 0, balance 1 WETH, nothing reverts. *)
Example swap_then_reference_error :
  let cfg := Scenario.mkConfig Scenario.alice (10 ^ 18) (10 ^ 18) 0
                               [10 ^ 15; 2500000] 1700000000000 7 Scenario.never in
  let r := Effects.run (Scenario.world cfg)
             (@SimpleWorkingDemo.executeSwap DecimalJs.lib
                (DecimalJs.parse_float "0.001")) 0 in
  match fst (fst r) with
  | inl e => Effects.message e = "approveTx is not defined"%string
  | inr _ => False
  end
  /\ map Effects.describe (snd (fst r))
     = ["getSigner"; "balanceOf"; "allowance"; "send approve"; "wait";
        "getAmountsOut"; "Date.now"; "send swapExactTokensForTokens"; "wait"]%string.
Proof. vm_compute. split; reflexivity. Qed.

(** ** Wrapping, guards and gas *)

Section Wrapping.
Import Effects Lib Common Invariants.
Context {L : JsLib}.

(** X14. With a WETH balance [b] and a required amount [req], the two
    wrapping helpers deposit differently: [convertEthToWeth] deposits the
    shortfall [req - b], [SimpleLimitOrderDemo.wrapETH] the whole [req]; both
    deposit once when [b < req] and not at all otherwise.
    [convertEthToWeth] approves nothing; [wrapETH], when it returns, has
    approved exactly [req] of WETH for the settlement contract. *)
Theorem wrapping_deposits
      {W : Type} (h : handler W) (w w1 w2 : W) (ethAmount : number)
      (s : signer) (b req : Z) :
  h _ GetSigner w = (inr s, w1) ->
  h _ (balanceOf WETH_ADDRESS (account s)) w1 = (inr b, w2) ->
  parseEther (toString ethAmount) = inr req ->
  let converted := trace_of h (ManualBalances.convertEthToWeth ethAmount) w in
  let wrapped := run h (SimpleLimitOrderDemo.wrapETH ethAmount) w in
  deposits converted = (if b <? req then [Some (req - b)] else [])
  /\ deposits (snd (fst wrapped)) = (if b <? req then [Some req] else [])
  /\ approvals converted = []
  /\ match fst (fst wrapped) with
     | inr _ =>
         approvals (snd (fst wrapped)) = [(WETH_ADDRESS, LIMIT_ORDER_PROTOCOL, req)]
     | inl _ => True
     end.
Proof.
  intros Hs Hb Hp converted wrapped. subst converted wrapped.
  unfold parseEther in Hp.
  unfold trace_of, ManualBalances.convertEthToWeth, SimpleLimitOrderDemo.wrapETH,
         parseEther.
  cbn. rewrite Hs. cbn. rewrite Hb, Hp. cbn. rewrite Hb. cbn.
  destruct (b <? req); exec h; repeat split; reflexivity.
Qed.

End Wrapping.

(** A wallet holding 0.0004 WETH that needs 0.001. *)
Lemma wrapping_deposits_witness :
  let cfg := Scenario.mkConfig Scenario.alice (10 ^ 18) (4 * 10 ^ 14) 0
                               [10 ^ 15; 2500000] 1700000000000 7 Scenario.never in
  let x := DecimalJs.parse_float "0.001" in
  Invariants.deposits
    (Effects.trace_of (Scenario.world cfg)
       (@ManualBalances.convertEthToWeth DecimalJs.lib x) 0) = [Some (6 * 10 ^ 14)]
  /\ Invariants.deposits
    (snd (fst (Effects.run (Scenario.world cfg)
                 (@SimpleLimitOrderDemo.wrapETH DecimalJs.lib x) 0))) = [Some (10 ^ 15)].
Proof.
  intros cfg x.
  destruct (@wrapping_deposits DecimalJs.lib Scenario.World (Scenario.world cfg)
              0 0 0 x (Effects.mkSigner Scenario.alice) (4 * 10 ^ 14) (10 ^ 15))
    as [H1 [H2 _]].
  - reflexivity.
  - reflexivity.
  - vm_compute. reflexivity.
  - split; [exact H1 | exact H2].
Defined.

Section ClickHandler.
Import Effects Lib Common.
Context {L : JsLib}.

(** X15. The click handler [RobustSwapDemo.runDemo] never throws and
    leaves the connection, the balance and the amount field alone.  When a
    guard fails (no wallet, or balance below the amount plus 0.001) it makes
    no request at all, sets an error and keeps the earlier result and the
    loading flag as they were.  Past the guards it ends with the loading
    flag off and with exactly one of result and error set. *)
Theorem click_handler_never_throws
      {W : Type} (h : handler W) (w : W) (st : RobustSwapDemo.State) :
  exists (st' : RobustSwapDemo.State) (tr : trace) (w' : W),
    run h (RobustSwapDemo.runDemo st) w = (inr st', tr, w')
    /\ RobustSwapDemo.connected st' = RobustSwapDemo.connected st
    /\ RobustSwapDemo.balance_eth st' = RobustSwapDemo.balance_eth st
    /\ RobustSwapDemo.ethAmount st' = RobustSwapDemo.ethAmount st
    /\ if negb (RobustSwapDemo.connected st)
          || number_ltb (parseFloat (RobustSwapDemo.balance_eth st))
                        (plusMilli (parseFloat (RobustSwapDemo.ethAmount st)))
       then tr = [] /\ w' = w
            /\ RobustSwapDemo.result st' = RobustSwapDemo.result st
            /\ RobustSwapDemo.isLoading st' = RobustSwapDemo.isLoading st
            /\ (exists m, RobustSwapDemo.error st' = Some m)
       else RobustSwapDemo.isLoading st' = false
            /\ match RobustSwapDemo.result st', RobustSwapDemo.error st' with
               | Some _, None | None, Some _ => True
               | _, _ => False
               end.
Proof.
  unfold RobustSwapDemo.runDemo.
  destruct (RobustSwapDemo.connected st) eqn:Hc; cbn [negb orb].
  2: { eexists; eexists; eexists. split; [reflexivity |].
       cbn. rewrite Hc. repeat split. eexists. reflexivity. }
  destruct (number_ltb (parseFloat (RobustSwapDemo.balance_eth st))
                       (plusMilli (parseFloat (RobustSwapDemo.ethAmount st)))).
  { eexists; eexists; eexists. split; [reflexivity |].
    cbn. rewrite Hc. repeat split. eexists. reflexivity. }
  rewrite EffectFacts.run_bind, EffectFacts.run_try_catch, EffectFacts.run_bind.
  cbn [RobustSwapDemo.ethAmount RobustSwapDemo.setResult RobustSwapDemo.setError
       RobustSwapDemo.setIsLoading RobustSwapDemo.connected
       RobustSwapDemo.balance_eth RobustSwapDemo.isLoading
       RobustSwapDemo.result RobustSwapDemo.error].
  destruct (run h (UniswapDemo.runDemo (parseFloat (RobustSwapDemo.ethAmount st))) w)
    as [[[e1 | d1] tr1] w1].
  - rewrite EffectFacts.run_try_catch, EffectFacts.run_bind.
    destruct (run h (DirectSwapDemo.runDirectDemo
                       (parseFloat (RobustSwapDemo.ethAmount st))) w1)
      as [[[e2 | d2] tr2] w2]; cbn;
      (eexists; eexists; eexists; split; [reflexivity |]);
      cbn; rewrite Hc; repeat split.
  - cbn. eexists; eexists; eexists. split; [reflexivity |].
    cbn. rewrite Hc. repeat split.
Qed.

End ClickHandler.

Section GasEstimates.
Import Effects Lib Common Invariants.
Context {L : JsLib}.

Lemma gas_margin (g : Z) : 0 <= g -> g <= Z.quot (g * 120) 100.
Proof.
  intro H. rewrite Z.quot_div_nonneg by lia.
  apply Z.div_le_lower_bound; lia.
Qed.

(** X16. The two helpers that estimate gas send their transaction only
    directly after an accepted estimate of the very same call with the same
    value, and with 120% of that estimate (BigInt division, so never less
    than a non-negative estimate) as gas limit: the [swap] of
    [DirectSwapDemo] and the [fillOrder] of [LimitOrderDemo].  A rejected
    estimate therefore means that nothing is sent. *)
Theorem transactions_follow_their_estimate
      {W : Type} (h : handler W) (w : W) (ethAmount usdcAmount : number)
      (limitOrder : LimitOrder) (signature : string) (resolver : address) :
  sends_follow_estimate "swap" None
    (trace_of h (DirectSwapDemo.executeDirectSwap ethAmount) w) = true
  /\ sends_follow_estimate "swap" None
    (trace_of h (DirectSwapDemo.runDirectDemo ethAmount) w) = true
  /\ sends_follow_estimate "fillOrder" None
    (trace_of h (LimitOrderDemo.executeLimitOrder limitOrder signature resolver) w)
     = true
  /\ sends_follow_estimate "fillOrder" None
    (trace_of h (LimitOrderDemo.runCompleteDemo ethAmount usdcAmount) w) = true
  /\ forall g, 0 <= g ->
       follows_estimate
         (Some (LimitOrderDemo.fill_call limitOrder signature, Some 0, g))
         (LimitOrderDemo.fill_call limitOrder signature)
         (mkOverrides (Some 0) (Some (Z.quot (g * 120) 100))) = true
       /\ g <= Z.quot (g * 120) 100.
Proof.
  unfold trace_of, DirectSwapDemo.runDirectDemo, DirectSwapDemo.executeDirectSwap,
         LimitOrderDemo.runCompleteDemo, LimitOrderDemo.createLimitOrder,
         LimitOrderDemo.executeLimitOrder, parseEther.
  repeat split.
  - explore h; unfold follows_estimate, call_eqb; cbn;
      rewrite ?Z.eqb_refl, ?String.eqb_refl; reflexivity.
  - explore h; unfold follows_estimate, call_eqb; cbn;
      rewrite ?Z.eqb_refl, ?String.eqb_refl; reflexivity.
  - explore h; unfold follows_estimate, call_eqb; cbn;
      rewrite ?Z.eqb_refl, ?String.eqb_refl; reflexivity.
  - explore h; unfold follows_estimate, call_eqb; cbn;
      rewrite ?Z.eqb_refl, ?String.eqb_refl; reflexivity.
  - unfold follows_estimate, call_eqb; cbn;
      rewrite ?Z.eqb_refl, ?String.eqb_refl; reflexivity.
  - apply gas_margin. assumption.
Qed.

End GasEstimates.

(** An estimate of 150000 gas for the fill of the sample order. *)
Lemma transactions_follow_their_estimate_witness :
  150000 <= Z.quot (150000 * 120) 100.
Proof.
  destruct (@transactions_follow_their_estimate DecimalJs.lib Scenario.World
              (Scenario.world
                 (Scenario.mkConfig Scenario.alice 0 0 0 [] 0 0 Scenario.never))
              0 (DecimalJs.parse_float "0.001") (DecimalJs.parse_float "2.5")
              (Effects.mkLimitOrder OrderHashing.sample_order) "0x5167"%string
              Scenario.alice)
    as [_ [_ [_ [_ H]]]].
  apply (H 150000). lia.
Defined.

(** A transaction with another gas limit than 120% of the estimate is
    rejected by the check. *)
Example other_gas_limit_rejected :
  let c := LimitOrderDemo.fill_call (Effects.mkLimitOrder OrderHashing.sample_order)
                                    "0x5167" in
  Invariants.sends_follow_estimate "fillOrder" None
    [Effects.Entry (Effects.EstimateGas c (Effects.mkOverrides (Some 0) None))
                   (inr 150000);
     Effects.Entry (Effects.Send c (Effects.mkOverrides (Some 0) (Some 150000)))
                   (inl (Effects.mkError "out of gas"))] = false
  /\ Invariants.sends_follow_estimate "fillOrder" None
    [Effects.Entry (Effects.EstimateGas c (Effects.mkOverrides (Some 0) None))
                   (inr 150000);
     Effects.Entry (Effects.Send c (Effects.mkOverrides (Some 0) (Some 180000)))
                   (inl (Effects.mkError "reverted"))] = true.
Proof. split; reflexivity. Qed.

(** ** What reaches the settlement contract *)

Section Settlement.
Import Effects Lib Common Invariants.
Context {L : JsLib}.

Local Arguments ManualLimitOrderDemo.createOrderHash : simpl never.

(** X17. [Working1inchLimitOrder.fillOrderAsTaker] never sends a
    [fillOrder] transaction: the settlement contract only sees its
    simulation and gas estimate, the trade goes through the router.
    Without order data it fails after at most the signer lookup.  Without a
    signature (absent or empty) it fails too, before any fill request and
    before any swap. *)
Theorem taker_never_fills
      {W : Type} (h : handler W) (w : W)
      (orderResult : Working1inchLimitOrder.OrderResult) (wethAmount : number) :
  let r := run h (Working1inchLimitOrder.fillOrderAsTaker orderResult wethAmount) w in
  let tr := snd (fst r) in
  count (is_send_of "fillOrder") tr = 0%nat
  /\ match Working1inchLimitOrder.orderData orderResult with
     | None => failed (fst (fst r)) /\ (List.length tr <=? 1)%nat = true
     | Some _ => True
     end
  /\ match Working1inchLimitOrder.or_signature orderResult with
     | None | Some EmptyString =>
         failed (fst (fst r))
         /\ count is_fill_request tr = 0%nat
         /\ count (is_send_of "swapExactTokensForTokens") tr = 0%nat
     | Some _ => True
     end.
Proof.
  unfold Working1inchLimitOrder.fillOrderAsTaker,
         Working1inchLimitOrder.ensureUsdcAllowance,
         Working1inchLimitOrder.executeFallbackDemo, parseEther, failed.
  destruct orderResult as [ok m oh [[| c sig] |] [o |] ta summary];
    explore h; repeat split; reflexivity.
Qed.

(** X18. [OfficialSDKDemo.runDemo] makes no request of any kind to the
    settlement contract, asks for at most one signature, and approves WETH
    for nobody but the router. *)
Theorem official_demo_never_settles
      {W : Type} (h : handler W) (w : W) (ethAmount : number) :
  let tr := trace_of h (OfficialSDKDemo.runDemo ethAmount) w in
  count (is_call_to LIMIT_ORDER_PROTOCOL) tr = 0%nat
  /\ (count is_sign tr <=? 1)%nat = true
  /\ forallb (fun a => (fst (fst a) =? WETH_ADDRESS) && (snd (fst a) =? UNISWAP_ROUTER))
             (approvals tr) = true.
Proof.
  unfold trace_of, OfficialSDKDemo.runDemo, OfficialSDKDemo.createOrder,
         OfficialSDKDemo.fillOrderManually, parseEther.
  repeat split; explore h; reflexivity.
Qed.

(** X19. The stage order of the other three workflows that fill on the
    settlement contract.  [Fixed1inchDemo.runDemo] keeps the order of
    [ManualLimitOrderDemo.runDemo] and asks the contract for the order hash
    only after the wallet signed.  In the [runCompleteDemo] of
    [WorkingLimitOrderDemo] and of [LimitOrderDemo] the SDK builds the order
    before it is signed, and the taker-side checks and every fill request
    come after the signature; in [WorkingLimitOrderDemo] a fill request also
    comes only after the USDC approval was sent and confirmed.  Any of the
    three that returns has signed once and submitted one fill. *)
Theorem other_workflows_stage_order
      {W : Type} (h : handler W) (w : W) (traitsValue : SdkTraits -> Z)
      (ethAmount usdcAmount : number) (expected : option number) :
  (let r := run h (Fixed1inchDemo.runDemo ethAmount) w in
   stage_order (snd (fst r)) = true
   /\ all_stages_done (fst (fst r)) (snd (fst r)) = true
   /\ preceded_by (ok is_sign) (is_view_of LIMIT_ORDER_PROTOCOL "hashOrder") false
                  (snd (fst r)) = true)
  /\
  (let r := run h (WorkingLimitOrderDemo.runCompleteDemo traitsValue ethAmount expected) w in
   preceded_by (ok is_sdk_build) is_sign false (snd (fst r)) = true
   /\ preceded_by (ok is_sign) is_taker_precondition false (snd (fst r)) = true
   /\ preceded_by (ok is_sign) is_fill_request false (snd (fst r)) = true
   /\ fills_after_confirmation usdc_approval is_fill_request NotSent (snd (fst r)) = true
   /\ all_stages_done (fst (fst r)) (snd (fst r)) = true)
  /\
  (let r := run h (LimitOrderDemo.runCompleteDemo ethAmount usdcAmount) w in
   preceded_by (ok is_sdk_build) is_sign false (snd (fst r)) = true
   /\ preceded_by (ok is_sign) is_taker_precondition false (snd (fst r)) = true
   /\ preceded_by (ok is_sign) is_fill_request false (snd (fst r)) = true
   /\ all_stages_done (fst (fst r)) (snd (fst r)) = true).
Proof.
  unfold Fixed1inchDemo.runDemo, WorkingLimitOrderDemo.runCompleteDemo,
         WorkingLimitOrderDemo.createLimitOrder,
         WorkingLimitOrderDemo.executeLimitOrder,
         LimitOrderDemo.runCompleteDemo, LimitOrderDemo.createLimitOrder,
         LimitOrderDemo.executeLimitOrder, stage_order, all_stages_done, parseEther.
  split; [| split].
  - explore h; rewrite ?String.eqb_refl; repeat split; reflexivity.
  - explore h; rewrite ?String.eqb_refl; repeat split; reflexivity.
  - explore h; rewrite ?String.eqb_refl; repeat split; reflexivity.
Qed.

(** X20. The three helpers that create the order through the SDK
    ([OfficialSDKDemo.createOrder] and the [createLimitOrder] of
    [LimitOrderDemo] and of [WorkingLimitOrderDemo]) send no transaction and
    sign at most once.  When one returns, the SDK was asked for an order
    with partial and multiple fills allowed, the wallet signed the message
    of the typed data the SDK gave for that order under that data's domain,
    and the returned signature and typed data are the wallet's answer and
    that message. *)
Theorem sdk_creation_signs_typed_data
      {W : Type} (h : handler W) (w : W) (traitsValue : SdkTraits -> Z)
      (ethAmount usdcAmount : number) (expected : option number)
      (walletAddress : address) :
  let signed (tr : trace) (lo : LimitOrder) (sig : string) (msg : Order) : Prop :=
    count is_send tr = 0%nat
    /\ count is_sign tr = 1%nat
    /\ exists (s : signer) (info : OrderInfo) (traits : SdkTraits) (td : TypedData),
        In (Entry (SdkCreateOrder info traits) (inr lo)) tr
        /\ allowPartialFills traits = true /\ allowMultipleFills traits = true
        /\ info_maker info = info_receiver info
        /\ In (Entry (SdkGetTypedData lo 1) (inr td)) tr
        /\ In (Entry (SignTypedData s (td_domain td) (td_message td)) (inr sig)) tr
        /\ msg = td_message td in
  match run h (OfficialSDKDemo.createOrder ethAmount) w with
  | (inr r, tr, _) =>
      signed tr (OfficialSDKDemo.limitOrder r) (OfficialSDKDemo.or_signature r)
             (OfficialSDKDemo.typedData r)
  | (inl _, tr, _) => count is_send tr = 0%nat /\ (count is_sign tr <=? 1)%nat = true
  end
  /\ match run h (LimitOrderDemo.createLimitOrder ethAmount usdcAmount walletAddress) w with
     | (inr r, tr, _) =>
         signed tr (LimitOrderDemo.co_limitOrder r) (LimitOrderDemo.co_signature r)
                (LimitOrderDemo.co_typedData r)
     | (inl _, tr, _) => count is_send tr = 0%nat /\ (count is_sign tr <=? 1)%nat = true
     end
  /\ match run h (WorkingLimitOrderDemo.createLimitOrder traitsValue ethAmount expected) w with
     | (inr r, tr, _) =>
         signed tr (WorkingLimitOrderDemo.co_limitOrder r)
                (WorkingLimitOrderDemo.co_signature r)
                (WorkingLimitOrderDemo.co_typedData r)
     | (inl _, tr, _) => count is_send tr = 0%nat /\ (count is_sign tr <=? 1)%nat = true
     end.
Proof.
  intro signed. subst signed.
  unfold OfficialSDKDemo.createOrder, OfficialSDKDemo.chainId,
         LimitOrderDemo.createLimitOrder,
         WorkingLimitOrderDemo.createLimitOrder, parseEther.
  split; [| split]; explore h; try (split; reflexivity);
    (split; [reflexivity |]; split; [reflexivity |];
     eexists; eexists; eexists; eexists;
     split; [cbn [In]; auto 20 |];
     split; [reflexivity |]; split; [reflexivity |]; split; [reflexivity |];
     split; [cbn [In]; auto 20 |]; split; [cbn [In]; auto 20 | reflexivity]).
Qed.

(** X21. A fill is requested only when, as far as the run knows, the taker
    can pay.  In every run of [ManualLimitOrderDemo.runDemo],
    [Fixed1inchDemo.runDemo], and the [executeLimitOrder] of
    [WorkingLimitOrderDemo] and of [LimitOrderDemo], each [fillOrder] request
    asks for no more USDC than the balance read last.  In the first three,
    it also comes after a USDC approval for the settlement contract of at
    least the taking amount was sent and its confirmation awaited. *)
Theorem fills_within_means
      {W : Type} (h : handler W) (w : W) (traitsValue : SdkTraits -> Z)
      (ethAmount : number) (created : WorkingLimitOrderDemo.CreatedOrder)
      (limitOrder : LimitOrder) (signature : string) (resolver : address) :
  let within := fills_within_balance USDC_ADDRESS None in
  let covered := fills_covered USDC_ADDRESS LIMIT_ORDER_PROTOCOL (None, None) in
  let manual := trace_of h (ManualLimitOrderDemo.runDemo ethAmount) w in
  let fixed := trace_of h (Fixed1inchDemo.runDemo ethAmount) w in
  let working := trace_of h (WorkingLimitOrderDemo.executeLimitOrder created) w in
  let limit := trace_of h (LimitOrderDemo.executeLimitOrder limitOrder signature resolver) w in
  within manual = true /\ covered manual = true
  /\ within fixed = true /\ covered fixed = true
  /\ within working = true /\ covered working = true
  /\ within limit = true.
Proof.
  intros within covered manual fixed working limit.
  subst within covered manual fixed working limit.
  unfold trace_of, ManualLimitOrderDemo.runDemo, ManualLimitOrderDemo.fillOrder,
         Fixed1inchDemo.runDemo, WorkingLimitOrderDemo.executeLimitOrder,
         LimitOrderDemo.executeLimitOrder, parseEther.
  repeat split; explore h; try congruence;
    rewrite ?String.eqb_refl; cbn; rewrite ?Z.ltb_irrefl; reflexivity.
Qed.

End Settlement.

(** A taker run without a signature: the USDC approval is sent and
    confirmed before the missing signature is noticed. *)
Example approval_before_missing_signature :
  let cfg := Scenario.mkConfig Scenario.alice (10 ^ 18) (10 ^ 18) (5000 * 10 ^ 6)
                               [10 ^ 15; 2500000] 1700000000000 7 Scenario.never in
  let orderResult :=
    Working1inchLimitOrder.mkOrderResult true "" [] None
      (Some OrderHashing.sample_order) 2500000
      (Working1inchLimitOrder.mkOrderSummary 0 0 0 "" "" 0 "") in
  let r := Effects.run (Scenario.world cfg)
             (@Working1inchLimitOrder.fillOrderAsTaker DecimalJs.lib orderResult
                (DecimalJs.parse_float "0.001")) 0 in
  match fst (fst r) with
  | inl e => Effects.message e = "No signature found in order data"%string
  | inr _ => False
  end
  /\ map Effects.describe (snd (fst r))
     = ["getSigner"; "balanceOf"; "allowance"; "send approve"; "wait";
        "allowance"]%string.
Proof. vm_compute. split; reflexivity. Qed.

(** A fill asking for more than the balance read is rejected by the check. *)
Example fill_above_balance_rejected :
  Invariants.fills_within_balance USDC_ADDRESS None
    [Effects.Entry (Common.balanceOf USDC_ADDRESS Scenario.alice) (inr 2499999999);
     Effects.Entry
       (Effects.Send
          (LimitOrderDemo.fill_call (Effects.mkLimitOrder OrderHashing.sample_order)
                                    "0x5167")
          Effects.no_overrides)
       (inl (Effects.mkError "reverted"))] = false.
Proof. reflexivity. Qed.

(** ** What the results report *)

Section Results.
Import Effects Lib Common Invariants.
Context {L : JsLib}.

Local Arguments ManualLimitOrderDemo.createOrderHash : simpl never.
Local Arguments Fixed1inchDemo.bigint_toString : simpl never.

(** X22. When [ManualLimitOrderDemo.runDemo] or [Fixed1inchDemo.runDemo]
    returns, the result reports the run.  Its signature is the wallet's
    answer to the signing request (under the file's own domain) and its
    execution is the fill that was sent and confirmed.  In
    [ManualLimitOrderDemo] the order returned is the order that was signed
    and the hash is the local [createOrderHash] of it.  In [Fixed1inchDemo]
    the order returned is a summary of the signed order (salt and traits
    printed in decimal, maker, the two amounts formatted with 18 and 6
    decimals; no receiver and no assets) and the hash is the contract's
    answer to [hashOrder]. *)
Theorem demo_results_report_the_run
      {W : Type} (h : handler W) (w : W) (ethAmount : number) :
  match run h (ManualLimitOrderDemo.runDemo ethAmount) w with
  | (inr r, tr, _) =>
      last_of signing_answer None tr
      = Some (ManualLimitOrderDemo.DOMAIN, ManualLimitOrderDemo.res_order r,
              ManualLimitOrderDemo.res_signature r)
      /\ ManualLimitOrderDemo.createOrderHash (ManualLimitOrderDemo.res_order r)
         = Some (ManualLimitOrderDemo.res_orderHash r)
      /\ reports_fill (ManualLimitOrderDemo.res_execution r) tr
  | (inl _, _, _) => True
  end
  /\ match run h (Fixed1inchDemo.runDemo ethAmount) w with
     | (inr r, tr, _) =>
         (exists o : Order,
             last_of signing_answer None tr
             = Some (Fixed1inchDemo.DOMAIN, o, Fixed1inchDemo.res_signature r)
             /\ Fixed1inchDemo.res_order r
                = Fixed1inchDemo.mkOrderSummary
                    (Fixed1inchDemo.bigint_toString (salt o)) (maker o)
                    (formatEther (makingAmount o))
                    (formatUnits (takingAmount o) 6)
                    (Fixed1inchDemo.bigint_toString (makerTraits o)))
         /\ last_of hash_answer None tr = Some (Fixed1inchDemo.res_orderHash r)
         /\ reports_fill (Fixed1inchDemo.res_execution r) tr
     | (inl _, _, _) => True
     end.
Proof.
  unfold ManualLimitOrderDemo.runDemo, ManualLimitOrderDemo.fillOrder,
         Fixed1inchDemo.runDemo, reports_fill, parseEther.
  split; explore_eq h; try exact I.
  - split; [reflexivity |]. split; [eassumption |].
    eexists; eexists; repeat split; reflexivity.
  - split; [eexists; split; reflexivity |]. split; [reflexivity |].
    eexists; eexists; repeat split; reflexivity.
Qed.

(** X23. The swap record a router helper returns reports the swap that was
    sent last and its confirmation, and the output it names is the quote
    read before the trade, formatted with six decimals: as [expectedOutput]
    in the four ETH and WETH swaps, and as [actualOutput] in
    [OfficialSDKDemo.fillOrderManually] and
    [Working1inchLimitOrder.executeFallbackDemo], which read nothing from
    the confirmation to obtain it. *)
Theorem swap_results_report_the_quote
      {W : Type} (h : handler W) (w : W) (amount : number)
      (official : OfficialSDKDemo.OrderResult) :
  let quoted (tr : trace) (out : option string) : Prop :=
    exists E, last_of quote_answer None tr = Some E /\ out = Some (formatUnits E 6) in
  match run h (WorkingUniswapDemo.swapETHForUSDC amount) w with
  | (inr r, tr, _) =>
      reports_swap r tr /\ quoted tr (expectedOutput r)
      /\ exists E, last_of quote_answer None tr = Some E
                   /\ minOutput r = Some (formatUnits (minAmountOut E) 6)
  | (inl _, _, _) => True
  end
  /\ match run h (WorkingUniswapDemo.swapWETHForUSDC amount) w with
     | (inr r, tr, _) => reports_swap r tr /\ quoted tr (expectedOutput r)
     | (inl _, _, _) => True
     end
  /\ match run h (WorkingLimitOrderDemo.SimpleUniswapDemo.executeSwap amount) w with
     | (inr r, tr, _) => reports_swap r tr /\ quoted tr (expectedOutput r)
     | (inl _, _, _) => True
     end
  /\ match run h (UniswapDemo.executeSwap amount) w with
     | (inr r, tr, _) => reports_swap r tr /\ quoted tr (expectedOutput r)
     | (inl _, _, _) => True
     end
  /\ match run h (OfficialSDKDemo.fillOrderManually official) w with
     | (inr r, tr, _) =>
         reports_swap r tr /\ quoted tr (actualOutput r) /\ expectedOutput r = None
     | (inl _, _, _) => True
     end
  /\ match run h (Working1inchLimitOrder.executeFallbackDemo amount) w with
     | (inr r, tr, _) =>
         reports_swap r tr /\ quoted tr (actualOutput r) /\ expectedOutput r = None
     | (inl _, _, _) => True
     end.
Proof.
  intro quoted. subst quoted.
  unfold WorkingUniswapDemo.swapETHForUSDC, WorkingUniswapDemo.swapWETHForUSDC,
         WorkingLimitOrderDemo.SimpleUniswapDemo.executeSwap,
         UniswapDemo.executeSwap, OfficialSDKDemo.fillOrderManually,
         Working1inchLimitOrder.executeFallbackDemo, reports_swap, parseEther.
  repeat apply conj; explore h; try exact I;
    repeat match goal with
           | |- _ /\ _ => split
           | |- exists _, _ => eexists
           end; reflexivity.
Qed.

End Results.

(** The summary [Fixed1inchDemo.runDemo] returns for 0.001 WETH. *)
Example fixed_demo_summary :
  let cfg := Scenario.mkConfig Scenario.alice (10 ^ 18) (10 ^ 18) (5 * 10 ^ 6)
                               [10 ^ 15; 2500000] 1700000000000 7 Scenario.never in
  match Effects.outcome (Scenario.world cfg)
          (@Fixed1inchDemo.runDemo DecimalJs.lib (DecimalJs.parse_float "0.001")) 0 with
  | inr r =>
      let o := Fixed1inchDemo.res_order r in
      Fixed1inchDemo.sum_salt o = "1700000000"%string
      /\ Fixed1inchDemo.sum_maker o = Scenario.alice
      /\ Fixed1inchDemo.sum_makingAmount o = "0.001"%string
      /\ Fixed1inchDemo.sum_takingAmount o = "2.5"%string
      /\ Fixed1inchDemo.sum_makerTraits o
         = "86844066927987146567678238756515930889952488499230423029593188005934847229952"%string
  | inl _ => False
  end.
Proof. vm_compute. repeat split. Qed.
